(** * Food-ordering backend: cart manager, order builder and order query

    A shallow embedding of the request handlers of [server.js]
    (the cart routes, [POST /api/order/place], [POST /api/order/userorders]
    and the [orderSchema] pre-save hook), with the document store made an
    explicit state that every handler threads.

    Conventions of the embedding:
    - a number of the language, a cart quantity as much as a price or an
      amount of money, is an IEEE-754 binary64 [float], with the
      language's own rounding; the [quantity] of a request body is a
      number, or is left out;
    - a cart holds numbers and, once a request has named one of the
      properties every object inherits, the strings the language makes
      of such a property and the numbers added to it;
    - [cartData] is a plain object used as a map; it is an association
      list of its own properties in insertion order, read through the
      prototype as the language reads it;
    - a document id is the text its [toString()] gives; the cast from a
      string of a request to a document id is the mapper's and is left
      open;
    - what the environment decides (the clock, the fresh document id,
      whether the storage layer accepts a write) is an explicit input. *)

From Stdlib Require Import ZArith NArith List Bool Ascii String Lia.
From Stdlib Require Import Floats DecimalString DecimalFacts DecimalPos DecimalN.
From Stdlib Require Import Sorting.Sorted Sorting.Permutation.
From stdpp Require Import base option gmap strings.

Set Warnings "-inexact-float".

Local Open Scope Z_scope.
Local Open Scope string_scope.

(** ** Values of the language *)

(** What a plain object inherits: [Object.prototype] itself, which
    [__proto__] reads, and the methods of [Object.prototype]. *)
Inductive Builtin :=
| ObjectPrototype
| Method (name : string).

(** A value that reading a cart can give: a number; an inherited
    object or function; or the string the language makes of an
    inherited object or function followed by the decimal forms of the
    numbers since added to it, in the order they were added. *)
Inductive JsValue :=
| Num (n : float)
| Ref (b : Builtin)
| Str (b : Builtin) (appended : list float).

(** [Number(v)]: the text of an object or of a function is not a
    numeral. *)
Definition ToNumber (v : JsValue) : float :=
  match v with
  | Num n => n
  | Ref _ => nan
  | Str _ _ => nan
  end.

(** [Boolean(v)]: a number is falsy when it is a zero or not a number;
    an object, a function and a string that is not empty are truthy. *)
Definition ToBoolean (v : JsValue) : bool :=
  match v with
  | Num n => negb (PrimFloat.eqb n 0) && PrimFloat.eqb n n
  | Ref _ => true
  | Str _ _ => true
  end.

(** [v + q] for a number [q]: a sum of numbers, or a concatenation. *)
Definition js_add (v : JsValue) (q : float) : JsValue :=
  match v with
  | Num n => Num (n + q)
  | Ref b => Str b [q]
  | Str b l => Str b (l ++ [q])
  end.

(** [v - q] for a number [q]. *)
Definition js_sub (v : JsValue) (q : float) : JsValue :=
  Num (ToNumber v - q).

(** [v > 0], and the number that passes the test. *)
Definition gt_zero (v : JsValue) : option float :=
  match v with
  | Num n => if PrimFloat.ltb 0 n then Some n else None
  | Ref _ => None
  | Str _ _ => None
  end.

(** ** Plain objects used as maps *)

Module JsObject.

(** The own properties of an object with string keys, in insertion
    order. *)
Definition t := list (string * JsValue).

(** The own property [k], if there is one. *)
Fixpoint own (o : t) (k : string) : option JsValue :=
  match o with
  | [] => None
  | (k', v) :: o' => if String.eqb k' k then Some v else own o' k
  end.

(** The methods of [Object.prototype], each under its property name
    and with the name of the function. *)
Definition methods : list (string * string) :=
  [("constructor", "Object");
   ("hasOwnProperty", "hasOwnProperty");
   ("isPrototypeOf", "isPrototypeOf");
   ("propertyIsEnumerable", "propertyIsEnumerable");
   ("toLocaleString", "toLocaleString");
   ("toString", "toString");
   ("valueOf", "valueOf");
   ("__defineGetter__", "__defineGetter__");
   ("__defineSetter__", "__defineSetter__");
   ("__lookupGetter__", "__lookupGetter__");
   ("__lookupSetter__", "__lookupSetter__")].

(** What a plain object gives for [k] when it has no own property of
    that name. *)
Definition inherited (k : string) : option JsValue :=
  if String.eqb k "__proto__" then Some (Ref ObjectPrototype)
  else
    match List.find (fun m => String.eqb (fst m) k) methods with
    | Some m => Some (Ref (Method (snd m)))
    | None => None
    end.

(** [obj[k]]; [None] is [undefined]. *)
Definition get (o : t) (k : string) : option JsValue :=
  match own o k with
  | Some v => Some v
  | None => inherited k
  end.

(** Writing an own property: an existing one keeps its place, a new
    one goes last. *)
Fixpoint put (o : t) (k : string) (v : JsValue) : t :=
  match o with
  | [] => [(k, v)]
  | (k', v') :: o' =>
      if String.eqb k' k then (k, v) :: o' else (k', v') :: put o' k v
  end.

(** [obj[k] = v] for a number or a string [v]. With no own property
    of that name, [__proto__] is the setter of the prototype, which
    ignores such a value. *)
Definition set (o : t) (k : string) (v : JsValue) : t :=
  match own o k with
  | Some _ => put o k v
  | None => if String.eqb k "__proto__" then o else put o k v
  end.

(** [delete obj[k]]. *)
Fixpoint delete (o : t) (k : string) : t :=
  match o with
  | [] => []
  | (k', v') :: o' =>
      if String.eqb k' k then delete o' k else (k', v') :: delete o' k
  end.

(** Truthiness of [obj[k]]. *)
Definition truthy (v : option JsValue) : bool :=
  match v with
  | Some v => ToBoolean v
  | None => false
  end.

(** [obj[k] <= 0]. *)
Definition le_zero (v : option JsValue) : bool :=
  match v with
  | Some v => PrimFloat.leb (ToNumber v) 0
  | None => false
  end.

(** [obj[k] || 0]. *)
Definition or_zero (v : option JsValue) : JsValue :=
  match v with
  | Some v => if ToBoolean v then v else Num 0
  | None => Num 0
  end.

End JsObject.

(** ** The document store *)

(** [foodSchema]; the document id, in the text its [toString()] gives,
    is the key under which the store holds the document. *)
Record Food := {
  food_name : string;
  food_description : string;
  food_price : float;
  food_image : string;
  food_category : string;
  isAvailable : bool
}.

(** [userSchema]. *)
Record User := {
  user_name : string;
  user_email : string;
  user_password : string;
  cartData : JsObject.t
}.

(** The [address] object of a request body and of [orderSchema]; a field
    is [None] when the body does not carry it. *)
Record Address := {
  firstName : option string;
  lastName : option string;
  email : option string;
  street : option string;
  city : option string;
  state : option string;
  zipcode : option string;
  country : option string;
  phone : option string
}.

(** The [status] and [paymentStatus] enumerations of [orderSchema]. *)
Inductive Status :=
| FoodProcessing | Confirmed | Preparing | OutForDelivery | Delivered
| Cancelled.

Inductive PaymentStatus := Pending | Paid | Failed.

Definition status_text (st : Status) : string :=
  match st with
  | FoodProcessing => "Food Processing"
  | Confirmed => "Confirmed"
  | Preparing => "Preparing"
  | OutForDelivery => "Out for delivery"
  | Delivered => "Delivered"
  | Cancelled => "Cancelled"
  end.

(** An element of [orderSchema.items]. *)
Record OrderItem := {
  foodId : string;
  item_name : string;
  item_price : float;
  item_quantity : float;
  item_image : string
}.

(** [orderSchema], with the two fields [timestamps: true] adds. *)
Record Order := {
  order_id : string;
  userId : string;
  orderNumber : string;
  items : list OrderItem;
  amount : float;
  deliveryFee : float;
  totalAmount : float;
  address : Address;
  status : Status;
  paymentStatus : PaymentStatus;
  paymentId : option string;
  createdAt : N;
  updatedAt : N
}.

(** The three collections. [orders] is in insertion order. *)
Record Store := {
  users : gmap string User;
  foods : gmap string Food;
  orders : list Order
}.

Definition with_users (s : Store) (us : gmap string User) : Store :=
  {| users := us; foods := foods s; orders := orders s |}.

Definition with_orders (s : Store) (os : list Order) : Store :=
  {| users := users s; foods := foods s; orders := os |}.

Definition with_cart (u : User) (c : JsObject.t) : User :=
  {| user_name := user_name u; user_email := user_email u;
     user_password := user_password u; cartData := c |}.

(** [User.findById(userId)]. *)
Definition User_findById (s : Store) (id : string) : option User :=
  users s !! id.

(** [User.findByIdAndUpdate(userId, { cartData })]: sets the one field of
    the document with that id, and does nothing when there is none. *)
Definition User_findByIdAndUpdate (s : Store) (id : string)
    (c : JsObject.t) : Store :=
  match users s !! id with
  | Some u => with_users s (<[id := with_cart u c]> (users s))
  | None => s
  end.

(** ** Replies *)

(** What a handler found thrown at it. The text of such an error is the
    library's; a reply that quotes it keeps the error itself. *)
Inductive Error :=
| CastError (value : string)
| DuplicateKey (key : string)
| StorageError.

Inductive Message :=
| Text (s : string)
| TextWithError (s : string) (e : Error).

Record MissingFields := {
  mf_firstName : bool; mf_lastName : bool; mf_email : bool;
  mf_street : bool; mf_city : bool; mf_state : bool;
  mf_zipcode : bool; mf_country : bool; mf_phone : bool
}.

(** An order as [/api/order/userorders] formats it. *)
Record FormattedItem := {
  fi_id : option string;
  fi_name : string;
  fi_price : float;
  fi_quantity : float;
  fi_image : string;
  fi_total : float;
  fi_isAvailable : bool
}.

Record FormattedOrder := {
  fo_id : string;
  fo_orderNumber : string;
  fo_items : list FormattedItem;
  fo_amount : float;
  fo_deliveryFee : float;
  fo_totalAmount : float;
  fo_address : Address;
  fo_status : Status;
  fo_paymentStatus : PaymentStatus;
  fo_paymentId : option string;
  fo_createdAt : N;
  fo_updatedAt : N
}.

Record Pagination := {
  currentPage : Z;
  totalPages : Z;
  totalOrders : Z;
  hasNextPage : bool;
  hasPrevPage : bool
}.

Inductive Payload :=
| NoData
| CartQuantity (itemId : string) (quantity : option JsValue)
| Missing (fields : MissingFields)
| Placed (orderId : string) (number : string) (total : float)
    (st : Status) (estimatedDelivery : string) (lines : list OrderItem)
    (addr : Address)
| Page (data : list FormattedOrder) (pagination : Pagination).

(** [res.status(code).json({ success, message, ... })]. *)
Record Reply := {
  code : Z;
  success : bool;
  message : Message;
  payload : Payload
}.

Definition reply (c : Z) (ok : bool) (m : string) (p : Payload) : Reply :=
  {| code := c; success := ok; message := Text m; payload := p |}.

Definition thrown (m : string) (e : Error) : Reply :=
  {| code := 500; success := false; message := TextWithError m e;
     payload := NoData |}.

(** ** Cart manager *)

(** The body of a cart request: [{ itemId, quantity = 1 }]. *)
Record CartBody := {
  body_itemId : string;
  body_quantity : option float
}.

Definition quantity_of (b : CartBody) : float :=
  match body_quantity b with
  | Some q => q
  | None => 1%float
  end.

(** The [// Update cart] step of [/api/cart/add]. *)
Definition add_update (c : JsObject.t) (itemId : string) (quantity : float)
    : JsObject.t :=
  match JsObject.get c itemId with
  | Some v =>
      if ToBoolean v
      then JsObject.set c itemId (js_add v quantity)
      else JsObject.set c itemId (Num quantity)
  | None => JsObject.set c itemId (Num quantity)
  end.

(** The [// Update cart] step of [/api/cart/remove]. *)
Definition remove_update (c : JsObject.t) (itemId : string)
    (quantity : float) : JsObject.t :=
  match JsObject.get c itemId with
  | Some v =>
      if ToBoolean v
      then
        let c1 := JsObject.set c itemId (js_sub v quantity) in
        if JsObject.le_zero (JsObject.get c1 itemId)
        then JsObject.delete c1 itemId
        else c1
      else c
  | None => c
  end.

(** [POST /api/cart/add], after the auth gate has put [userId] in the
    body. [up] tells whether the storage layer accepts the write. *)
Definition cart_add (up : bool) (uid : string) (b : CartBody) (s : Store)
    : Reply * Store :=
  match User_findById s uid with
  | None => (reply 404 false "User not found" NoData, s)
  | Some user =>
      let c := add_update (cartData user) (body_itemId b) (quantity_of b) in
      if up
      then (reply 200 true "Item added to cart"
              (CartQuantity (body_itemId b)
                 (JsObject.get c (body_itemId b))),
            User_findByIdAndUpdate s uid c)
      else (reply 500 false "Failed to add item to cart" NoData, s)
  end.

(** [POST /api/cart/remove]. *)
Definition cart_remove (up : bool) (uid : string) (b : CartBody) (s : Store)
    : Reply * Store :=
  match User_findById s uid with
  | None => (reply 404 false "User not found" NoData, s)
  | Some user =>
      let c :=
        remove_update (cartData user) (body_itemId b) (quantity_of b) in
      if up
      then (reply 200 true "Item removed from cart"
              (CartQuantity (body_itemId b)
                 (Some (JsObject.or_zero (JsObject.get c (body_itemId b))))),
            User_findByIdAndUpdate s uid c)
      else (reply 500 false "Failed to remove item from cart" NoData, s)
  end.

(** ** Numbers and strings of the language *)

(** [n.toString()] for a non-negative integer. *)
Definition Number_toString (n : N) : string :=
  NilEmpty.string_of_uint (N.to_uint n).

Fixpoint repeat_char (n : nat) (c : ascii) : string :=
  match n with
  | O => EmptyString
  | S n' => String c (repeat_char n' c)
  end.

(** [s.padStart(targetLength, c)] for a one-character filler. *)
Definition padStart (targetLength : nat) (c : ascii) (s : string) : string :=
  repeat_char (targetLength - String.length s) c ++ s.

(** A property name that is an array index: the canonical decimal form
    of an integer below [2^32 - 1]. *)
Definition array_index (k : string) : option N :=
  match NilEmpty.uint_of_string k with
  | Some d =>
      let n := N.of_uint d in
      if String.eqb (Number_toString n) k && N.ltb n 4294967295
      then Some n else None
  | None => None
  end.

Fixpoint insert_by_index (n : N) (e : string * JsValue)
    (l : list (N * (string * JsValue))) : list (N * (string * JsValue)) :=
  match l with
  | [] => [(n, e)]
  | (m, e') :: l' =>
      if N.ltb n m then (n, e) :: l else (m, e') :: insert_by_index n e l'
  end.

Fixpoint index_entries (o : JsObject.t) : list (N * (string * JsValue)) :=
  match o with
  | [] => []
  | (k, v) :: o' =>
      match array_index k with
      | Some n => insert_by_index n (k, v) (index_entries o')
      | None => index_entries o'
      end
  end.

Definition is_index (e : string * JsValue) : bool :=
  match array_index (fst e) with
  | Some _ => true
  | None => false
  end.

(** [Object.entries(obj)]: array-index keys in ascending order, then the
    other keys in insertion order. *)
Definition Object_entries (o : JsObject.t) : list (string * JsValue) :=
  List.map snd (index_entries o) ++ List.filter (fun e => negb (is_index e)) o.

(** ** Order numbering and persistence *)

(** What the environment contributes to one order placement: the clock
    read by the pre-save hook, the clock read for the timestamps, the id
    given to the new document, and whether the storage layer accepts the
    insert and the later cart update. *)
Record Env := {
  Date_now : N;
  timestamp : N;
  ObjectId : string;
  insert_ok : bool;
  update_ok : bool
}.

(** The template literal of the pre-save hook, [count] being the result
    of [countDocuments()]. *)
Definition order_number (now : N) (count : nat) : string :=
  "ORD-" ++ Number_toString now ++ "-"
    ++ padStart 4 "0" (Number_toString (N.of_nat count + 1)).

(** The sequence segment of an order number. *)
Definition sequence_segment (count : nat) : string :=
  padStart 4 "0" (Number_toString (N.of_nat count + 1)).

(** An [Order] document before it is saved: [orderNumber] and the
    timestamps are not set by the handler. *)
Record Draft := {
  draft_userId : string;
  draft_orderNumber : option string;
  draft_items : list OrderItem;
  draft_amount : float;
  draft_deliveryFee : float;
  draft_totalAmount : float;
  draft_address : Address;
  draft_status : Status;
  draft_paymentStatus : PaymentStatus;
  draft_paymentId : option string
}.

(** [orderSchema.pre('save')] on a new document: the number to save
    under. An own number is kept unless it is falsy. *)
Definition pre_save (now : N) (count : nat) (d : Draft) : string :=
  match draft_orderNumber d with
  | Some n => if String.eqb n EmptyString then order_number now count else n
  | None => order_number now count
  end.

Definition document (env : Env) (number : string) (d : Draft) : Order :=
  {| order_id := ObjectId env;
     userId := draft_userId d;
     orderNumber := number;
     items := draft_items d;
     amount := draft_amount d;
     deliveryFee := draft_deliveryFee d;
     totalAmount := draft_totalAmount d;
     address := draft_address d;
     status := draft_status d;
     paymentStatus := draft_paymentStatus d;
     paymentId := draft_paymentId d;
     createdAt := timestamp env;
     updatedAt := timestamp env |}.

(** The unique index on [orderNumber]. *)
Definition number_taken (number : string) (os : list Order) : bool :=
  existsb (fun o => String.eqb (orderNumber o) number) os.

(** [order.save()]: the hook runs first, then the insert, which the
    unique index or the storage layer may refuse. *)
Definition Order_save (env : Env) (d : Draft) (s : Store)
    : Error + (Order * Store) :=
  let number := pre_save (Date_now env) (List.length (orders s)) d in
  if number_taken number (orders s) then inl (DuplicateKey number)
  else if insert_ok env
       then let o := document env number d in
            inr (o, with_orders s (orders s ++ [o]))
       else inl StorageError.

(** ** Handlers that may answer early or throw *)

(** The course of a handler body inside its [try] block: it has answered
    ([return res.status(..).json(..)]), it has thrown, or it goes on with
    a value. *)
Inductive Handler (A : Type) :=
| Respond (r : Reply)
| Raise (e : Error)
| Value (a : A).

Arguments Respond {A} r.
Arguments Raise {A} e.
Arguments Value {A} a.

#[global] Instance Handler_ret : MRet Handler := fun A a => Value a.

#[global] Instance Handler_bind : MBind Handler := fun A B k m =>
  match m with
  | Respond r => Respond r
  | Raise e => Raise e
  | Value a => k a
  end.

(** ** Order builder *)

(** The body of [POST /api/order/place]. The handler reads [address] and
    [paymentId]; whatever else the caller sends, a [paymentStatus] for
    one, it does not look at. *)
Record PlaceBody := {
  body_address : option Address;
  body_paymentId : option string;
  body_paymentStatus : option PaymentStatus
}.

(** Truthiness of a string field: defined and not empty. *)
Definition present (f : option string) : bool :=
  match f with
  | Some v => negb (String.eqb v EmptyString)
  | None => false
  end.

(** The condition of the address check, negated: every required field
    is truthy. *)
Definition address_complete (a : option Address) : bool :=
  match a with
  | None => false
  | Some a =>
      present (firstName a) && present (lastName a) && present (email a)
      && present (street a) && present (city a) && present (state a)
      && present (zipcode a) && present (country a) && present (phone a)
  end.

(** [!address?.field]. *)
Definition absent (a : option Address) (field : Address -> option string)
    : bool :=
  match a with
  | None => true
  | Some a => negb (present (field a))
  end.

Definition missingFields (a : option Address) : MissingFields :=
  {| mf_firstName := absent a firstName;
     mf_lastName := absent a lastName;
     mf_email := absent a email;
     mf_street := absent a street;
     mf_city := absent a city;
     mf_state := absent a state;
     mf_zipcode := absent a zipcode;
     mf_country := absent a country;
     mf_phone := absent a phone |}.

(** [Object.entries(cartData).filter(([_, quantity]) => quantity > 0)]:
    the test keeps numbers only, and each kept entry is given with its
    number. *)
Definition positive_entries (c : JsObject.t) : list (string * float) :=
  flat_map
    (fun e =>
       match gt_zero (snd e) with
       | Some q => [(fst e, q)]
       | None => []
       end)
    (Object_entries c).

(** [paymentId || null]. *)
Definition or_null (p : option string) : option string :=
  match p with
  | Some v => if String.eqb v EmptyString then None else Some v
  | None => None
  end.

(** [foodItem.price * quantity]. *)
Definition line_total (price : float) (quantity : float) : float :=
  (price * quantity)%float.

Section Orders.

(** How the object-document mapper casts the string of a request to a
    document id: the id, in the text its [toString()] gives, or nothing
    when the mapper throws. Two spellings of one id cast to the same
    text. The mapper is not part of the repository, so the cast is left
    open. *)
Variable cast : string -> option string.

(** [Food.findById(itemId)]: the document with its [_id]. *)
Definition Food_findById (s : Store) (id : string)
    : Handler (option (string * Food)) :=
  match cast id with
  | Some oid =>
      Value (match foods s !! oid with
             | Some f => Some (oid, f)
             | None => None
             end)
  | None => Raise (CastError id)
  end.

(** The loop over [cartItems], with its two accumulators. *)
Fixpoint build_items (s : Store) (cartItems : list (string * float))
    (orderItems : list OrderItem) (subtotal : float)
    : Handler (list OrderItem * float) :=
  match cartItems with
  | [] => Value (orderItems, subtotal)
  | (itemId, quantity) :: rest =>
      foodItem ← Food_findById s itemId;
      match foodItem with
      | None =>
          Respond (reply 400 false ("Food item not found: " ++ itemId) NoData)
      | Some (_id, f) =>
          if negb (isAvailable f)
          then Respond (reply 400 false
                 ("Food item is no longer available: " ++ food_name f)
                 NoData)
          else
            let itemTotal := line_total (food_price f) quantity in
            build_items s rest
              (orderItems ++
                 [{| foodId := _id; item_name := food_name f;
                     item_price := food_price f; item_quantity := quantity;
                     item_image := food_image f |}])
              (subtotal + itemTotal)%float
      end
  end.

(** [new Order({ ... })] in the handler. *)
Definition new_Order (uid : string) (orderItems : list OrderItem)
    (subtotal : float) (a : Address) (pid : option string) : Draft :=
  let deliveryFee := 2%float in
  let totalAmount := (subtotal + deliveryFee)%float in
  {| draft_userId := uid;
     draft_orderNumber := None;
     draft_items := orderItems;
     draft_amount := subtotal;
     draft_deliveryFee := deliveryFee;
     draft_totalAmount := totalAmount;
     draft_address := a;
     draft_status := FoodProcessing;
     draft_paymentStatus := Pending;
     draft_paymentId := or_null pid |}.

(** [POST /api/order/place], after the auth gate. *)
Definition order_place (env : Env) (uid : string) (b : PlaceBody)
    (s : Store) : Reply * Store :=
  match body_address b with
  | Some a =>
      if address_complete (Some a)
      then
        match User_findById s uid with
        | None => (reply 404 false "User not found" NoData, s)
        | Some user =>
            let cartItems := positive_entries (cartData user) in
            if Nat.eqb (List.length cartItems) 0
            then (reply 400 false "Cart is empty" NoData, s)
            else
              match build_items s cartItems [] 0%float with
              | Respond r => (r, s)
              | Raise e => (thrown "Failed to place order: " e, s)
              | Value (orderItems, subtotal) =>
                  let d :=
                    new_Order uid orderItems subtotal a (body_paymentId b) in
                  match Order_save env d s with
                  | inl e => (thrown "Failed to place order: " e, s)
                  | inr (order, s1) =>
                      if update_ok env
                      then
                        (reply 201 true "Order placed successfully"
                           (Placed (order_id order) (orderNumber order)
                              (totalAmount order) (status order)
                              "30-45 minutes" orderItems a),
                         User_findByIdAndUpdate s1 uid [])
                      else
                        (thrown "Failed to place order: " StorageError, s1)
                  end
              end
        end
      else
        (reply 400 false "Complete delivery address is required"
           (Missing (missingFields (Some a))), s)
  | None =>
      (reply 400 false "Complete delivery address is required"
         (Missing (missingFields None)), s)
  end.

End Orders.

(** ** Order query *)

(** The body of [POST /api/order/userorders]: [{ page = 1, limit = 10 }]. *)
Record PageBody := {
  body_page : option Z;
  body_limit : option Z
}.

Definition page_of (b : PageBody) : Z :=
  match body_page b with
  | Some p => p
  | None => 1
  end.

Definition limit_of (b : PageBody) : Z :=
  match body_limit b with
  | Some l => l
  | None => 10
  end.

(** [Math.ceil(a / b)] for a positive [b]: the quotient rounded up. *)
Definition Math_ceil_div (a b : Z) : Z := - ((- a) / b).

Fixpoint insert_desc (o : Order) (l : list Order) : list Order :=
  match l with
  | [] => [o]
  | o' :: l' =>
      if N.ltb (createdAt o') (createdAt o) then o :: l
      else o' :: insert_desc o l'
  end.

(** [.sort({ createdAt: -1 })]. *)
Definition sort_createdAt_desc (l : list Order) : list Order :=
  fold_right insert_desc [] l.

(** [Order.find({ userId })] and [Order.countDocuments({ userId })]. *)
Definition Order_find (s : Store) (uid : string) : list Order :=
  List.filter (fun o => String.eqb (userId o) uid) (orders s).

Definition Order_countDocuments (s : Store) (uid : string) : Z :=
  Z.of_nat (List.length (Order_find s uid)).

(** One line of a formatted order, [items.foodId] populated from the
    catalog when the document is still there. *)
Definition format_item (s : Store) (i : OrderItem) : FormattedItem :=
  let populated := foods s !! foodId i in
  {| fi_id := match populated with
              | Some _ => Some (foodId i)
              | None => None
              end;
     fi_name := item_name i;
     fi_price := item_price i;
     fi_quantity := item_quantity i;
     fi_image := item_image i;
     fi_total := line_total (item_price i) (item_quantity i);
     fi_isAvailable := match populated with
                       | Some f => isAvailable f
                       | None => false
                       end |}.

Definition format_order (s : Store) (o : Order) : FormattedOrder :=
  {| fo_id := order_id o;
     fo_orderNumber := orderNumber o;
     fo_items := List.map (format_item s) (items o);
     fo_amount := amount o;
     fo_deliveryFee := deliveryFee o;
     fo_totalAmount := totalAmount o;
     fo_address := address o;
     fo_status := status o;
     fo_paymentStatus := paymentStatus o;
     fo_paymentId := paymentId o;
     fo_createdAt := createdAt o;
     fo_updatedAt := updatedAt o |}.

(** The page of orders the query returns. *)
Definition orders_page (s : Store) (uid : string) (page limit : Z)
    : list Order :=
  let skip := (page - 1) * limit in
  firstn (Z.to_nat limit)
    (skipn (Z.to_nat skip) (sort_createdAt_desc (Order_find s uid))).

(** [POST /api/order/userorders], after the auth gate, for a page number
    and a page size of at least one. Other values make the quotient
    infinite or undefined, or the storage layer refuse the skip; the
    embedding does not follow the handler there. *)
Definition order_userorders (uid : string) (b : PageBody) (s : Store)
    : option Reply :=
  let page := page_of b in
  let limit := limit_of b in
  if Z.leb 1 page && Z.leb 1 limit
  then
    let found := orders_page s uid page limit in
    let totalOrders := Order_countDocuments s uid in
    let totalPages := Math_ceil_div totalOrders limit in
    Some
      {| code := 200;
         success := true;
         message :=
           Text (if Nat.ltb 0 (List.length found)
                 then "Found " ++ Number_toString (N.of_nat (List.length found))
                        ++ " orders"
                 else "No orders found");
         payload :=
           Page (List.map (format_order s) found)
             {| currentPage := page;
                totalPages := totalPages;
                totalOrders := totalOrders;
                hasNextPage := Z.ltb page totalPages;
                hasPrevPage := Z.ltb 1 page |} |}
  else None.

(** ** Sequences of cart calls *)

Inductive CartCall :=
| AddItem (itemId : string) (quantity : float)
| RemoveItem (itemId : string) (quantity : float).

Definition call_itemId (c : CartCall) : string :=
  match c with
  | AddItem k _ => k
  | RemoveItem k _ => k
  end.

Definition call_quantity (c : CartCall) : float :=
  match c with
  | AddItem _ q => q
  | RemoveItem _ q => q
  end.

(** One call of a signed-in user, the storage layer accepting the
    write. *)
Definition run_call (uid : string) (c : CartCall) (s : Store)
    : Reply * Store :=
  match c with
  | AddItem k q =>
      cart_add true uid {| body_itemId := k; body_quantity := Some q |} s
  | RemoveItem k q =>
      cart_remove true uid {| body_itemId := k; body_quantity := Some q |} s
  end.

Definition run_calls (uid : string) (cs : list CartCall) (s : Store)
    : Store :=
  fold_left (fun st c => snd (run_call uid c st)) cs s.

(** The quantity a cart holds for an item, none counting as zero. *)
Definition stored (c : JsObject.t) (k : string) : float :=
  match JsObject.own c k with
  | Some v => ToNumber v
  | None => 0%float
  end.

(** Every stored entry is a number above zero. *)
Definition all_positive (c : JsObject.t) : Prop :=
  Forall (fun e => is_Some (gt_zero (snd e))) c.

(** A stored quantity of zero or less. *)
Definition at_most_zero (v : JsValue) : Prop :=
  exists n, v = Num n /\ PrimFloat.leb n 0 = true.

(** A number above zero, and one that is finite as well. *)
Definition above_zero (q : float) : Prop := PrimFloat.ltb 0 q = true.

Definition finite (q : float) : Prop := PrimFloat.ltb q infinity = true.

(** A property name no plain object inherits. *)
Definition plain (k : string) : Prop := JsObject.inherited k = None.

(** The calls the cart arithmetic is stated for: the item id is a plain
    property name, the quantity is above zero, and a removal asks for a
    finite quantity. *)
Definition in_range (c : CartCall) : Prop :=
  plain (call_itemId c)
  /\ above_zero (call_quantity c)
  /\ match c with
     | AddItem _ _ => True
     | RemoveItem _ q => finite q
     end.

(** [q - d], stopping at zero. *)
Definition floored_sub (q d : float) : float :=
  if PrimFloat.leb (q - d) 0 then 0%float else (q - d)%float.

(** The specification's reading of a call sequence for one item: the
    deltas of that item summed in order, in the arithmetic of the
    language, an addition counting up, a removal counting down and
    stopping at zero. *)
Definition floored_step (k : string) (q : float) (c : CartCall) : float :=
  match c with
  | AddItem k' d => if String.eqb k' k then (q + d)%float else q
  | RemoveItem k' d => if String.eqb k' k then floored_sub q d else q
  end.

Definition floored_sum (k : string) (q0 : float) (cs : list CartCall)
    : float :=
  fold_left (floored_step k) cs q0.

(** The same sum in exact integers. *)
Definition exact_step (k : string) (q : Z) (c : string * bool * Z) : Z :=
  match c with
  | (k', add, d) =>
      if String.eqb k' k
      then if add then q + d else Z.max 0 (q - d)
      else q
  end.

Definition exact_sum (k : string) (cs : list (string * bool * Z)) : Z :=
  fold_left (exact_step k) cs 0.

(** The number that holds the integer [z] (the nearest binary64). *)
Definition number_of_Z (z : Z) : float :=
  SF2Prim (binary_normalize prec emax z 0 false).

(** The call for a delta in integers. *)
Definition call_of (c : string * bool * Z) : CartCall :=
  match c with
  | (k, true, d) => AddItem k (number_of_Z d)
  | (k, false, d) => RemoveItem k (number_of_Z d)
  end.

(** The cart a call leaves, as a function of the cart it finds. *)
Definition call_update (c : CartCall) (cart : JsObject.t) : JsObject.t :=
  match c with
  | AddItem k q => add_update cart k q
  | RemoveItem k q => remove_update cart k q
  end.

(** ** Vocabulary of the order properties *)

(** The sum over the line items of price times quantity, taken in the
    order of the lines, as the handler and the repository's test file
    both take it. *)
Definition sum_lines (lines : list OrderItem) : float :=
  fold_left
    (fun acc i => (acc + line_total (item_price i) (item_quantity i))%float)
    lines 0%float.

(** The totals of an order agree with its lines. *)
Definition totals_consistent (o : Order) : Prop :=
  amount o = sum_lines (items o)
  /\ deliveryFee o = 2%float
  /\ totalAmount o = (amount o + deliveryFee o)%float.

(** The catalog document a cart key resolves to, with its id: the key
    is cast, and the catalog holds a document under the id. *)
Definition resolve (cast : string -> option string) (s : Store)
    (k : string) : option (string * Food) :=
  match cast k with
  | Some oid =>
      match foods s !! oid with
      | Some f => Some (oid, f)
      | None => None
      end
  | None => None
  end.

(** A cart entry the order builder accepts: its key resolves to a
    catalog item, and the item is available. *)
Definition entry_ok (cast : string -> option string) (s : Store)
    (e : string * float) : bool :=
  match resolve cast s (fst e) with
  | Some (_, f) => isAvailable f
  | None => false
  end.

(** What the loop of the order builder answers at an entry it
    refuses. *)
Definition refusal (cast : string -> option string) (s : Store)
    (k : string) : Handler (list OrderItem * float) :=
  match cast k with
  | Some oid =>
      match foods s !! oid with
      | None =>
          Respond (reply 400 false ("Food item not found: " ++ k) NoData)
      | Some f =>
          Respond (reply 400 false
                     ("Food item is no longer available: " ++ food_name f)
                     NoData)
      end
  | None => Raise (CastError k)
  end.

(** The line item that snapshots a catalog item for a quantity. *)
Definition snapshot (oid : string) (quantity : float) (f : Food)
    : OrderItem :=
  {| foodId := oid; item_name := food_name f; item_price := food_price f;
     item_quantity := quantity; item_image := food_image f |}.

(** The lines for a list of cart entries, those that do not resolve
    left out. *)
Definition snapshots (cast : string -> option string) (s : Store)
    (l : list (string * float)) : list OrderItem :=
  flat_map
    (fun e => match resolve cast s (fst e) with
              | Some (oid, f) => [snapshot oid (snd e) f]
              | None => []
              end) l.

(** The nine required fields of an address, with their names. *)
Definition required_fields : list (string * (Address -> option string)) :=
  [("firstName", firstName); ("lastName", lastName); ("email", email);
   ("street", street); ("city", city); ("state", state);
   ("zipcode", zipcode); ("country", country); ("phone", phone)].

(** The flag a validation failure carries for a field name. *)
Definition flagged (m : MissingFields) (name : string) : bool :=
  if String.eqb name "firstName" then mf_firstName m
  else if String.eqb name "lastName" then mf_lastName m
  else if String.eqb name "email" then mf_email m
  else if String.eqb name "street" then mf_street m
  else if String.eqb name "city" then mf_city m
  else if String.eqb name "state" then mf_state m
  else if String.eqb name "zipcode" then mf_zipcode m
  else if String.eqb name "country" then mf_country m
  else if String.eqb name "phone" then mf_phone m
  else false.

(** A field is supplied when the body carries it with a non-empty
    value. *)
Definition supplied (a : option Address)
    (field : Address -> option string) : Prop :=
  exists a' v, a = Some a' /\ field a' = Some v /\ v <> EmptyString.

(** The order a placement builds from the cart it finds. *)
Definition built_order (cast : string -> option string) (env : Env)
    (uid : string) (b : PlaceBody) (a : Address) (s : Store) (u : User)
    : Order :=
  let lines := snapshots cast s (positive_entries (cartData u)) in
  document env (order_number (Date_now env) (List.length (orders s)))
    (new_Order uid lines (sum_lines lines) a (body_paymentId b)).

(** The reply to a placement that went through. *)
Definition placed_reply (a : Address) (o : Order) : Reply :=
  reply 201 true "Order placed successfully"
    (Placed (order_id o) (orderNumber o) (totalAmount o) (status o)
       "30-45 minutes" (items o) a).

Definition with_foods (s : Store) (fs : gmap string Food) : Store :=
  {| users := users s; foods := fs; orders := orders s |}.

(** A request body that differs in the payment status it sends. *)
Definition with_paymentStatus (b : PlaceBody) (p : option PaymentStatus)
    : PlaceBody :=
  {| body_address := body_address b; body_paymentId := body_paymentId b;
     body_paymentStatus := p |}.




(** A decimal digit, and a string of decimal digits. *)
Definition is_digit (c : ascii) : bool :=
  Nat.leb 48 (nat_of_ascii c) && Nat.leb (nat_of_ascii c) 57.

Fixpoint digits_only (s : string) : bool :=
  match s with
  | EmptyString => true
  | String c s' => is_digit c && digits_only s'
  end.

(** The number a string of digits denotes, leading zeros allowed. *)
Definition digits_value (s : string) : option N :=
  match NilEmpty.uint_of_string s with
  | Some d => Some (N.of_uint d)
  | None => None
  end.

(** Every order is numbered from its position in the collection. *)
Definition numbered (os : list Order) : Prop :=
  forall i o, nth_error os i = Some o ->
              exists now, orderNumber o = order_number now i.

(** ** A worked deployment *)

Module Example.

Definition is_hex (c : ascii) : bool :=
  let n := nat_of_ascii c in
  (Nat.leb 48 n && Nat.leb n 57) || (Nat.leb 97 n && Nat.leb n 102)
  || (Nat.leb 65 n && Nat.leb n 70).

Definition hex24 (k : string) : bool :=
  Nat.eqb (String.length k) 24 && forallb is_hex (list_ascii_of_string k).

Definition lower (c : ascii) : ascii :=
  let n := nat_of_ascii c in
  if Nat.leb 65 n && Nat.leb n 70 then ascii_of_nat (n + 32) else c.

Fixpoint lower_case (k : string) : string :=
  match k with
  | EmptyString => EmptyString
  | String c k' => String (lower c) (lower_case k')
  end.

(** A mapper that casts the strings of twenty-four hexadecimal digits,
    to the id in lower case. *)
Definition cast (k : string) : option string :=
  if hex24 k then Some (lower_case k) else None.

Definition itemA : string := "665f1c2ab7e4d90a1c3e5f01".
Definition itemB : string := "665f1c2ab7e4d90a1c3e5f02".
Definition alice : string := "665f1c2ab7e4d90a1c3e5a01".
Definition bob : string := "665f1c2ab7e4d90a1c3e5a02".

Definition dish (name : string) (price : float) (available : bool) : Food :=
  {| food_name := name; food_description := "House recipe"; food_price := price;
     food_image := name ++ ".png"; food_category := "Salad";
     isAvailable := available |}.

Definition customer (cart : JsObject.t) : User :=
  {| user_name := "Alice"; user_email := "alice@example.com";
     user_password := "$2b$10$hash"; cartData := cart |}.

(** The cart and the prices of the specification's example. *)
Definition catalog : gmap string Food :=
  {[ itemA := dish "Greek salad" 10.99 true;
     itemB := dish "Veg rolls" 8.5 true ]}.

Definition guest : User :=
  {| user_name := "Bob"; user_email := "bob@example.com";
     user_password := "$2b$10$hash"; cartData := [(itemB, Num 3)] |}.

Definition shop (cart : JsObject.t) : Store :=
  {| users := {[ alice := customer cart; bob := guest ]};
     foods := catalog; orders := [] |}.

Definition store : Store := shop [(itemA, Num 2); (itemB, Num 1)].

Definition home : Address :=
  {| firstName := Some "Alice"; lastName := Some "Doe";
     email := Some "alice@example.com"; street := Some "123 Main St";
     city := Some "Anytown"; state := Some "CA"; zipcode := Some "12345";
     country := Some "USA"; phone := Some "555-1234" |}.

Definition body : PlaceBody :=
  {| body_address := Some home; body_paymentId := None;
     body_paymentStatus := None |}.

Definition env : Env :=
  {| Date_now := 1700000000000; timestamp := 1700000000000;
     ObjectId := "665f1c2ab7e4d90a1c3e5b01";
     insert_ok := true; update_ok := true |}.

(** A second clock reading in the same millisecond. *)
Definition env2 : Env :=
  {| Date_now := 1700000000000; timestamp := 1700000000000;
     ObjectId := "665f1c2ab7e4d90a1c3e5b02";
     insert_ok := true; update_ok := true |}.

(** A catalog where the first item of the cart is no longer available
    and the second is gone. *)
Definition stale : Store :=
  {| users := {[ alice := customer [(itemA, Num 2); (itemB, Num 1)] ]};
     foods := {[ itemA := dish "Greek salad" 10.99 false ]};
     orders := [] |}.

(** A collection with a history: three orders of the first user and
    one of the second, the cart refilled between two placements. *)
Definition at_time (t : N) (id : string) : Env :=
  {| Date_now := t; timestamp := t; ObjectId := id;
     insert_ok := true; update_ok := true |}.

Definition refill (s : Store) : Store :=
  snd (cart_add true alice
         {| body_itemId := itemA; body_quantity := Some 1%float |} s).

Definition history : Store :=
  let place t id uid s := snd (order_place cast (at_time t id) uid body s) in
  let s1 := place 1700000000000%N "665f1c2ab7e4d90a1c3e5b01" alice store in
  let s2 := place 1700000300000%N "665f1c2ab7e4d90a1c3e5b02" bob s1 in
  let s3 :=
    place 1700000600000%N "665f1c2ab7e4d90a1c3e5b03" alice (refill s2) in
  place 1700000900000%N "665f1c2ab7e4d90a1c3e5b04" alice (refill s3).

Definition first_page : PageBody :=
  {| body_page := Some 1; body_limit := Some 2 |}.

End Example.

(** ** Cart view and cart clear *)

(** An element of [data.items] in the reply of [/api/cart/get]. *)
Record CartLine := {
  cl_id : string;
  cl_name : string;
  cl_description : string;
  cl_price : float;
  cl_image : string;
  cl_category : string;
  cl_quantity : float;
  cl_total : float;
  cl_isAvailable : bool
}.

(** [data.summary] in the reply of [/api/cart/get]. *)
Record CartSummary := {
  itemCount : nat;
  totalItems : float;
  cart_totalAmount : float;
  cart_deliveryFee : float;
  finalAmount : float
}.

(** The reply of [/api/cart/get]: a status, [success], the message of a
    failure and the data of a success. *)
Record CartReply := {
  cg_code : Z;
  cg_success : bool;
  cg_message : option string;
  cg_data : option (list CartLine * CartSummary)
}.

Definition cart_line (_id : string) (quantity : float) (foodItem : Food)
    : CartLine :=
  {| cl_id := _id;
     cl_name := food_name foodItem;
     cl_description := food_description foodItem;
     cl_price := food_price foodItem;
     cl_image := food_image foodItem;
     cl_category := food_category foodItem;
     cl_quantity := quantity;
     cl_total := line_total (food_price foodItem) quantity;
     cl_isAvailable := isAvailable foodItem |}.

Section CartView.

Variable cast : string -> option string.

(** The loop of [/api/cart/get] over [Object.entries(cartData)], with
    its three accumulators. A value that does not compare above zero is
    passed over; a lookup that finds nothing, or that throws and is
    caught inside the loop, leaves the accumulators as they are. *)
Fixpoint view_items (s : Store) (entries : list (string * JsValue))
    (cartItems : list CartLine) (totalAmount : float) (totalItems : float)
    : list CartLine * float * float :=
  match entries with
  | [] => (cartItems, totalAmount, totalItems)
  | (itemId, value) :: rest =>
      match gt_zero value with
      | Some quantity =>
          match Food_findById cast s itemId with
          | Value (Some (_id, foodItem)) =>
              let itemTotal := line_total (food_price foodItem) quantity in
              view_items s rest
                (cartItems ++ [cart_line _id quantity foodItem])
                (totalAmount + itemTotal)%float
                (totalItems + quantity)%float
          | _ => view_items s rest cartItems totalAmount totalItems
          end
      | None => view_items s rest cartItems totalAmount totalItems
      end
  end.

(** [POST /api/cart/get], after the auth gate. *)
Definition cart_get (uid : string) (s : Store) : CartReply :=
  match User_findById s uid with
  | None =>
      {| cg_code := 404; cg_success := false;
         cg_message := Some "User not found"; cg_data := None |}
  | Some user =>
      let '(cartItems, totalAmount, totalItems) :=
        view_items s (Object_entries (cartData user)) [] 0%float 0%float in
      {| cg_code := 200; cg_success := true; cg_message := None;
         cg_data :=
           Some (cartItems,
                 {| itemCount := List.length cartItems;
                    totalItems := totalItems;
                    cart_totalAmount := totalAmount;
                    cart_deliveryFee :=
                      if PrimFloat.ltb 0 totalAmount then 2%float
                      else 0%float;
                    finalAmount :=
                      if PrimFloat.ltb 0 totalAmount
                      then (totalAmount + 2)%float
                      else 0%float |}) |}
  end.

End CartView.

(** [DELETE /api/cart/clear], after the auth gate. The handler does not
    look the user up. *)
Definition cart_clear (up : bool) (uid : string) (s : Store)
    : Reply * Store :=
  if up
  then (reply 200 true "Cart cleared successfully" NoData,
        User_findByIdAndUpdate s uid [])
  else (reply 500 false "Failed to clear cart" NoData, s).

(** ** Catalog listing *)

(** A catalog document with its id, as a listing returns it. *)
Definition FoodDoc : Type := string * Food.

(** The reply of [/api/food/list]; the status is always 200. *)
Record FoodReply := {
  fr_success : bool;
  fr_data : list FoodDoc;
  fr_message : string
}.

(** The [sampleFoods] of the handler. *)
Definition sampleFoods : list Food :=
  [ {| food_name := "Margherita Pizza";
       food_description :=
         "Classic pizza with tomato sauce and mozzarella cheese";
       food_price := 12.99; food_image := "pizza1.jpg";
       food_category := "Pizza"; isAvailable := true |};
    {| food_name := "Caesar Salad";
       food_description :=
         "Fresh romaine lettuce with caesar dressing and croutons";
       food_price := 8.99; food_image := "salad1.jpg";
       food_category := "Salad"; isAvailable := true |};
    {| food_name := "Chicken Sandwich";
       food_description := "Grilled chicken breast with lettuce and tomato";
       food_price := 10.99; food_image := "sandwich1.jpg";
       food_category := "Sandwich"; isAvailable := true |} ].

(** The data of the fallback reply. *)
Definition fallbackFoods : list FoodDoc :=
  [ ("sample1",
     {| food_name := "Sample Pizza";
        food_description := "This is a sample pizza (database error)";
        food_price := 12.99; food_image := "sample.jpg";
        food_category := "Pizza"; isAvailable := true |}) ].

(** [Food.find({})]: every document of the catalog. The query asks for
    no order, and the order of the list is the storage layer's; the
    embedding takes the order of the map, and nothing stated below
    depends on it. *)
Definition Food_find (s : Store) : list FoodDoc := map_to_list (foods s).

(** [Food.insertMany(docs)], the new documents taking the ids the driver
    generates; the insert throws when the storage layer refuses it or an
    id is already in use. *)
Definition Food_insertMany (up : bool) (ids : list string)
    (docs : list Food) (s : Store) : option (list FoodDoc * Store) :=
  let created := combine ids docs in
  if up && Nat.eqb (List.length ids) (List.length docs)
     && bool_decide (NoDup ids)
     && forallb (fun i => bool_decide (foods s !! i = None)) ids
  then Some (created,
             with_foods s
               (fold_left (fun m d => <[fst d := snd d]> m) created (foods s)))
  else None.

(** The reply of the [catch] block of [/api/food/list]. *)
Definition food_fallback : FoodReply :=
  {| fr_success := true; fr_data := fallbackFoods;
     fr_message := "Fallback data due to database error" |}.

(** The reply of the [try] block of [/api/food/list]. *)
Definition food_found (docs : list FoodDoc) : FoodReply :=
  {| fr_success := true; fr_data := docs;
     fr_message :=
       "Found " ++ Number_toString (N.of_nat (List.length docs))
         ++ " food items" |}.

(** [GET /api/food/list]. With the storage layer down ([up] false) the
    read [Food.find] throws first; either throw ends in the [catch]
    block. *)
Definition food_list (up : bool) (ids : list string) (s : Store)
    : FoodReply * Store :=
  if up
  then
    let foods0 := Food_find s in
    if Nat.eqb (List.length foods0) 0
    then
      match Food_insertMany up ids sampleFoods s with
      | Some (created, s1) => (food_found created, s1)
      | None => (food_fallback, s)
      end
    else (food_found foods0, s)
  else (food_fallback, s).

(** ** Auth gate and user accounts *)

(** The two headers the gate reads. *)
Record Headers := {
  header_token : option string;
  header_authorization : option string
}.

(** [a || b] for two strings that may be undefined. *)
Definition or_else (a b : option string) : option string :=
  if present a then a else b.

(** What the gate does with a request: it hands it on with the user id
    in the body, or it answers itself. *)
Inductive Gate :=
| Next (userId : string)
| Denied (r : Reply).

(** The body of [/api/user/register] and of [/api/user/login]. *)
Record AccountBody := {
  acc_name : option string;
  acc_email : option string;
  acc_password : option string
}.

(** [user] in the reply of the two routes. *)
Record Account := {
  account_id : string;
  account_name : string;
  account_email : string
}.

Record UserReply := {
  ur_code : Z;
  ur_success : bool;
  ur_message : Message;
  ur_token : option string;
  ur_user : option Account
}.

Definition user_failure (c : Z) (m : string) : UserReply :=
  {| ur_code := c; ur_success := false; ur_message := Text m;
     ur_token := None; ur_user := None |}.

(** What the environment contributes to a registration: the id of the
    new document, the salt of the hash, the clock, and whether the
    storage layer accepts the insert. *)
Record SignupEnv := {
  signup_id : string;
  signup_salt : string;
  signup_now : N;
  signup_ok : bool
}.

(** [User.findOne({ email })]. Which of several documents with the same
    email is found is the storage layer's choice; the unique index on
    [email] is there to keep them from existing. *)
Definition User_findOne (s : Store) (e : string) : option (string * User) :=
  List.find (fun d => String.eqb (user_email (snd d)) e)
    (map_to_list (users s)).

Definition string_of (f : option string) : string :=
  match f with
  | Some v => v
  | None => EmptyString
  end.

Section Accounts.

(** The token library, the password hash and the mapper are not part
    of the repository: [jwt_sign] is [createToken] at a clock reading;
    [jwt_verify] gives, at a clock reading, the document id that the
    [id] of the decoded token casts to, or nothing when [jwt.verify]
    throws or the mapper cannot cast the [id] and [findById] throws,
    which the gate catches alike; [bcrypt_hash] takes the salt and the
    password. *)
Variable jwt_sign : N -> string -> string.
Variable jwt_verify : N -> string -> option string.
Variable bcrypt_hash : string -> string -> string.
Variable bcrypt_compare : string -> string -> bool.

(** [authMiddleware]. The id handed on is [user._id.toString()]. *)
Definition authMiddleware (now : N) (h : Headers) (s : Store) : Gate :=
  let token := or_else (header_token h) (header_authorization h) in
  if present token
  then
    match jwt_verify now (string_of token) with
    | Some id =>
        match User_findById s id with
        | Some _ => Next id
        | None => Denied (reply 401 false "User not found" NoData)
        end
    | None => Denied (reply 401 false "Authentication failed" NoData)
    end
  else Denied (reply 401 false "Access token is required" NoData).

(** A route with the gate in front of its handler. *)
Definition guarded (now : N) (h : Headers)
    (handler : string -> Store -> Reply * Store) (s : Store)
    : Reply * Store :=
  match authMiddleware now h s with
  | Next uid => handler uid s
  | Denied r => (r, s)
  end.

(** [POST /api/user/register]. *)
Definition user_register (env : SignupEnv) (b : AccountBody) (s : Store)
    : UserReply * Store :=
  if present (acc_name b) && present (acc_email b)
     && present (acc_password b)
  then
    let name := string_of (acc_name b) in
    let email := string_of (acc_email b) in
    let password := string_of (acc_password b) in
    match User_findOne s email with
    | Some _ => (user_failure 400 "User already exists", s)
    | None =>
        let hashedPassword := bcrypt_hash (signup_salt env) password in
        let user :=
          {| user_name := name; user_email := email;
             user_password := hashedPassword; cartData := [] |} in
        match users s !! signup_id env with
        | Some _ =>
            ({| ur_code := 500; ur_success := false;
                ur_message :=
                  TextWithError "Registration failed: "
                    (DuplicateKey (signup_id env));
                ur_token := None; ur_user := None |}, s)
        | None =>
            if signup_ok env
            then
              ({| ur_code := 201; ur_success := true;
                  ur_message := Text "User registered successfully";
                  ur_token :=
                    Some (jwt_sign (signup_now env) (signup_id env));
                  ur_user :=
                    Some {| account_id := signup_id env;
                            account_name := name;
                            account_email := email |} |},
               with_users s (<[signup_id env := user]> (users s)))
            else
              ({| ur_code := 500; ur_success := false;
                  ur_message :=
                    TextWithError "Registration failed: " StorageError;
                  ur_token := None; ur_user := None |}, s)
        end
    end
  else (user_failure 400 "Name, email, and password are required", s).

(** [POST /api/user/login]; it writes nothing. *)
Definition user_login (now : N) (b : AccountBody) (s : Store) : UserReply :=
  if present (acc_email b) && present (acc_password b)
  then
    match User_findOne s (string_of (acc_email b)) with
    | None => user_failure 401 "Invalid credentials"
    | Some (id, user) =>
        if bcrypt_compare (string_of (acc_password b)) (user_password user)
        then
          {| ur_code := 200; ur_success := true;
             ur_message := Text "Login successful";
             ur_token := Some (jwt_sign now id);
             ur_user :=
               Some {| account_id := id; account_name := user_name user;
                       account_email := user_email user |} |}
        else user_failure 401 "Invalid credentials"
    end
  else user_failure 400 "Email and password are required".

End Accounts.

(** No two users share an email. *)
Definition emails_unique (s : Store) : Prop :=
  forall i j u v,
    users s !! i = Some u -> users s !! j = Some v ->
    user_email u = user_email v -> i = j.

(** ** Vocabulary of the further properties *)

(** The lines a cart view shows for a list of entries with their
    numbers: one for each entry whose key resolves; availability does
    not matter. *)
Definition viewed (cast : string -> option string) (s : Store)
    (l : list (string * float)) : list CartLine :=
  flat_map
    (fun e => match resolve cast s (fst e) with
              | Some (oid, f) => [cart_line oid (snd e) f]
              | None => []
              end) l.

Definition sum_totals (lines : list CartLine) (from : float) : float :=
  fold_left (fun a l => (a + cl_total l)%float) lines from.

Definition sum_quantities (lines : list CartLine) (from : float) : float :=
  fold_left (fun a l => (a + cl_quantity l)%float) lines from.

(** The summary with nothing in it. *)
Definition empty_summary : CartSummary :=
  {| itemCount := 0; totalItems := 0; cart_totalAmount := 0;
     cart_deliveryFee := 0; finalAmount := 0 |}.

(** A line of an order snapshots a cart entry and the catalog item the
    entry resolves to. *)
Definition snapshot_of (cast : string -> option string) (s : Store)
    (e : string * float) (i : OrderItem) : Prop :=
  cast (fst e) = Some (foodId i)
  /\ item_quantity i = snd e
  /\ exists f,
       foods s !! foodId i = Some f
       /\ isAvailable f = true
       /\ item_name i = food_name f
       /\ item_price i = food_price f
       /\ item_image i = food_image f.

(** What a listed order shows of the order as stored, the two fields
    that follow the current catalog left out. *)
Definition stored_line (i : FormattedItem)
    : string * float * float * string * float :=
  (fi_name i, fi_price i, fi_quantity i, fi_image i, fi_total i).

Definition stored_order (o : FormattedOrder) :=
  (fo_id o, fo_orderNumber o, List.map stored_line (fo_items o),
   fo_amount o, fo_deliveryFee o, fo_totalAmount o, fo_address o,
   fo_status o, fo_paymentStatus o, fo_paymentId o, fo_createdAt o,
   fo_updatedAt o).

(** The orders of a listing, when it answers with a page. *)
Definition listed (r : option Reply) : list FormattedOrder :=
  match r with
  | Some {| payload := Page data _ |} => data
  | _ => []
  end.

Definition pagination_of (r : option Reply) : option Pagination :=
  match r with
  | Some {| payload := Page _ p |} => Some p
  | _ => None
  end.


(** Every order belongs to a user of the store. *)
Definition orders_owned (s : Store) : Prop :=
  forall o, In o (orders s) -> is_Some (users s !! userId o).

(** Every cart of the store holds positive quantities only. *)
Definition carts_positive (s : Store) : Prop :=
  forall uid u, users s !! uid = Some u -> all_positive (cartData u).

(** ** Runs of the interface *)

(** The calls that can change the store. *)
Inductive Call :=
| CartAdd (up : bool) (b : CartBody)
| CartRemove (up : bool) (b : CartBody)
| CartClear (up : bool)
| OrderPlace (env : Env) (b : PlaceBody)
| Register (env : SignupEnv) (b : AccountBody)
| FoodList (up : bool) (ids : list string).

(** A cart call within the range of the cart arithmetic: the item id
    is a plain property name, the quantity is above zero, and a removal
    asks for a finite quantity. *)
Definition cart_in_range (c : Call) : Prop :=
  match c with
  | CartAdd _ b => in_range (AddItem (body_itemId b) (quantity_of b))
  | CartRemove _ b => in_range (RemoveItem (body_itemId b) (quantity_of b))
  | _ => True
  end.

Section Runs.

Variable cast : string -> option string.
Variable jwt_sign : N -> string -> string.
Variable bcrypt_hash : string -> string -> string.

(** The store after one call made for the user [uid]; registration and
    the catalog listing are open to everyone. *)
Definition step (s : Store) (c : string * Call) : Store :=
  match snd c with
  | CartAdd up b => snd (cart_add up (fst c) b s)
  | CartRemove up b => snd (cart_remove up (fst c) b s)
  | CartClear up => snd (cart_clear up (fst c) s)
  | OrderPlace env b => snd (order_place cast env (fst c) b s)
  | Register env b => snd (user_register jwt_sign bcrypt_hash env b s)
  | FoodList up ids => snd (food_list up ids s)
  end.

Definition run (cs : list (string * Call)) (s : Store) : Store :=
  fold_left step cs s.

End Runs.

(** A call that places an order. *)
Definition is_place (c : string * Call) : bool :=
  match snd c with
  | OrderPlace _ _ => true
  | _ => false
  end.

(** ** A worked run *)

Module Tour.

(** Stand-ins for the token library and the password hash: a token is
    the user id behind a fixed prefix, verified to the document id the
    mapper of the worked deployment casts it to; a hash is the password
    behind a four-character salt. *)
Definition sign (now : N) (id : string) : string := "jwt." ++ id.

Definition verify (now : N) (token : string) : option string :=
  if String.prefix "jwt." token
  then Example.cast (String.substring 4 (String.length token - 4) token)
  else None.

Definition hash (salt password : string) : string := salt ++ password.

Definition compare (password hashed : string) : bool :=
  String.eqb (String.substring 4 (String.length hashed - 4) hashed) password.

Definition nothing : Store := {| users := ∅; foods := ∅; orders := [] |}.

Definition carol : string := "665f1c2ab7e4d90a1c3e5a03".
Definition pizza : string := "665f1c2ab7e4d90a1c3e5f11".
Definition salad : string := "665f1c2ab7e4d90a1c3e5f12".
Definition sandwich : string := "665f1c2ab7e4d90a1c3e5f13".

Definition signup : SignupEnv :=
  {| signup_id := carol; signup_salt := "s4lt";
     signup_now := 1700000000000; signup_ok := true |}.

Definition credentials : AccountBody :=
  {| acc_name := Some "Carol"; acc_email := Some "carol@example.com";
     acc_password := Some "correct horse" |}.

Definition two_pizzas : CartBody :=
  {| body_itemId := pizza; body_quantity := Some 2%float |}.

Definition one_salad : CartBody :=
  {| body_itemId := salad; body_quantity := None |}.

(** The clock of every placement of the run reads the same
    millisecond. *)
Definition at_noon (id : string) : Env := Example.at_time 1700000100000 id.

(** A visitor lists the catalog, registers, fills a cart, takes one
    item out again, orders, and orders once more from the cart the
    first order has emptied. *)
Definition calls : list (string * Call) :=
  [ (EmptyString, FoodList true [pizza; salad; sandwich]);
    (EmptyString, Register signup credentials);
    (carol, CartAdd true two_pizzas);
    (carol, CartAdd true one_salad);
    (carol, CartRemove true one_salad);
    (carol, OrderPlace (at_noon "665f1c2ab7e4d90a1c3e5b11") Example.body);
    (carol, OrderPlace (at_noon "665f1c2ab7e4d90a1c3e5b12") Example.body);
    (carol, CartAdd true one_salad);
    (carol, OrderPlace (at_noon "665f1c2ab7e4d90a1c3e5b13") Example.body) ].

Definition after : Store := run Example.cast sign hash calls nothing.

Definition headers (token : string) : Headers :=
  {| header_token := Some token; header_authorization := None |}.

End Tour.

(** * Properties *)

(** ** Numbers *)

(** The facts of binary64 arithmetic the cart needs, read off the
    specification of the operations: a sum of two numbers above zero
    is above zero, and a difference that is not at or below zero is
    above zero when what is taken away is finite. *)
Section Numbers.

Lemma Prim2SF_zero : Prim2SF 0%float = S754_zero false.
Proof. reflexivity. Qed.

Lemma digits2_pos_lower (m : positive) :
  2 ^ (Zpos (digits2_pos m) - 1) <= Zpos m.
Proof.
  induction m as [m IH|m IH|]; simpl digits2_pos.
  - rewrite Pos2Z.inj_succ.
    replace (Z.succ (Zpos (digits2_pos m)) - 1)
      with (Z.succ (Zpos (digits2_pos m) - 1)) by lia.
    rewrite Z.pow_succ_r by lia. lia.
  - rewrite Pos2Z.inj_succ.
    replace (Z.succ (Zpos (digits2_pos m)) - 1)
      with (Z.succ (Zpos (digits2_pos m) - 1)) by lia.
    rewrite Z.pow_succ_r by lia. lia.
  - simpl. lia.
Qed.

Lemma shr_1_lower (mrs : shr_record) (k : Z) :
  0 <= k -> 2 ^ (k + 1) <= shr_m mrs -> 2 ^ k <= shr_m (shr_1 mrs).
Proof.
  intros Hk. destruct mrs as [m r s]. simpl shr_m at 1.
  rewrite Z.pow_add_r by lia. change (2 ^ 1) with 2.
  assert (0 < 2 ^ k) by (apply Z.pow_pos_nonneg; lia).
  destruct m as [|[p|p|]|p]; simpl; lia.
Qed.

Lemma iter_shr_1_lower (p : positive) :
  forall (mrs : shr_record) (k : Z),
    0 <= k -> 2 ^ (k + Zpos p) <= shr_m mrs ->
    2 ^ k <= shr_m (SpecFloat.iter_pos shr_1 p mrs).
Proof.
  induction p as [p IH|p IH|]; intros mrs k Hk Hm; simpl.
  - apply IH; [done|]. apply IH; [lia|]. apply shr_1_lower; [lia|].
    replace (k + Z.pos p + Z.pos p + 1) with (k + Z.pos p~1) by lia. done.
  - apply IH; [done|]. apply IH; [lia|].
    replace (k + Z.pos p + Z.pos p) with (k + Z.pos p~0) by lia. done.
  - by apply shr_1_lower.
Qed.

(** Shifting a mantissa to the exponent of its format leaves a
    mantissa above zero, for an exponent not below the least one. *)
Lemma shr_fexp_positive (m : positive) (e : Z) (l : location) :
  SpecFloat.emin prec emax <= e ->
  0 < shr_m (fst (shr_fexp prec emax (Zpos m) e l))
  /\ SpecFloat.emin prec emax <= snd (shr_fexp prec emax (Zpos m) e l).
Proof.
  intros He. unfold shr_fexp, shr. simpl Zdigits2.
  destruct (fexp prec emax (Z.pos (digits2_pos m) + e) - e) as [|n|n] eqn:En;
    simpl fst; simpl snd.
  - split; [|done]. by destruct l as [|[]].
  - split; [|lia].
    assert (Zpos n = Zpos (digits2_pos m) - prec) as Hn.
    { unfold fexp in En. lia. }
    assert (2 ^ (52 + Zpos n) <= shr_m (shr_record_of_loc (Zpos m) l)) as Hm.
    { replace (shr_m (shr_record_of_loc (Zpos m) l)) with (Zpos m)
        by by destruct l as [|[]].
      rewrite Hn. unfold prec.
      replace (52 + (Zpos (digits2_pos m) - 53))
        with (Zpos (digits2_pos m) - 1) by lia.
      apply digits2_pos_lower. }
    apply iter_shr_1_lower in Hm; [|lia].
    assert (0 < 2 ^ 52) by lia. lia.
  - split; [|done]. by destruct l as [|[]].
Qed.

(** Rounding keeps the sign, and never gives a zero or a result that
    is not a number. *)
Lemma binary_round_aux_signed (s : bool) (m : positive) (e : Z)
    (l : location) :
  SpecFloat.emin prec emax <= e ->
  (exists m' e',
     binary_round_aux prec emax s (Zpos m) e l = S754_finite s m' e')
  \/ binary_round_aux prec emax s (Zpos m) e l = S754_infinity s.
Proof.
  intros He. unfold binary_round_aux.
  destruct (shr_fexp_positive m e l He) as [Hm1 He1].
  destruct (shr_fexp prec emax (Zpos m) e l) as [mrs' e'].
  simpl in Hm1, He1.
  assert (0 < round_nearest_even (shr_m mrs') (loc_of_shr_record mrs'))
    as Hr.
  { unfold round_nearest_even.
    destruct (loc_of_shr_record mrs') as [|[]]; [lia| |lia|lia].
    destruct (Z.even (shr_m mrs')); lia. }
  destruct (round_nearest_even _ _) as [|m2|m2]; [lia| |lia].
  destruct (shr_fexp_positive m2 e' loc_Exact He1) as [Hm2 He2].
  destruct (shr_fexp prec emax (Zpos m2) e' loc_Exact) as [mrs'' e''].
  simpl in Hm2. destruct (shr_m mrs'') as [|m3|m3]; [lia| |lia].
  destruct (Z.leb e'' _); [left; by eexists _, _ | by right].
Qed.

Lemma binary_round_signed (s : bool) (m : positive) (e : Z) :
  SpecFloat.emin prec emax <= e ->
  (exists m' e', binary_round prec emax s m e = S754_finite s m' e')
  \/ binary_round prec emax s m e = S754_infinity s.
Proof.
  intros He. unfold binary_round, shl_align.
  destruct (fexp prec emax (Z.pos (digits2_pos m) + e) - e) eqn:En;
    apply binary_round_aux_signed; try done.
  unfold fexp. lia.
Qed.

Lemma binary_normalize_cases (z e : Z) :
  SpecFloat.emin prec emax <= e ->
  binary_normalize prec emax z e false = S754_zero false
  \/ (exists s m' e',
        binary_normalize prec emax z e false = S754_finite s m' e')
  \/ exists s, binary_normalize prec emax z e false = S754_infinity s.
Proof.
  intros He. destruct z as [|m|m]; simpl; [by left|..].
  - destruct (binary_round_signed false m e He) as [(m' & e' & ->)| ->];
      right; [left|right]; eauto.
  - destruct (binary_round_signed true m e He) as [(m' & e' & ->)| ->];
      right; [left|right]; eauto.
Qed.

Lemma valid_emin (x : float) s m e :
  Prim2SF x = S754_finite s m e -> SpecFloat.emin prec emax <= e.
Proof.
  intros Hx. pose proof (Prim2SF_valid x) as Hv. rewrite Hx in Hv.
  simpl in Hv. apply andb_prop in Hv as [Hc _].
  unfold canonical_mantissa in Hc. apply Z.eqb_eq in Hc.
  unfold fexp in Hc. lia.
Qed.

(** A number above zero is finite or infinite, with the sign plus. *)
Lemma above_zero_cases (x : float) :
  above_zero x ->
  (exists m e, Prim2SF x = S754_finite false m e)
  \/ Prim2SF x = S754_infinity false.
Proof.
  unfold above_zero. rewrite FloatAxioms.ltb_spec, Prim2SF_zero.
  destruct (Prim2SF x) as [s|[]| |[] m e]; try discriminate; eauto.
Qed.

Lemma above_zero_of_cases (x : float) :
  (exists m e, Prim2SF x = S754_finite false m e)
  \/ Prim2SF x = S754_infinity false ->
  above_zero x.
Proof.
  unfold above_zero. rewrite FloatAxioms.ltb_spec, Prim2SF_zero.
  by intros [(m & e & ->)| ->].
Qed.

Lemma finite_cases (x : float) :
  above_zero x -> finite x ->
  exists m e, Prim2SF x = S754_finite false m e.
Proof.
  intros Hx Hf. destruct (above_zero_cases x Hx) as [H|H]; [done|].
  unfold finite in Hf. rewrite FloatAxioms.ltb_spec, H in Hf.
  discriminate Hf.
Qed.

Lemma add_above_zero (x y : float) :
  above_zero x -> above_zero y -> above_zero (x + y).
Proof.
  intros Hx Hy. apply above_zero_of_cases. rewrite FloatAxioms.add_spec.
  destruct (above_zero_cases x Hx) as [(mx & ex & Ex)| Ex];
    destruct (above_zero_cases y Hy) as [(my & ey & Ey)| Ey];
    rewrite Ex, Ey; try (by right).
  pose proof (valid_emin x _ _ _ Ex). pose proof (valid_emin y _ _ _ Ey).
  unfold SF64add, SFadd. cbv zeta. unfold cond_Zopp.
  change (Z.pos ?a + Z.pos ?b) with (Z.pos (a + b)).
  unfold binary_normalize.
  apply binary_round_signed. lia.
Qed.

Lemma sub_above_zero (x y : float) :
  above_zero x -> above_zero y -> finite y ->
  PrimFloat.leb (x - y) 0 = false ->
  above_zero (x - y).
Proof.
  intros Hx Hy Hf. destruct (finite_cases y Hy Hf) as (my & ey & Ey).
  unfold above_zero.
  rewrite FloatAxioms.leb_spec, FloatAxioms.ltb_spec, FloatAxioms.sub_spec,
    Prim2SF_zero, Ey.
  destruct (above_zero_cases x Hx) as [(mx & ex & Ex)| Ex]; rewrite Ex;
    [|done].
  pose proof (valid_emin x _ _ _ Ex). pose proof (valid_emin y _ _ _ Ey).
  unfold SF64sub, SFsub. cbv zeta.
  destruct (binary_normalize_cases
              (cond_Zopp false (Z.pos (shl_align mx ex (Z.min ex ey)).1)
               - cond_Zopp false (Z.pos (shl_align my ey (Z.min ex ey)).1))
              (Z.min ex ey)) as [->|[(s & m' & e' & ->)|(s & ->)]];
    [lia|done|by destruct s|by destruct s].
Qed.

Lemma above_zero_not_le (x : float) :
  above_zero x -> PrimFloat.leb x 0 = false.
Proof.
  intros Hx. rewrite FloatAxioms.leb_spec, Prim2SF_zero.
  by destruct (above_zero_cases x Hx) as [(m & e & ->)| ->].
Qed.

Lemma le_zero_not_above (x : float) :
  PrimFloat.leb x 0 = true -> PrimFloat.ltb 0 x = false.
Proof.
  rewrite FloatAxioms.leb_spec, FloatAxioms.ltb_spec, Prim2SF_zero.
  by destruct (Prim2SF x) as [s|[]| |[] m e].
Qed.

Lemma zero_add (d : float) : above_zero d -> (0 + d)%float = d.
Proof.
  intros Hd. apply Prim2SF_inj. rewrite FloatAxioms.add_spec, Prim2SF_zero.
  by destruct (above_zero_cases d Hd) as [(m & e & ->)| ->].
Qed.

Lemma zero_sub_le (d : float) :
  above_zero d -> PrimFloat.leb (0 - d) 0 = true.
Proof.
  intros Hd. rewrite FloatAxioms.leb_spec, FloatAxioms.sub_spec, Prim2SF_zero.
  by destruct (above_zero_cases d Hd) as [(m & e & ->)| ->].
Qed.

Lemma sub_diag_le (d : float) :
  above_zero d -> finite d -> PrimFloat.leb (d - d) 0 = true.
Proof.
  intros Hd Hf. destruct (finite_cases d Hd Hf) as (m & e & E).
  rewrite FloatAxioms.leb_spec, FloatAxioms.sub_spec, Prim2SF_zero, E.
  unfold SF64sub, SFsub. cbv zeta. rewrite Z.sub_diag. reflexivity.
Qed.

Lemma above_zero_truthy (x : float) :
  above_zero x -> ToBoolean (Num x) = true.
Proof.
  intros Hx. simpl. rewrite !FloatAxioms.eqb_spec, Prim2SF_zero.
  destruct (above_zero_cases x Hx) as [(m & e & ->)| ->]; [|done].
  unfold SFeqb, SFcompare.
  destruct (Z.compare_spec e e) as [_|?|?]; [|lia..].
  by rewrite Pos.compare_cont_refl.
Qed.

Lemma above_zero_nonzero (x : float) : above_zero x -> x <> 0%float.
Proof. intros Hx ->. discriminate Hx. Qed.

Lemma gt_zero_spec (v : JsValue) (q : float) :
  gt_zero v = Some q <-> v = Num q /\ above_zero q.
Proof.
  unfold above_zero. destruct v as [n| |]; simpl; [|by split; [|intros []]..].
  destruct (PrimFloat.ltb 0 n) eqn:E.
  - split; [by intros [= <-] | by intros [[= ->] _]].
  - split; [done|]. intros [[= ->] H]. congruence.
Qed.

Lemma gt_zero_Num (q : float) : above_zero q -> gt_zero (Num q) = Some q.
Proof. intros Hq. by apply gt_zero_spec. Qed.

End Numbers.

(** ** Plain objects *)

Module JsObjectFacts.
Import JsObject.

Lemma own_put_eq (o : t) k v : own (put o k v) k = Some v.
Proof.
  induction o as [|[k' v'] o IH]; simpl.
  - by rewrite String.eqb_refl.
  - destruct (String.eqb k' k) eqn:E; simpl.
    + by rewrite String.eqb_refl.
    + by rewrite E.
Qed.

Lemma own_put_ne (o : t) k k' v : k <> k' -> own (put o k v) k' = own o k'.
Proof.
  intros Hne. induction o as [|[k0 v0] o IH]; simpl.
  - by apply String.eqb_neq in Hne as ->.
  - destruct (String.eqb k0 k) eqn:E; simpl.
    + apply String.eqb_eq in E as ->.
      by apply String.eqb_neq in Hne as ->.
    + by rewrite IH.
Qed.

Lemma own_delete_eq (o : t) k : own (delete o k) k = None.
Proof.
  induction o as [|[k' v'] o IH]; simpl; [done|].
  destruct (String.eqb k' k) eqn:E; simpl; [done|]. by rewrite E.
Qed.

Lemma own_delete_ne (o : t) k k' : k <> k' -> own (delete o k) k' = own o k'.
Proof.
  intros Hne. induction o as [|[k0 v0] o IH]; simpl; [done|].
  destruct (String.eqb k0 k) eqn:E; simpl.
  - apply String.eqb_eq in E as ->.
    by apply String.eqb_neq in Hne as ->.
  - by rewrite IH.
Qed.

Lemma own_In (o : t) k v : own o k = Some v -> In (k, v) o.
Proof.
  induction o as [|[k' v'] o IH]; simpl; [done|].
  destruct (String.eqb k' k) eqn:E.
  - apply String.eqb_eq in E as ->. intros [= ->]. by left.
  - intros H. right. by apply IH.
Qed.

Lemma In_own (o : t) k v : In (k, v) o -> is_Some (own o k).
Proof.
  induction o as [|[k' v'] o IH]; simpl; [done|].
  intros [[= -> ->]|H].
  - by rewrite String.eqb_refl.
  - destruct (String.eqb k' k); [done | by apply IH].
Qed.

Lemma Forall_put (P : string * JsValue -> Prop) (o : t) k v :
  Forall P o -> P (k, v) -> Forall P (put o k v).
Proof.
  intros Ho Hv. induction Ho as [|[k' v'] o Hx Ho IH]; simpl.
  - by constructor.
  - destruct (String.eqb k' k); by constructor.
Qed.

Lemma Forall_delete (P : string * JsValue -> Prop) (o : t) k :
  Forall P o -> Forall P (delete o k).
Proof.
  intros Ho. induction Ho as [|[k' v'] o Hx Ho IH]; simpl; [done|].
  destruct (String.eqb k' k); [done | by constructor].
Qed.

Lemma delete_put_eq (o : t) k v : delete (put o k v) k = delete o k.
Proof.
  induction o as [|[k' v'] o IH]; simpl.
  - by rewrite String.eqb_refl.
  - destruct (String.eqb k' k) eqn:E; simpl.
    + by rewrite String.eqb_refl.
    + by rewrite E, IH.
Qed.

(** A plain property name is read and written as an own property. *)
Lemma plain_not_proto k : plain k -> String.eqb k "__proto__" = false.
Proof.
  unfold plain, inherited. by destruct (String.eqb k "__proto__").
Qed.

Lemma get_plain (o : t) k : plain k -> get o k = own o k.
Proof. intros Hk. unfold get. rewrite Hk. by destruct (own o k). Qed.

Lemma set_plain (o : t) k v : plain k -> set o k v = put o k v.
Proof.
  intros Hk. unfold set. rewrite (plain_not_proto k Hk).
  by destruct (own o k).
Qed.

(** Writing one property leaves the own properties of other names. *)
Lemma own_set_ne (o : t) k k' v : k <> k' -> own (set o k v) k' = own o k'.
Proof.
  intros Hne. unfold set.
  destruct (own o k); [by apply own_put_ne|].
  destruct (String.eqb k "__proto__"); [done | by apply own_put_ne].
Qed.

End JsObjectFacts.

(** ** Cart manager *)

Section CartSteps.
Import JsObject JsObjectFacts.

Lemma positive_own (c : t) k v :
  all_positive c -> own c k = Some v ->
  exists q, v = Num q /\ above_zero q.
Proof.
  intros Hc Hg. apply own_In in Hg.
  unfold all_positive in Hc. rewrite List.Forall_forall in Hc.
  destruct (Hc _ Hg) as [q Hq]. exists q. by apply gt_zero_spec.
Qed.

(** What a cart of positive entries holds for an item: nothing, or a
    number above zero. *)
Lemma stored_cases (c : t) k :
  all_positive c ->
  (own c k = None /\ stored c k = 0%float)
  \/ exists q, own c k = Some (Num q) /\ stored c k = q /\ above_zero q.
Proof.
  intros Hc. unfold stored. destruct (own c k) as [v|] eqn:E; [|by left].
  destruct (positive_own _ _ _ Hc E) as (q & -> & Hq). right. by exists q.
Qed.

(** Adding to a cart of positive entries. *)
Lemma add_update_own_eq (c : t) k d :
  all_positive c -> plain k -> above_zero d ->
  own (add_update c k d) k = Some (Num (stored c k + d)).
Proof.
  intros Hc Hk Hd. unfold add_update. rewrite (get_plain _ _ Hk).
  destruct (stored_cases c k Hc) as [[E ->]|(q & E & -> & Hq)]; rewrite E.
  - rewrite (set_plain _ _ _ Hk), own_put_eq. by rewrite zero_add.
  - rewrite (above_zero_truthy q Hq), (set_plain _ _ _ Hk).
    apply own_put_eq.
Qed.

Lemma add_update_own_ne (c : t) k k' d :
  k <> k' -> own (add_update c k d) k' = own c k'.
Proof.
  intros Hne. unfold add_update.
  destruct (get c k) as [v|]; [destruct (ToBoolean v)|];
    by apply own_set_ne.
Qed.

Lemma add_update_positive (c : t) k d :
  all_positive c -> plain k -> above_zero d ->
  all_positive (add_update c k d).
Proof.
  intros Hc Hk Hd. unfold add_update. rewrite (get_plain _ _ Hk).
  destruct (stored_cases c k Hc) as [[E _]|(q & E & _ & Hq)]; rewrite E.
  - rewrite (set_plain _ _ _ Hk). apply Forall_put; [done|]. simpl.
    by rewrite Hd.
  - rewrite (above_zero_truthy q Hq), (set_plain _ _ _ Hk).
    apply Forall_put; [done|]. simpl.
    by rewrite (add_above_zero q d Hq Hd).
Qed.

(** Removing from a cart of positive entries. *)
Lemma remove_update_own_eq (c : t) k d :
  all_positive c -> plain k -> above_zero d ->
  own (remove_update c k d) k
  = if PrimFloat.leb (stored c k - d) 0 then None
    else Some (Num (stored c k - d)).
Proof.
  intros Hc Hk Hd. unfold remove_update. rewrite (get_plain _ _ Hk).
  destruct (stored_cases c k Hc) as [[E ->]|(q & E & -> & Hq)]; rewrite E.
  - by rewrite (zero_sub_le d Hd).
  - rewrite (above_zero_truthy q Hq). cbv zeta.
    rewrite (set_plain _ _ _ Hk), (get_plain _ _ Hk), own_put_eq.
    simpl. destruct (PrimFloat.leb (q - d) 0).
    + apply own_delete_eq.
    + apply own_put_eq.
Qed.

Lemma remove_update_own_ne (c : t) k k' d :
  k <> k' -> own (remove_update c k d) k' = own c k'.
Proof.
  intros Hne. unfold remove_update.
  destruct (get c k) as [v|]; [|done].
  destruct (ToBoolean v); [|done]. cbv zeta.
  destruct (le_zero _).
  - rewrite own_delete_ne by done. by apply own_set_ne.
  - by apply own_set_ne.
Qed.

Lemma remove_update_positive (c : t) k d :
  all_positive c -> plain k -> above_zero d -> finite d ->
  all_positive (remove_update c k d).
Proof.
  intros Hc Hk Hd Hf. unfold remove_update. rewrite (get_plain _ _ Hk).
  destruct (stored_cases c k Hc) as [[E _]|(q & E & _ & Hq)]; rewrite E;
    [done|].
  rewrite (above_zero_truthy q Hq). cbv zeta.
  rewrite (set_plain _ _ _ Hk), (get_plain _ _ Hk), own_put_eq.
  simpl. destruct (PrimFloat.leb (q - d) 0) eqn:Hle.
  - rewrite delete_put_eq. by apply Forall_delete.
  - apply Forall_put; [done|]. simpl.
    by rewrite (sub_above_zero q d Hq Hd Hf Hle).
Qed.

End CartSteps.

Section CartHandlers.
Import JsObject JsObjectFacts.

Lemma update_lookup_eq (s : Store) uid (u : User) c :
  users s !! uid = Some u ->
  users (User_findByIdAndUpdate s uid c) !! uid = Some (with_cart u c).
Proof.
  intros Hu. unfold User_findByIdAndUpdate. rewrite Hu. simpl.
  apply lookup_insert_eq.
Qed.

Lemma update_lookup_ne (s : Store) uid uid' c :
  uid <> uid' ->
  users (User_findByIdAndUpdate s uid c) !! uid' = users s !! uid'.
Proof.
  intros Hne. unfold User_findByIdAndUpdate.
  destruct (users s !! uid); [|done]. simpl. by apply lookup_insert_ne.
Qed.

Lemma update_foods (s : Store) uid c :
  foods (User_findByIdAndUpdate s uid c) = foods s.
Proof. unfold User_findByIdAndUpdate. by destruct (users s !! uid). Qed.

Lemma update_orders (s : Store) uid c :
  orders (User_findByIdAndUpdate s uid c) = orders s.
Proof. unfold User_findByIdAndUpdate. by destruct (users s !! uid). Qed.

Lemma run_call_cart (s : Store) uid (u : User) (c : CartCall) :
  users s !! uid = Some u ->
  users (snd (run_call uid c s)) !! uid
    = Some (with_cart u (call_update c (cartData u))).
Proof.
  intros Hu.
  destruct c as [k q|k q]; simpl; unfold cart_add, cart_remove, User_findById;
    rewrite Hu; simpl; by apply update_lookup_eq.
Qed.

Lemma call_update_positive (c : CartCall) (cart : t) :
  all_positive cart -> in_range c -> all_positive (call_update c cart).
Proof.
  destruct c as [k q|k q]; simpl; intros Hc (Hk & Hq & Hf).
  - by apply add_update_positive.
  - by apply remove_update_positive.
Qed.

Lemma call_update_stored (c : CartCall) (cart : t) k :
  all_positive cart -> in_range c ->
  stored (call_update c cart) k = floored_step k (stored cart k) c.
Proof.
  intros Hc (Hk & Hq & Hf).
  destruct c as [k' d|k' d]; simpl in *.
  - destruct (String.eqb_spec k' k) as [->|Hne].
    + unfold stored at 1. by rewrite add_update_own_eq.
    + unfold stored. by rewrite add_update_own_ne.
  - destruct (String.eqb_spec k' k) as [->|Hne].
    + unfold stored at 1. rewrite remove_update_own_eq by done.
      unfold floored_sub. by destruct (PrimFloat.leb _ 0).
    + unfold stored. by rewrite remove_update_own_ne.
Qed.

Lemma run_calls_cart (uid : string) (cs : list CartCall) :
  forall (s : Store) (u : User),
    users s !! uid = Some u ->
    all_positive (cartData u) ->
    Forall in_range cs ->
    exists u',
      users (run_calls uid cs s) !! uid = Some u'
      /\ all_positive (cartData u')
      /\ forall k,
           stored (cartData u') k = floored_sum k (stored (cartData u) k) cs.
Proof.
  induction cs as [|c cs IH]; intros s u Hu Hpos Hqs.
  - exists u. by repeat split.
  - apply Forall_cons in Hqs as [Hq Hqs].
    pose proof (run_call_cart s uid u c Hu) as Hstep.
    destruct (IH _ _ Hstep) as (u' & Hu' & Hpos' & Hsum); simpl; auto.
    { by apply call_update_positive. }
    exists u'. repeat split; auto.
    intros k. rewrite Hsum. simpl. unfold floored_sum. simpl.
    by rewrite call_update_stored.
Qed.

(** What a cart of positive entries holds is read back from the
    quantity. *)
Lemma own_of_stored (c : t) k :
  all_positive c ->
  own c k = if PrimFloat.leb (stored c k) 0 then None
            else Some (Num (stored c k)).
Proof.
  intros Hc.
  destruct (stored_cases c k Hc) as [[E ->]|(q & E & -> & Hq)]; [done|].
  by rewrite (above_zero_not_le q Hq).
Qed.

End CartHandlers.

(** Three calls whose deltas sum to one leave no entry: the second
    addition is lost in the rounding of the sum. And an addition under
    the name of an inherited method stores a string. *)
Lemma large_sum_loses_a_unit :
  let deltas :=
    [(Example.itemA, true, 2 ^ 53); (Example.itemA, true, 1);
     (Example.itemA, false, 2 ^ 53)] in
  let s := run_calls Example.alice (List.map call_of deltas)
             (Example.shop []) in
  exact_sum Example.itemA deltas = 1
  /\ Forall in_range (List.map call_of deltas)
  /\ (exists u', users s !! Example.alice = Some u'
                 /\ JsObject.own (cartData u') Example.itemA = None)
  /\ exists u',
       users (run_calls Example.alice [AddItem "toString" 1]
                (Example.shop [])) !! Example.alice = Some u'
       /\ cartData u' = [("toString", Str (Method "toString") [1%float])]
       /\ ~ all_positive (cartData u').
Proof.
  cbv zeta. split; [reflexivity|]. split.
  { repeat constructor. }
  split.
  - eexists. split; [vm_compute; reflexivity|]. vm_compute. reflexivity.
  - eexists. split; [vm_compute; reflexivity|]. split; [reflexivity|].
    intros H. apply Forall_cons in H as [[q H] _]. discriminate H.
Qed.

(** C8, amended. Take a signed-in user whose cart holds numbers above
    zero only, and any sequence of AddItem and RemoveItem calls whose
    item ids are plain property names and whose quantities are above
    zero, those of the removals finite. After the sequence every entry
    of the cart is still a number above zero; for every item the cart
    holds the sum of that item's signed deltas, taken in call order in
    the arithmetic of the language, a removal stopping at zero, and
    holds no entry at all when that sum is zero; and a RemoveItem made
    next answers with the quantity it leaves, which is zero exactly
    when it deleted the entry or found none. *)
Theorem cart_calls_floored_sum (uid : string) (s : Store) (u : User)
    (cs : list CartCall) :
  users s !! uid = Some u ->
  all_positive (cartData u) ->
  Forall in_range cs ->
  exists u',
    users (run_calls uid cs s) !! uid = Some u'
    /\ all_positive (cartData u')
    /\ (forall k,
          let total := floored_sum k (stored (cartData u) k) cs in
          stored (cartData u') k = total
          /\ JsObject.own (cartData u') k
             = if PrimFloat.leb total 0 then None else Some (Num total))
    /\ (forall k d, plain k -> above_zero d -> finite d ->
          let left := floored_sub (stored (cartData u') k) d in
          let r :=
            cart_remove true uid
              {| body_itemId := k; body_quantity := Some d |}
              (run_calls uid cs s) in
          fst r = reply 200 true "Item removed from cart"
                    (CartQuantity k (Some (Num left)))
          /\ left
             = floored_sum k (stored (cartData u) k) (cs ++ [RemoveItem k d])
          /\ exists u'',
               users (snd r) !! uid = Some u''
               /\ (left = 0%float <-> JsObject.own (cartData u'') k = None)
               /\ (above_zero left ->
                   JsObject.own (cartData u'') k = Some (Num left))).
Proof.
  intros Hu Hpos Hqs.
  destruct (run_calls_cart uid cs s u Hu Hpos Hqs) as (u' & Hu' & Hpos' & Hsum).
  exists u'. split; [done|]. split; [done|]. split.
  - intros k total. subst total. rewrite <- Hsum. split; [done|].
    by apply own_of_stored.
  - intros k d Hk Hd Hf left r.
    assert (all_positive (remove_update (cartData u') k d)) as Hpos''
      by by apply remove_update_positive.
    assert (stored (remove_update (cartData u') k d) k = left) as Hleft.
    { unfold stored. rewrite remove_update_own_eq by done. subst left.
      unfold floored_sub. by destruct (PrimFloat.leb _ 0). }
    pose proof (own_of_stored _ k Hpos'') as Hown. rewrite Hleft in Hown.
    assert (left = 0%float \/ above_zero left) as Hcases.
    { destruct (stored_cases _ k Hpos'') as [[_ E]|(q & _ & E & Hq)];
        rewrite Hleft in E; [by left | right; by rewrite E]. }
    subst r. unfold cart_remove, User_findById. rewrite Hu'. simpl.
    unfold quantity_of. simpl.
    split; [|split].
    + do 3 f_equal. rewrite (JsObjectFacts.get_plain _ _ Hk), Hown.
      destruct Hcases as [->|Hlt]; [done|].
      rewrite (above_zero_not_le _ Hlt). cbn [JsObject.or_zero].
      by rewrite (above_zero_truthy _ Hlt).
    + unfold floored_sum. rewrite fold_left_app. simpl.
      rewrite String.eqb_refl. fold (floored_sum k (stored (cartData u) k) cs).
      by rewrite <- Hsum.
    + eexists. split; [by apply update_lookup_eq|]. simpl.
      rewrite Hown. destruct Hcases as [->|Hlt].
      * split; [done|]. intros H. discriminate H.
      * rewrite (above_zero_not_le _ Hlt). split; [|done].
        split; [|done]. intros ->. discriminate Hlt.
Qed.

(** Five calls on an empty cart: the first item ends at three although
    its deltas sum to zero, the second is deleted. *)
Lemma cart_calls_floored_sum_witness :
  let cs :=
    [AddItem Example.itemA 2; RemoveItem Example.itemA 5;
     AddItem Example.itemA 3; AddItem Example.itemB 1;
     RemoveItem Example.itemB 1] in
  exists u',
    users (run_calls Example.alice cs (Example.shop [])) !! Example.alice
      = Some u'
    /\ JsObject.own (cartData u') Example.itemA = Some (Num 3)
    /\ JsObject.own (cartData u') Example.itemB = None.
Proof.
  cbv zeta.
  destruct (cart_calls_floored_sum Example.alice (Example.shop [])
              (Example.customer [])
              [AddItem Example.itemA 2; RemoveItem Example.itemA 5;
               AddItem Example.itemA 3; AddItem Example.itemB 1;
               RemoveItem Example.itemB 1])
    as (u' & Hu' & _ & Hget & _).
  - reflexivity.
  - constructor.
  - repeat constructor.
  - exists u'. split; [exact Hu'|]. split.
    + exact (proj2 (Hget Example.itemA)).
    + exact (proj2 (Hget Example.itemB)).
Defined.

(** ** Enumerating a cart *)

Lemma In_insert_by_index n e l x :
  In x (insert_by_index n e l) <-> x = (n, e) \/ In x l.
Proof.
  induction l as [|[m e'] l IH]; simpl.
  - intuition.
  - destruct (N.ltb n m); simpl; [intuition|].
    rewrite IH. intuition.
Qed.

Lemma In_index_entries (o : JsObject.t) n e :
  In (n, e) (index_entries o) <-> In e o /\ array_index (fst e) = Some n.
Proof.
  induction o as [|[k v] o IH]; simpl; [intuition|].
  destruct (array_index k) as [m|] eqn:E.
  - rewrite In_insert_by_index, IH. split.
    + intros [[= -> ->]|[H1 H2]]; [by split; [left|] | by split; [right|]].
    + intros [[<-|H1] H2]; simpl in *; [left; congruence | by right].
  - rewrite IH. split; [intuition|].
    intros [[<-|H1] H2]; simpl in *; [congruence | done].
Qed.

Lemma In_Object_entries (o : JsObject.t) e : In e (Object_entries o) <-> In e o.
Proof.
  unfold Object_entries. rewrite in_app_iff, in_map_iff, filter_In.
  unfold is_index. split.
  - intros [([n e'] & <- & H)|[H _]]; [|done].
    by apply In_index_entries in H as [H _].
  - intros H. destruct (array_index (fst e)) as [n|] eqn:E.
    + left. exists (n, e). split; [done|]. by apply In_index_entries.
    + right. by split.
Qed.

Lemma In_positive_entries (c : JsObject.t) k q :
  In (k, q) (positive_entries c) <-> In (k, Num q) c /\ above_zero q.
Proof.
  unfold positive_entries. rewrite in_flat_map. split.
  - intros ([k' v] & Hin & Hq).
    apply (proj1 (In_Object_entries _ _)) in Hin.
    simpl in Hq. destruct (gt_zero v) as [q'|] eqn:E; [|done].
    destruct Hq as [Hq|[]]. injection Hq as -> ->.
    apply gt_zero_spec in E as [-> Hq]. by split.
  - intros [Hin Hq]. exists (k, Num q).
    split; [exact (proj2 (In_Object_entries c (k, Num q)) Hin)|].
    cbn [fst snd]. rewrite (gt_zero_Num q Hq). by left.
Qed.

Lemma positive_entries_nil (c : JsObject.t) :
  positive_entries c = [] <-> Forall (fun e => gt_zero (snd e) = None) c.
Proof.
  rewrite List.Forall_forall. split.
  - intros Hnil [k v] He. simpl.
    destruct (gt_zero v) as [q|] eqn:E; [|done].
    apply gt_zero_spec in E as [-> Hq].
    assert (In (k, q) (positive_entries c)) as Hin
      by by apply In_positive_entries.
    rewrite Hnil in Hin. destruct Hin.
  - intros Hall. destruct (positive_entries c) as [|[k q] l] eqn:E; [done|].
    assert (In (k, q) (positive_entries c)) as Hin by (rewrite E; by left).
    apply In_positive_entries in Hin as [Hin Hpos].
    specialize (Hall _ Hin). cbn [snd] in Hall.
    by rewrite (gt_zero_Num q Hpos) in Hall.
Qed.

(** ** The loop of the order builder *)

Section BuildItems.
Variable cast : string -> option string.

Lemma Food_findById_resolve (s : Store) (k : string) :
  Food_findById cast s k
  = match cast k with
    | Some _ => Value (resolve cast s k)
    | None => Raise (CastError k)
    end.
Proof. unfold Food_findById, resolve. by destruct (cast k). Qed.

Lemma entry_ok_resolve (s : Store) (e : string * float) :
  entry_ok cast s e = true ->
  exists oid f,
    cast (fst e) = Some oid /\ foods s !! oid = Some f
    /\ isAvailable f = true /\ resolve cast s (fst e) = Some (oid, f).
Proof.
  unfold entry_ok, resolve. destruct (cast (fst e)) as [oid|]; [|done].
  destruct (foods s !! oid) as [f|] eqn:Ef; [|done]. intros H.
  exists oid, f. by repeat split.
Qed.

Lemma build_items_ok (s : Store) (l : list (string * float)) :
  forall acc sub,
    forallb (entry_ok cast s) l = true ->
    build_items cast s l acc sub
      = Value ((acc ++ snapshots cast s l)%list,
               fold_left
                 (fun a i =>
                    (a + line_total (item_price i) (item_quantity i))%float)
                 (snapshots cast s l) sub).
Proof.
  induction l as [|[k q] l IH]; intros acc sub Hok; simpl.
  - by rewrite app_nil_r.
  - simpl in Hok. apply andb_prop in Hok as [Hk Hl].
    apply entry_ok_resolve in Hk as (oid & f & Hc & Hf & Hav & Hr).
    simpl in Hc, Hr. unfold Food_findById. rewrite Hc, Hf, Hr. simpl.
    rewrite Hav. simpl. rewrite IH by done.
    by rewrite <- app_assoc.
Qed.

Lemma build_items_first_bad (s : Store) (l1 l2 : list (string * float)) e :
  forall acc sub,
    forallb (entry_ok cast s) l1 = true ->
    entry_ok cast s e = false ->
    build_items cast s (l1 ++ e :: l2)%list acc sub = refusal cast s (fst e).
Proof.
  induction l1 as [|[k q] l1 IH]; intros acc sub Hok Hbad; simpl.
  - destruct e as [k q]. unfold entry_ok, resolve in Hbad. simpl in *.
    unfold Food_findById, refusal. destruct (cast k) as [oid|]; simpl; [|done].
    destruct (foods s !! oid) as [f|]; [|done].
    by rewrite Hbad.
  - simpl in Hok. apply andb_prop in Hok as [Hk Hl].
    apply entry_ok_resolve in Hk as (oid & f & Hc & Hf & Hav & _).
    simpl in Hc. unfold Food_findById. rewrite Hc, Hf. simpl.
    rewrite Hav. simpl. by apply IH.
Qed.

(** A list with an entry the builder refuses splits at the first one. *)
Lemma first_bad_entry (s : Store) (l : list (string * float)) :
  forallb (entry_ok cast s) l = false ->
  exists l1 e l2,
    l = (l1 ++ e :: l2)%list
    /\ forallb (entry_ok cast s) l1 = true
    /\ entry_ok cast s e = false.
Proof.
  induction l as [|e l IH]; simpl; [done|].
  destruct (entry_ok cast s e) eqn:E; simpl.
  - intros H. destruct (IH H) as (l1 & e' & l2 & -> & H1 & H2).
    exists (e :: l1), e', l2. simpl. by rewrite E.
  - intros _. by exists [], e, l.
Qed.

Lemma build_items_bad (s : Store) (l : list (string * float)) acc sub :
  forallb (entry_ok cast s) l = false ->
  (exists r, build_items cast s l acc sub = Respond r
             /\ code r = 400 /\ success r = false)
  \/ (exists e, build_items cast s l acc sub = Raise e).
Proof.
  intros H. destruct (first_bad_entry s l H) as (l1 & e & l2 & -> & H1 & H2).
  rewrite (build_items_first_bad s l1 l2 e acc sub H1 H2). unfold refusal.
  destruct (cast (fst e)) as [oid|]; [|by right; eexists].
  left. destruct (foods s !! oid); by eexists.
Qed.

End BuildItems.

(** ** Saving an order *)

Lemma number_taken_spec (number : string) (os : list Order) :
  number_taken number os = true <-> In number (List.map orderNumber os).
Proof.
  unfold number_taken. rewrite existsb_exists, in_map_iff.
  split; intros (o & H1 & H2).
  - apply String.eqb_eq in H2. by exists o.
  - exists o. split; [done|]. by apply String.eqb_eq.
Qed.

Lemma Order_save_inr (env : Env) (d : Draft) (s : Store) o s1 :
  Order_save env d s = inr (o, s1) ->
  insert_ok env = true
  /\ o = document env (pre_save (Date_now env) (List.length (orders s)) d) d
  /\ s1 = with_orders s (orders s ++ [o])
  /\ ~ In (orderNumber o) (List.map orderNumber (orders s)).
Proof.
  unfold Order_save.
  destruct (number_taken _ (orders s)) eqn:Et; [done|].
  destruct (insert_ok env); [|done].
  intros [= <- <-]. repeat split; auto.
  simpl. rewrite <- number_taken_spec. by rewrite Et.
Qed.

(** The handler leaves the numbering to the hook. *)
Lemma pre_save_new_Order now count uid lines subtotal a pid :
  pre_save now count (new_Order uid lines subtotal a pid)
    = order_number now count.
Proof. reflexivity. Qed.

(** ** The outcomes of an order placement *)

Section PlaceOrder.
Variable cast : string -> option string.

(** Up to the save: a complete address, a known user, a cart with
    positive entries that all resolve to available items. *)
Lemma order_place_valid (env : Env) uid (b : PlaceBody) (s : Store) a u :
  body_address b = Some a ->
  address_complete (Some a) = true ->
  users s !! uid = Some u ->
  positive_entries (cartData u) <> [] ->
  forallb (entry_ok cast s) (positive_entries (cartData u)) = true ->
  order_place cast env uid b s =
    let lines := snapshots cast s (positive_entries (cartData u)) in
    match Order_save env
            (new_Order uid lines (sum_lines lines) a (body_paymentId b)) s with
    | inl e => (thrown "Failed to place order: " e, s)
    | inr (o, s1) =>
        if update_ok env
        then (placed_reply a o, User_findByIdAndUpdate s1 uid [])
        else (thrown "Failed to place order: " StorageError, s1)
    end.
Proof.
  intros Ha Hc Hu Hne Hok. unfold order_place, User_findById.
  rewrite Ha, Hc, Hu.
  destruct (positive_entries (cartData u)) as [|e l] eqn:E; [done|].
  simpl length. simpl Nat.eqb. cbv iota.
  rewrite (build_items_ok cast s (e :: l) [] 0%float Hok).
  rewrite app_nil_l. fold (sum_lines (snapshots cast s (e :: l))).
  cbv zeta.
  destruct (Order_save env _ s) as [err|[o s1]] eqn:Es; [done|].
  apply Order_save_inr in Es as (_ & Ho & _ & _).
  destruct (update_ok env); [|done].
  unfold placed_reply. by rewrite Ho.
Qed.

(** Every way a placement can end. *)
Lemma order_place_cases (env : Env) uid (b : PlaceBody) (s : Store) :
  let r := fst (order_place cast env uid b s) in
  let s' := snd (order_place cast env uid b s) in
  (s' = s /\ code r <> 201 /\ success r = false)
  \/ exists a u,
       body_address b = Some a
       /\ address_complete (Some a) = true
       /\ users s !! uid = Some u
       /\ positive_entries (cartData u) <> []
       /\ forallb (entry_ok cast s) (positive_entries (cartData u)) = true
       /\ insert_ok env = true
       /\ ~ In (orderNumber (built_order cast env uid b a s u))
              (List.map orderNumber (orders s))
       /\ let o := built_order cast env uid b a s u in
          let s1 := with_orders s (orders s ++ [o]) in
          (update_ok env = true /\ r = placed_reply a o
           /\ s' = User_findByIdAndUpdate s1 uid [])
          \/ (update_ok env = false /\ code r = 500 /\ s' = s1).
Proof.
  cbv zeta.
  destruct (body_address b) as [a|] eqn:Ha;
    [|left; unfold order_place; rewrite Ha; by split].
  destruct (address_complete (Some a)) eqn:Hc;
    [|left; unfold order_place; rewrite Ha, Hc; by split].
  destruct (users s !! uid) as [u|] eqn:Hu;
    [|left; unfold order_place, User_findById; rewrite Ha, Hc, Hu; by split].
  destruct (positive_entries (cartData u)) as [|e l] eqn:E.
  { left. unfold order_place, User_findById. rewrite Ha, Hc, Hu, E. by split. }
  destruct (forallb (entry_ok cast s) (e :: l)) eqn:Hok.
  - assert (positive_entries (cartData u) <> []) as Hne by (by rewrite E).
    rewrite <- E in Hok.
    rewrite (order_place_valid env uid b s a u Ha Hc Hu Hne Hok). cbv zeta.
    destruct (Order_save env _ s) as [err|[o s1]] eqn:Es; [left; by split|].
    apply Order_save_inr in Es as (Hins & Ho & Hs1 & Hfresh).
    right. exists a, u. rewrite E in *.
    assert (o = built_order cast env uid b a s u) as Hb.
    { rewrite Ho. unfold built_order. by rewrite E. }
    rewrite <- Hb, <- Hs1.
    repeat (split; [done|]).
    destruct (update_ok env); [left | right]; by repeat split.
  - left. unfold order_place, User_findById. rewrite Ha, Hc, Hu, E.
    simpl length. simpl Nat.eqb. cbv iota.
    destruct (build_items_bad cast s (e :: l) [] 0%float Hok)
      as [(r & -> & Hr & Hs)|(err & ->)]; simpl; repeat split; auto; lia.
Qed.

(** A placement stopped by the first entry the builder refuses. *)
Lemma order_place_first_bad (env : Env) uid (b : PlaceBody) (s : Store) a u
    (l1 : list (string * float)) e l2 :
  body_address b = Some a ->
  address_complete (Some a) = true ->
  users s !! uid = Some u ->
  positive_entries (cartData u) = (l1 ++ e :: l2)%list ->
  forallb (entry_ok cast s) l1 = true ->
  entry_ok cast s e = false ->
  order_place cast env uid b s
    = match cast (fst e) with
      | Some oid =>
          match foods s !! oid with
          | None =>
              (reply 400 false ("Food item not found: " ++ fst e) NoData, s)
          | Some f =>
              (reply 400 false
                 ("Food item is no longer available: " ++ food_name f)
                 NoData, s)
          end
      | None => (thrown "Failed to place order: " (CastError (fst e)), s)
      end.
Proof.
  intros Ha Hc Hu Hsplit Hl1 Hbad. unfold order_place, User_findById.
  rewrite Ha, Hc, Hu, Hsplit.
  assert (Nat.eqb (List.length (l1 ++ e :: l2)) 0 = false) as ->.
  { rewrite length_app. simpl. apply Nat.eqb_neq. lia. }
  rewrite (build_items_first_bad cast s l1 l2 e [] 0%float Hl1 Hbad).
  unfold refusal. destruct (cast (fst e)) as [oid|]; [|done].
  by destruct (foods s !! oid).
Qed.

End PlaceOrder.

(** ** Order placement: persistence and the cart *)

Section Placement.
Variable cast : string -> option string.

Lemma order_place_orders (env : Env) uid (b : PlaceBody) (s : Store) :
  let s' := snd (order_place cast env uid b s) in
  s' = s
  \/ exists a u,
       body_address b = Some a
       /\ users s !! uid = Some u
       /\ orders s' = (orders s ++ [built_order cast env uid b a s u])%list
       /\ ~ In (orderNumber (built_order cast env uid b a s u))
              (List.map orderNumber (orders s)).
Proof.
  destruct (order_place_cases cast env uid b s)
    as [[H _]|(a & u & Ha & _ & Hu & _ & _ & _ & Hfresh & Hend)]; [by left|].
  right. exists a, u. repeat (split; [done|]). split; [|done].
  destruct Hend as [(_ & _ & ->)|(_ & _ & ->)]; [|done].
  by rewrite update_orders.
Qed.

(** One refused entry with a positive quantity stops the placement. *)
Lemma order_place_refused (env : Env) uid (b : PlaceBody) (s : Store) u e :
  users s !! uid = Some u ->
  In e (positive_entries (cartData u)) -> entry_ok cast s e = false ->
  snd (order_place cast env uid b s) = s
  /\ success (fst (order_place cast env uid b s)) = false
  /\ code (fst (order_place cast env uid b s)) <> 201.
Proof.
  intros Hu Hin Hbad.
  destruct (order_place_cases cast env uid b s)
    as [(H1 & H2 & H3)|(a & u' & _ & _ & Hu' & _ & Hok & _)]; [done|].
  rewrite Hu in Hu'. injection Hu' as <-.
  rewrite forallb_forall in Hok.
  by rewrite (Hok e) in Hbad.
Qed.

(** What a placement that succeeds has added. *)
Lemma order_place_201 (env : Env) uid (b : PlaceBody) (s : Store) :
  code (fst (order_place cast env uid b s)) = 201 ->
  exists o,
    orders (snd (order_place cast env uid b s)) = (orders s ++ [o])%list
    /\ orderNumber o
       = order_number (Date_now env) (List.length (orders s))
    /\ ~ In (orderNumber o) (List.map orderNumber (orders s)).
Proof.
  intros Hcode.
  destruct (order_place_cases cast env uid b s)
    as [(_ & H & _)|(a & u & _ & _ & _ & _ & _ & _ & Hfresh & Hend)];
    [done|].
  exists (built_order cast env uid b a s u). split; [|by split].
  destruct Hend as [(_ & _ & ->)|(_ & H & _)]; [|rewrite Hcode in H; done].
  by rewrite update_orders.
Qed.

End Placement.

(** The insert accepted and the cart update refused: the order is in
    the collection, the cart is as it was, and the reply is a
    failure. *)
Lemma order_saved_cart_not_cleared :
  let env :=
    {| Date_now := 1700000000000; timestamp := 1700000000000;
       ObjectId := "665f1c2ab7e4d90a1c3e5b01";
       insert_ok := true; update_ok := false |} in
  let p := order_place Example.cast env Example.alice Example.body
             Example.store in
  code (fst p) = 500
  /\ success (fst p) = false
  /\ (exists o, orders (snd p) = [o] /\ userId o = Example.alice)
  /\ users (snd p) !! Example.alice
     = Some (Example.customer
               [(Example.itemA, Num 2); (Example.itemB, Num 1)]).
Proof.
  cbv zeta. split; [reflexivity|]. split; [reflexivity|]. split.
  - eexists. split; reflexivity.
  - vm_compute. reflexivity.
Qed.

(** C1, amended. For a user with a complete address and a cart whose
    positive entries all resolve to available items: a placement that
    succeeds has added exactly one order to the collection, under a
    number no earlier order has, and has left that user's cart empty
    and every other cart and the catalog as they were; when the insert
    is refused, by the storage layer or by the unique index, the reply
    is a failure and the whole store, the cart with it, is as before
    the call; the placement succeeds whenever both writes are accepted;
    when the insert is accepted and the cart update that follows is
    refused, the reply is a failure, the order stays in the collection
    and the carts are as they were; and a placement that does not
    succeed never changes a cart. *)
Theorem placement_saves_then_clears (cast : string -> option string)
    (env : Env) (uid : string) (b : PlaceBody) (s : Store) (a : Address)
    (u : User) :
  body_address b = Some a ->
  address_complete (Some a) = true ->
  users s !! uid = Some u ->
  positive_entries (cartData u) <> [] ->
  forallb (entry_ok cast s) (positive_entries (cartData u)) = true ->
  let r := fst (order_place cast env uid b s) in
  let s' := snd (order_place cast env uid b s) in
  let number := order_number (Date_now env) (List.length (orders s)) in
  (code r = 201 ->
     exists o,
       orders s' = (orders s ++ [o])%list
       /\ ~ In (orderNumber o) (List.map orderNumber (orders s))
       /\ users s' !! uid = Some (with_cart u [])
       /\ (forall uid', uid' <> uid -> users s' !! uid' = users s !! uid')
       /\ foods s' = foods s)
  /\ (insert_ok env = false \/ number_taken number (orders s) = true ->
        code r = 500 /\ s' = s)
  /\ (insert_ok env = true -> number_taken number (orders s) = false ->
        update_ok env = true -> code r = 201)
  /\ (insert_ok env = true -> number_taken number (orders s) = false ->
        update_ok env = false ->
        code r = 500
        /\ (exists o, orders s' = (orders s ++ [o])%list
                      /\ orderNumber o = number /\ userId o = uid)
        /\ users s' = users s
        /\ foods s' = foods s)
  /\ (code r <> 201 -> users s' = users s).
Proof.
  intros Ha Hc Hu Hne Hok r s' number. subst r s'.
  rewrite (order_place_valid cast env uid b s a u Ha Hc Hu Hne Hok).
  cbv zeta. unfold Order_save. rewrite !pre_save_new_Order. fold number.
  destruct (number_taken number (orders s)) eqn:Et.
  { simpl. repeat split; try done; lia. }
  destruct (insert_ok env) eqn:Ei.
  2:{ simpl. repeat split; try done; try lia. }
  destruct (update_ok env) eqn:Eu.
  2:{ simpl. split; [done|]. split; [by intros [|]|]. split; [done|].
      split; [|done]. intros _ _ _. split; [done|]. split; [|done].
      by eexists. }
  simpl. split; [|split; [|split; [|split]]]; try done.
  - intros _. eexists. split; [|split; [|split; [|split]]].
    + by rewrite update_orders.
    + simpl. rewrite <- number_taken_spec. by rewrite Et.
    + by apply update_lookup_eq.
    + intros uid' Hn. by rewrite update_lookup_ne.
    + by rewrite update_foods.
  - intros [|]; done.
Qed.

(** The example cart placed: one order, and an empty cart. *)
Lemma placement_saves_then_clears_witness :
  let s' :=
    snd (order_place Example.cast Example.env Example.alice Example.body
           Example.store) in
  exists o,
    orders s' = [o]
    /\ users s' !! Example.alice = Some (Example.customer [])
    /\ foods s' = Example.catalog.
Proof.
  destruct (placement_saves_then_clears Example.cast Example.env
              Example.alice Example.body Example.store Example.home
              (Example.customer
                 [(Example.itemA, Num 2); (Example.itemB, Num 1)]))
    as (Hplaced & _); try reflexivity.
  - vm_compute. discriminate.
  - destruct Hplaced as (o & Ho & _ & Hcart & _ & Hfoods); [reflexivity|].
    exists o. repeat split; assumption.
Defined.

(** A caller who sends the payment status Paid still gets an order
    whose payment status is Pending. *)
Lemma supplied_status_ignored :
  let b := with_paymentStatus Example.body (Some Paid) in
  let p := order_place Example.cast Example.env Example.alice b
             Example.store in
  body_paymentStatus b = Some Paid
  /\ code (fst p) = 201
  /\ exists o,
       orders (snd p) = [o]
       /\ paymentStatus o = Pending
       /\ Some (paymentStatus o) <> body_paymentStatus b.
Proof.
  cbv zeta. split; [reflexivity|]. split; [reflexivity|].
  eexists. split; [reflexivity|]. split; [reflexivity|]. discriminate.
Qed.

(** C5, amended. A placement that succeeds has persisted an order with
    status Food Processing and payment status Pending; so has every
    placement that persisted an order at all. The payment status is
    Pending whatever payment status the caller sends: the handler gives
    the same reply and the same store for every value of that field.
    What is passed through from the caller is the payment id, a missing
    or empty one stored as null. *)
Theorem placed_order_status (cast : string -> option string) (env : Env)
    (uid : string) (b : PlaceBody) (s : Store) :
  let r := fst (order_place cast env uid b s) in
  let s' := snd (order_place cast env uid b s) in
  (code r = 201 ->
     exists o,
       orders s' = (orders s ++ [o])%list
       /\ status o = FoodProcessing
       /\ status_text (status o) = "Food Processing"
       /\ paymentStatus o = Pending
       /\ paymentId o = or_null (body_paymentId b))
  /\ (s' = s
      \/ exists o,
           orders s' = (orders s ++ [o])%list
           /\ status o = FoodProcessing
           /\ paymentStatus o = Pending)
  /\ (forall p,
        order_place cast env uid (with_paymentStatus b p) s
          = order_place cast env uid b s).
Proof.
  cbv zeta. split; [|split].
  - intros Hcode.
    destruct (order_place_cases cast env uid b s)
      as [(_ & H & _)|(a & u & _ & _ & _ & _ & _ & _ & _ & Hend)]; [done|].
    exists (built_order cast env uid b a s u).
    destruct Hend as [(_ & _ & ->)|(_ & H & _)]; [|rewrite Hcode in H; done].
    by rewrite update_orders.
  - destruct (order_place_orders cast env uid b s)
      as [H|(a & u & _ & _ & H & _)]; [by left|].
    right. by exists (built_order cast env uid b a s u).
  - intros p. by destruct b.
Qed.

(** The example cart placed by a caller who sends the payment status
    Failed. *)
Lemma placed_order_status_witness :
  exists o,
    orders (snd (order_place Example.cast Example.env Example.alice
                   (with_paymentStatus Example.body (Some Failed))
                   Example.store)) = [o]
    /\ status o = FoodProcessing
    /\ paymentStatus o = Pending.
Proof.
  destruct (placed_order_status Example.cast Example.env Example.alice
              (with_paymentStatus Example.body (Some Failed)) Example.store)
    as (Hplaced & _).
  destruct Hplaced as (o & Ho & Hs & _ & Hp & _); [reflexivity|].
  exists o. repeat split; assumption.
Defined.

(** ** Totals *)

Lemma built_order_consistent cast (env : Env) uid (b : PlaceBody) a
    (s : Store) u :
  totals_consistent (built_order cast env uid b a s u).
Proof. by repeat split. Qed.

(** The cart of the specification's example: the subtotal is 30.48, the
    fee 2, and the total is not the number 32.48. *)
Lemma example_total_is_not_32_48 :
  let p := order_place Example.cast Example.env Example.alice Example.body
             Example.store in
  code (fst p) = 201
  /\ exists o,
       orders (snd p) = [o]
       /\ List.map (fun i => (item_price i, item_quantity i)) (items o)
          = [(10.99%float, 2%float); (8.5%float, 1%float)]
       /\ amount o = 30.48%float
       /\ deliveryFee o = 2%float
       /\ totalAmount o <> 32.48%float.
Proof.
  cbv zeta. split; [reflexivity|].
  eexists. split; [reflexivity|]. repeat split.
  intros H. apply (f_equal (fun x => PrimFloat.eqb x 32.48%float)) in H.
  vm_compute in H. discriminate.
Qed.

(** C3, amended. Every order a placement creates carries as subtotal the
    sum over its lines of price times quantity, a delivery fee of 2, and
    as total the subtotal plus the fee; the orders already in the
    collection stay as they are, under placements and under cart calls.
    The sums are the language's floating-point sums: for the cart of two
    items at 10.99 and one at 8.50 the subtotal is 30.48, the fee 2, and
    the total 32.480000000000004, the number next above 32.48. *)
Theorem order_totals (cast : string -> option string) (env : Env) (uid : string)
    (b : PlaceBody) (s : Store) :
  let s' := snd (order_place cast env uid b s) in
  (s' = s
   \/ exists o, orders s' = (orders s ++ [o])%list /\ totals_consistent o)
  /\ (forall up cb,
        orders (snd (cart_add up uid cb s)) = orders s
        /\ orders (snd (cart_remove up uid cb s)) = orders s)
  /\ exists o,
       orders (snd (order_place Example.cast Example.env Example.alice
                      Example.body Example.store)) = [o]
       /\ amount o = 30.48%float
       /\ deliveryFee o = 2%float
       /\ totalAmount o = 32.480000000000004%float.
Proof.
  cbv zeta. split; [|split].
  - destruct (order_place_orders cast env uid b s)
      as [H|(a & u & _ & _ & H & _)]; [by left|].
    right. exists (built_order cast env uid b a s u). split; [done|].
    apply built_order_consistent.
  - intros up cb. unfold cart_add, cart_remove.
    destruct (User_findById s uid); [|done].
    destruct up; simpl; by rewrite ?update_orders.
  - eexists. split; [reflexivity|]. by repeat split.
Qed.

(** ** Checks before the loop *)

(** C6. When every entry of the user's cart has a quantity of zero or
    less, the empty cart included, so that nothing is left after the
    filter, a placement fails and leaves the store as it was: no order
    is created. With a complete address the failure is the one that
    says the cart is empty; with an incomplete one the address check,
    which comes first, has already failed. *)
Theorem empty_cart_rejected (cast : string -> option string) (env : Env)
    (uid : string) (b : PlaceBody) (s : Store) (u : User) :
  users s !! uid = Some u ->
  Forall (fun e => at_most_zero (snd e)) (cartData u) ->
  let r := fst (order_place cast env uid b s) in
  let s' := snd (order_place cast env uid b s) in
  positive_entries (cartData u) = []
  /\ s' = s
  /\ orders s' = orders s
  /\ code r = 400
  /\ success r = false
  /\ (address_complete (body_address b) = true ->
        r = reply 400 false "Cart is empty" NoData).
Proof.
  intros Hu Hall.
  assert (positive_entries (cartData u) = []) as Hnil.
  { apply positive_entries_nil. eapply List.Forall_impl; [|exact Hall].
    intros e (n & -> & Hn). simpl. by rewrite (le_zero_not_above n Hn). }
  clear Hall. rename Hnil into Hall.
  cbv zeta. unfold order_place, User_findById.
  destruct (body_address b) as [a|]; [|by repeat split].
  destruct (address_complete (Some a)); [|by repeat split].
  rewrite Hu, Hall. by repeat split.
Qed.

(** A cart holding a zero and a negative quantity. *)
Lemma empty_cart_rejected_witness :
  order_place Example.cast Example.env Example.alice Example.body
    (Example.shop [(Example.itemA, Num 0); (Example.itemB, Num (-1))])
  = (reply 400 false "Cart is empty" NoData,
     Example.shop [(Example.itemA, Num 0); (Example.itemB, Num (-1))]).
Proof.
  destruct (empty_cart_rejected Example.cast Example.env Example.alice
              Example.body
              (Example.shop
                 [(Example.itemA, Num 0); (Example.itemB, Num (-1))])
              (Example.customer
                 [(Example.itemA, Num 0); (Example.itemB, Num (-1))]))
    as (_ & Hs & _ & _ & _ & Hr).
  - reflexivity.
  - repeat constructor; eexists; split; reflexivity.
  - rewrite (surjective_pairing (order_place _ _ _ _ _)).
    rewrite Hs, Hr; reflexivity.
Defined.

Section AddressCheck.
Variable cast : string -> option string.

Lemma build_items_reply (s : Store) (l : list (string * float)) :
  forall acc sub r,
    build_items cast s l acc sub = Respond r ->
    payload r = NoData
    /\ exists rest, message r = Text ("Food item " ++ rest).
Proof.
  induction l as [|[k q] l IH]; intros acc sub r; simpl; [done|].
  unfold Food_findById. destruct (cast k) as [oid|]; simpl; [|done].
  destruct (foods s !! oid) as [f|].
  - destruct (isAvailable f); simpl.
    + apply IH.
    + intros [= <-]. split; [done|]. by eexists.
  - intros [= <-]. split; [done|]. by eexists.
Qed.

Lemma address_passes (env : Env) uid (b : PlaceBody) (s : Store) :
  address_complete (body_address b) = true ->
  message (fst (order_place cast env uid b s))
    <> Text "Complete delivery address is required"
  /\ forall m, payload (fst (order_place cast env uid b s)) <> Missing m.
Proof.
  intros Hc. unfold order_place, User_findById.
  destruct (body_address b) as [a|]; [|done]. rewrite Hc.
  destruct (users s !! uid) as [u|]; [|by split].
  destruct (Nat.eqb _ 0); [by split|].
  destruct (build_items cast s _ [] 0%float) as [r|e|[lines sub]] eqn:E.
  - apply build_items_reply in E as [Hp [rest Hm]]. simpl.
    rewrite Hp, Hm. by split.
  - by split.
  - destruct (Order_save env _ s) as [e|[o s1]]; [by split|].
    destruct (update_ok env); by split.
Qed.

End AddressCheck.

Lemma present_spec (f : option string) :
  present f = true <-> exists v, f = Some v /\ v <> EmptyString.
Proof.
  destruct f as [v|]; simpl.
  - destruct (String.eqb_spec v EmptyString); simpl; split; try done.
    + intros (v' & [= <-] & H). done.
    + intros _. by exists v.
  - split; [done|]. by intros (v & H & _).
Qed.

Lemma absent_spec (a : option Address) (field : Address -> option string) :
  absent a field = true <-> ~ supplied a field.
Proof.
  unfold absent, supplied. destruct a as [a|].
  - rewrite negb_true_iff, <- not_true_iff_false, present_spec.
    split; intros H.
    + intros (a' & v & [= <-] & Hv & Hne). apply H. by exists v.
    + intros (v & Hv & Hne). apply H. by exists a, v.
  - split; [|done]. by intros _ (a' & v & H & _).
Qed.

Lemma flagged_spec (a : option Address) name field :
  In (name, field) required_fields ->
  flagged (missingFields a) name = absent a field.
Proof.
  unfold required_fields. simpl.
  intros H. repeat (destruct H as [[= <- <-]|H]; [reflexivity|]). destruct H.
Qed.

Lemma address_complete_spec (a : option Address) :
  address_complete a = true
  <-> forall name field, In (name, field) required_fields -> supplied a field.
Proof.
  split.
  - destruct a as [a|]; [|done]. simpl. rewrite !andb_true_iff.
    intros Hall name field Hin.
    assert (present (field a) = true) as Hp.
    { unfold required_fields in Hin. simpl in Hin.
      repeat (destruct Hin as [[= <- <-]|Hin]; [tauto|]). destruct Hin. }
    apply present_spec in Hp as (v & Hv & Hne). by exists a, v.
  - intros Hall.
    assert (forall name field, In (name, field) required_fields ->
              exists a', a = Some a' /\ present (field a') = true) as Hp.
    { intros name field Hin.
      destruct (Hall name field Hin) as (a' & v & -> & Hv & Hne).
      exists a'. split; [done|]. apply present_spec. by exists v. }
    destruct (Hp "firstName" firstName) as (a' & -> & _); [by left|].
    simpl. rewrite !andb_true_iff.
    repeat split;
      match goal with
      | |- present (?f a') = true =>
          assert (exists n, In (n, f) required_fields) as [n Hn]
            by (unfold required_fields; simpl; eauto 20);
          destruct (Hp n f Hn) as (a'' & [= <-] & H); exact H
      end.
Qed.

(** C7. The address check asks for nine fields: first name, last name,
    email, street, city, state, zip code, country and phone. A field is
    supplied when the body carries it with a non-empty value. If any of
    the nine is not supplied, the placement fails, the store untouched,
    with the validation failure whose flags name each field: the flag of
    a field is set exactly when that field is not supplied. If all nine
    are supplied the check passes: whatever the reply then is, it is not
    the validation failure. *)
Theorem address_validation (cast : string -> option string) (env : Env)
    (uid : string) (b : PlaceBody) (s : Store) :
  let a := body_address b in
  let p := order_place cast env uid b s in
  List.length required_fields = 9%nat
  /\ (forall name field,
        In (name, field) required_fields ->
        (flagged (missingFields a) name = true <-> ~ supplied a field))
  /\ ((exists name field,
         In (name, field) required_fields /\ ~ supplied a field) ->
      p = (reply 400 false "Complete delivery address is required"
             (Missing (missingFields a)), s))
  /\ ((forall name field,
         In (name, field) required_fields -> supplied a field) ->
      message (fst p) <> Text "Complete delivery address is required"
      /\ forall m, payload (fst p) <> Missing m).
Proof.
  cbv zeta. split; [reflexivity|]. split; [|split].
  - intros name field Hin. rewrite (flagged_spec _ _ _ Hin).
    apply absent_spec.
  - intros (name & field & Hin & Hno).
    assert (address_complete (body_address b) = false) as Hc.
    { apply not_true_iff_false. intros Hc.
      apply Hno. by apply (proj1 (address_complete_spec _) Hc name). }
    unfold order_place. destruct (body_address b) as [a|]; [|done].
    by rewrite Hc.
  - intros Hall. apply address_passes. by apply address_complete_spec.
Qed.

(** An address with an empty city and no phone. *)
Lemma address_validation_witness :
  let a :=
    {| firstName := Some "Alice"; lastName := Some "Doe";
       email := Some "alice@example.com"; street := Some "123 Main St";
       city := Some EmptyString; state := Some "CA"; zipcode := Some "12345";
       country := Some "USA"; phone := None |} in
  let b :=
    {| body_address := Some a; body_paymentId := None;
       body_paymentStatus := None |} in
  order_place Example.cast Example.env Example.alice b Example.store
  = (reply 400 false "Complete delivery address is required"
       (Missing
          {| mf_firstName := false; mf_lastName := false; mf_email := false;
             mf_street := false; mf_city := true; mf_state := false;
             mf_zipcode := false; mf_country := false; mf_phone := true |}),
     Example.store).
Proof.
  cbv zeta.
  destruct (address_validation Example.cast Example.env Example.alice
              {| body_address :=
                   Some
                     {| firstName := Some "Alice"; lastName := Some "Doe";
                        email := Some "alice@example.com";
                        street := Some "123 Main St"; city := Some EmptyString;
                        state := Some "CA"; zipcode := Some "12345";
                        country := Some "USA"; phone := None |};
                 body_paymentId := None; body_paymentStatus := None |}
              Example.store) as (_ & _ & Hfail & _).
  apply Hfail. exists "phone", phone. split.
  - simpl. tauto.
  - intros (a' & v & [= <-] & Hv & _). simpl in Hv. discriminate.
Defined.

(** ** Entries that do not resolve *)

(** A cart whose first item is no longer available and whose second is
    gone from the catalog: the failure names the first, and the missing
    id appears nowhere in it. *)
Lemma unavailable_item_shadows_missing_id :
  let p := order_place Example.cast Example.env Example.alice Example.body
             Example.stale in
  (exists u, users Example.stale !! Example.alice = Some u
             /\ In (Example.itemB, Num 1) (cartData u))
  /\ Example.cast Example.itemB = Some Example.itemB
  /\ foods Example.stale !! Example.itemB = None
  /\ fst p = reply 400 false
               "Food item is no longer available: Greek salad" NoData
  /\ message (fst p) <> Text ("Food item not found: " ++ Example.itemB)
  /\ String.index 0 Example.itemB
       "Food item is no longer available: Greek salad" = None.
Proof.
  cbv zeta. split.
  { eexists. split; [reflexivity|]. simpl. tauto. }
  repeat split. discriminate.
Qed.

(** C2, amended. A cart entry is refused when its id, cast by the
    mapper, resolves to no catalog item or to one that is not
    available, or cannot be cast at all. If the cart has such an entry
    with a quantity above zero, the placement fails and is
    all-or-nothing: the store, and with it the order collection and the
    user's cart, is exactly as before. With a complete address the
    failure is decided by the first refused entry in the order in which
    the cart is enumerated: it names that entry's id when the id
    resolves to no item, and that item's name when the item is not
    available; an id the mapper cannot cast makes the lookup throw, and
    the failure quotes the error. Refused entries further down the cart
    are not named. *)
Theorem invalid_entry_aborts (cast : string -> option string) (env : Env)
    (uid : string) (b : PlaceBody) (s : Store) (u : User) :
  users s !! uid = Some u ->
  let p := order_place cast env uid b s in
  (forall k q,
     In (k, Num q) (cartData u) -> above_zero q ->
     entry_ok cast s (k, q) = false ->
     snd p = s /\ success (fst p) = false /\ code (fst p) <> 201)
  /\ (forall a l1 e l2,
        body_address b = Some a ->
        address_complete (Some a) = true ->
        positive_entries (cartData u) = (l1 ++ e :: l2)%list ->
        forallb (entry_ok cast s) l1 = true ->
        (forall oid,
           cast (fst e) = Some oid -> foods s !! oid = None ->
           p = (reply 400 false ("Food item not found: " ++ fst e) NoData, s))
        /\ (forall oid f,
              cast (fst e) = Some oid -> foods s !! oid = Some f ->
              isAvailable f = false ->
              p = (reply 400 false
                     ("Food item is no longer available: " ++ food_name f)
                     NoData, s))
        /\ (cast (fst e) = None ->
              p = (thrown "Failed to place order: " (CastError (fst e)), s))).
Proof.
  intros Hu. cbv zeta. split.
  - intros k q Hin Hpos Hbad.
    apply (order_place_refused cast env uid b s u (k, q)); [done| |done].
    by apply In_positive_entries.
  - intros a l1 e l2 Ha Hc Hsplit Hl1.
    pose proof (order_place_first_bad cast env uid b s a u l1 e l2
                  Ha Hc Hu Hsplit Hl1) as Hrun.
    split; [|split].
    + intros oid Hcast Hnone. rewrite Hrun.
      * by rewrite Hcast, Hnone.
      * unfold entry_ok, resolve. by rewrite Hcast, Hnone.
    + intros oid f Hcast Hf Hav. rewrite Hrun.
      * by rewrite Hcast, Hf.
      * unfold entry_ok, resolve. by rewrite Hcast, Hf, Hav.
    + intros Hcast. rewrite Hrun.
      * by rewrite Hcast.
      * unfold entry_ok, resolve. by rewrite Hcast.
Qed.

(** The stale catalog: the first refused entry decides the failure. *)
Lemma invalid_entry_aborts_witness :
  order_place Example.cast Example.env Example.alice Example.body
    Example.stale
  = (reply 400 false "Food item is no longer available: Greek salad" NoData,
     Example.stale).
Proof.
  destruct (invalid_entry_aborts Example.cast Example.env Example.alice
              Example.body Example.stale
              (Example.customer
                 [(Example.itemA, Num 2); (Example.itemB, Num 1)]))
    as (_ & Hfirst); [reflexivity|].
  destruct (Hfirst Example.home [] (Example.itemA, 2%float)
              [(Example.itemB, 1%float)]
              eq_refl eq_refl eq_refl eq_refl) as (_ & Hgone & _).
  exact (Hgone Example.itemA (Example.dish "Greek salad" 10.99%float false)
           eq_refl eq_refl eq_refl).
Defined.

(** ** Adding without the catalog *)




(** ** Order query *)












(** ** Decimal numerals and order numbers *)

Lemma append_nil (s : string) : EmptyString ++ s = s.
Proof. reflexivity. Qed.

Lemma append_cons (c : ascii) (s1 s2 : string) :
  String c s1 ++ s2 = String c (s1 ++ s2).
Proof. reflexivity. Qed.

Lemma string_length_append (s1 s2 : string) :
  String.length (s1 ++ s2) = (String.length s1 + String.length s2)%nat.
Proof. induction s1 as [|c s1 IH]; simpl; [done | by rewrite IH]. Qed.

Lemma repeat_char_length n c : String.length (repeat_char n c) = n.
Proof. induction n as [|n IH]; simpl; [done | by rewrite IH]. Qed.

Lemma padStart_length n c s :
  String.length (padStart n c s) = Nat.max n (String.length s).
Proof.
  unfold padStart. rewrite string_length_append, repeat_char_length. lia.
Qed.

Lemma string_of_uint_digits (d : Decimal.uint) :
  digits_only (NilEmpty.string_of_uint d) = true.
Proof. induction d; simpl; auto. Qed.

Lemma string_of_uint_length (d : Decimal.uint) :
  String.length (NilEmpty.string_of_uint d) = Decimal.nb_digits d.
Proof. induction d; simpl; auto. Qed.

Lemma Number_toString_digits (n : N) : digits_only (Number_toString n) = true.
Proof. apply string_of_uint_digits. Qed.

Lemma digits_value_toString (n : N) :
  digits_value (Number_toString n) = Some n.
Proof.
  unfold digits_value, Number_toString.
  by rewrite NilEmpty.usu, DecimalN.Unsigned.of_to.
Qed.

Lemma Number_toString_inj (n m : N) :
  Number_toString n = Number_toString m -> n = m.
Proof.
  intros H. apply (f_equal digits_value) in H.
  rewrite !digits_value_toString in H. congruence.
Qed.

Lemma digits_value_zeros (k : nat) (s : string) :
  digits_value (repeat_char k "0" ++ s) = digits_value s.
Proof.
  induction k as [|k IH]; simpl; [done|].
  rewrite <- IH. unfold digits_value. simpl.
  by destruct (NilEmpty.uint_of_string _).
Qed.

Lemma sequence_segment_value (count : nat) :
  digits_value (sequence_segment count) = Some (N.of_nat count + 1)%N.
Proof.
  unfold sequence_segment, padStart.
  by rewrite digits_value_zeros, digits_value_toString.
Qed.

Lemma sequence_segment_inj (c1 c2 : nat) :
  sequence_segment c1 = sequence_segment c2 -> c1 = c2.
Proof.
  intros H. apply (f_equal digits_value) in H.
  rewrite !sequence_segment_value in H. injection H. lia.
Qed.

(** A dash ends a run of digits in one place only. *)
Lemma digits_dash_split (a a' b b' : string) :
  digits_only a = true -> digits_only a' = true ->
  a ++ "-" ++ b = a' ++ "-" ++ b' -> a = a' /\ b = b'.
Proof.
  revert a'. induction a as [|c a IH]; intros [|c' a'] Ha Ha' H;
    rewrite ?append_cons, ?append_nil in H; simpl in Ha, Ha'.
  - by injection H as ->.
  - injection H as <- _. done.
  - injection H as -> _. done.
  - injection H as -> H.
    apply andb_prop in Ha as [_ Ha]. apply andb_prop in Ha' as [_ Ha'].
    by destruct (IH a' Ha Ha' H) as [-> ->].
Qed.

Lemma order_number_inj (now1 now2 : N) (c1 c2 : nat) :
  order_number now1 c1 = order_number now2 c2 -> now1 = now2 /\ c1 = c2.
Proof.
  unfold order_number. intros H.
  rewrite !append_cons, !append_nil in H. injection H as H.
  apply digits_dash_split in H as [H1 H2];
    try apply Number_toString_digits.
  split; [by apply Number_toString_inj | by apply sequence_segment_inj].
Qed.

(** A numeral of [k] digits denotes a number below [10 ^ k]. *)
Lemma of_lu_bound (d : Decimal.uint) :
  (DecimalPos.Unsigned.of_lu d < 10 ^ N.of_nat (Decimal.nb_digits d))%N.
Proof.
  induction d; simpl Decimal.nb_digits; simpl DecimalPos.Unsigned.of_lu;
    rewrite ?Nat2N.inj_succ, ?N.pow_succ_r'; simpl N.of_nat;
    rewrite ?N.pow_0_r; lia.
Qed.

Lemma Number_toString_bound (n : N) :
  (n < 10 ^ N.of_nat (String.length (Number_toString n)))%N.
Proof.
  unfold Number_toString. rewrite string_of_uint_length.
  rewrite <- (DecimalN.Unsigned.of_to n) at 1.
  unfold N.of_uint. rewrite DecimalPos.Unsigned.of_uint_alt.
  rewrite <- DecimalFacts.nb_digits_rev. apply of_lu_bound.
Qed.

(** The first 9999 sequence segments have four characters. *)
Lemma short_segments :
  forallb (fun c => Nat.eqb (String.length (sequence_segment c)) 4)
    (seq 0 (N.to_nat 9999)) = true.
Proof. vm_compute. reflexivity. Qed.

Lemma sequence_segment_length (count : nat) :
  ((N.of_nat count < 9999)%N ->
   String.length (sequence_segment count) = 4%nat)
  /\ ((9999 <= N.of_nat count)%N ->
      (5 <= String.length (sequence_segment count))%nat
      /\ sequence_segment count = Number_toString (N.of_nat count + 1)).
Proof.
  split.
  - intros Hlt. pose proof short_segments as H.
    rewrite forallb_forall in H. apply Nat.eqb_eq, H, in_seq. lia.
  - intros Hge.
    pose proof (Number_toString_bound (N.of_nat count + 1)) as Hb.
    assert (5 <= String.length (Number_toString (N.of_nat count + 1)))%nat
      as Hlen.
    { destruct (Nat.le_gt_cases 5
                  (String.length (Number_toString (N.of_nat count + 1))))
        as [|Hsmall]; [done|].
      assert (10 ^ N.of_nat (String.length
                               (Number_toString (N.of_nat count + 1)))
              <= 10 ^ 4)%N by (apply N.pow_le_mono_r; lia).
      change (10 ^ 4)%N with 10000%N in *. lia. }
    unfold sequence_segment, padStart.
    replace (4 - String.length (Number_toString (N.of_nat count + 1)))%nat
      with 0%nat by lia.
    by split.
Qed.

(** In a collection numbered by the hook, the next number is free. *)
Lemma numbered_fresh (os : list Order) (now : N) :
  numbered os -> number_taken (order_number now (List.length os)) os = false.
Proof.
  intros Hn. apply not_true_iff_false. rewrite number_taken_spec.
  intros Hin. apply in_map_iff in Hin as (o & Ho & Hin).
  apply In_nth_error in Hin as [i Hi].
  destruct (Hn i o Hi) as [now' Hnum].
  rewrite Hnum in Ho. apply order_number_inj in Ho as [_ ->].
  assert (nth_error os (List.length os) <> None) as Hi' by congruence.
  apply nth_error_Some in Hi'. lia.
Qed.

Lemma numbered_snoc (os : list Order) (o : Order) now :
  numbered os -> orderNumber o = order_number now (List.length os) ->
  numbered (os ++ [o]).
Proof.
  intros Hn Ho i o' Hi.
  destruct (Nat.lt_ge_cases i (List.length os)) as [Hlt|Hge].
  - rewrite nth_error_app1 in Hi by done. by apply Hn.
  - rewrite nth_error_app2 in Hi by done.
    destruct (i - List.length os)%nat as [|j] eqn:E; simpl in Hi.
    + injection Hi as <-. exists now. rewrite Ho. f_equal. lia.
    + by destruct j.
Qed.

(** The first sequence segment and the ten-thousandth differ in
    length. *)
Lemma sequence_segment_not_fixed_width :
  order_number 1700000000000 0 = "ORD-1700000000000-0001"
  /\ String.length (sequence_segment 0) = 4%nat
  /\ order_number 1700000000000 (N.to_nat 9999) = "ORD-1700000000000-10000"
  /\ String.length (sequence_segment (N.to_nat 9999)) = 5%nat
  /\ String.length (sequence_segment 0)
     <> String.length (sequence_segment (N.to_nat 9999)).
Proof. vm_compute. repeat split; discriminate. Qed.

(** C4, amended. An order number is the text ORD, the decimal clock
    reading of the pre-save hook and a sequence segment, joined by
    dashes; the segment is the count of existing orders plus one in
    decimal, padded with zeros on the left to at least four characters:
    exactly four up to the 9999th order, and as long as the number
    itself from the 10000th on. Clock reading and count can be read
    back from the number, so two numbers are equal only when both
    agree. The hook sets the number before the insert, and the insert
    is refused when the unique index already holds that number. Two
    placements that succeed one after the other get the counts n and
    n + 1 and so distinct numbers, also when the clock reads the same
    millisecond; and in a collection numbered this way the number the
    hook generates is never taken. *)
Theorem order_numbering (cast : string -> option string) (env1 env2 : Env)
    (uid1 uid2 : string) (b1 b2 : PlaceBody) (s : Store) :
  let count := List.length (orders s) in
  let p1 := order_place cast env1 uid1 b1 s in
  let p2 := order_place cast env2 uid2 b2 (snd p1) in
  (forall now c,
     let dec := Number_toString (N.of_nat c + 1) in
     order_number now c
       = "ORD-" ++ Number_toString now ++ "-" ++ sequence_segment c
     /\ digits_only (Number_toString now) = true
     /\ digits_value (Number_toString now) = Some now
     /\ sequence_segment c = repeat_char (4 - String.length dec) "0" ++ dec
     /\ digits_value (sequence_segment c) = Some (N.of_nat c + 1)%N
     /\ String.length (sequence_segment c) = Nat.max 4 (String.length dec)
     /\ ((N.of_nat c < 9999)%N -> String.length (sequence_segment c) = 4%nat)
     /\ ((9999 <= N.of_nat c)%N ->
         (5 <= String.length (sequence_segment c))%nat
         /\ sequence_segment c = dec))
  /\ (forall now now' c c',
        order_number now c = order_number now' c' -> now = now' /\ c = c')
  /\ (forall env d,
        let number := pre_save (Date_now env) count d in
        match Order_save env d s with
        | inr (o, s1) =>
            orderNumber o = number
            /\ ~ In number (List.map orderNumber (orders s))
            /\ orders s1 = (orders s ++ [o])%list
        | inl e =>
            (e = DuplicateKey number
             /\ In number (List.map orderNumber (orders s)))
            \/ (e = StorageError /\ insert_ok env = false)
        end)
  /\ (code (fst p1) = 201 -> code (fst p2) = 201 ->
      exists o1 o2,
        orders (snd p2) = (orders s ++ [o1; o2])%list
        /\ orderNumber o1 = order_number (Date_now env1) count
        /\ orderNumber o2 = order_number (Date_now env2) (S count)
        /\ orderNumber o1 <> orderNumber o2)
  /\ (numbered (orders s) ->
      numbered (orders (snd p1))
      /\ forall now, number_taken (order_number now count) (orders s) = false).
Proof.
  cbv zeta. split; [|split; [|split; [|split]]].
  - intros now c. split; [reflexivity|].
    split; [apply Number_toString_digits|].
    split; [apply digits_value_toString|].
    split; [reflexivity|].
    split; [apply sequence_segment_value|].
    split; [apply padStart_length|].
    apply sequence_segment_length.
  - apply order_number_inj.
  - intros env d. unfold Order_save.
    destruct (number_taken _ (orders s)) eqn:Et.
    + left. split; [done|]. by apply number_taken_spec.
    + destruct (insert_ok env) eqn:Ei; [|by right].
      simpl. split; [done|]. split; [|done].
      rewrite <- number_taken_spec. by rewrite Et.
  - intros H1 H2.
    destruct (order_place_201 cast env1 uid1 b1 s H1)
      as (o1 & Ho1 & Hn1 & _).
    destruct (order_place_201 cast env2 uid2 b2 _ H2)
      as (o2 & Ho2 & Hn2 & _).
    exists o1, o2. rewrite Ho2, Ho1, <- app_assoc. split; [done|].
    split; [done|].
    rewrite Ho1, length_app, Nat.add_comm in Hn2. simpl in Hn2.
    split; [done|].
    rewrite Hn1, Hn2. intros Heq. apply order_number_inj in Heq as [_ Heq].
    lia.
  - intros Hn. split; [|intros now; by apply numbered_fresh].
    destruct (order_place_orders cast env1 uid1 b1 s)
      as [->|(a & u & _ & _ & -> & _)]; [done|].
    by apply (numbered_snoc _ _ (Date_now env1)).
Qed.

(** Two placements in the same millisecond. *)
Lemma order_numbering_witness :
  let p1 := order_place Example.cast Example.env Example.alice Example.body
              Example.store in
  let p2 := order_place Example.cast Example.env2 Example.bob Example.body
              (snd p1) in
  Date_now Example.env = Date_now Example.env2
  /\ exists o1 o2,
       orders (snd p2) = [o1; o2]
       /\ orderNumber o1 = "ORD-1700000000000-0001"
       /\ orderNumber o2 = "ORD-1700000000000-0002"
       /\ orderNumber o1 <> orderNumber o2.
Proof.
  cbv zeta. split; [reflexivity|].
  destruct (order_numbering Example.cast Example.env Example.env2
              Example.alice Example.bob Example.body Example.body
              Example.store) as (_ & _ & _ & Hseq & _).
  destruct (Hseq eq_refl eq_refl) as (o1 & o2 & Ho & H1 & H2 & Hne).
  exists o1, o2. repeat split; assumption.
Defined.


(** The first page of two of the worked history: the two newest of the
    three orders, and a second page to come. *)
Example first_page_of_history :
  exists m data,
    order_userorders Example.alice Example.first_page Example.history
    = Some {| code := 200; success := true; message := Text m;
              payload :=
                Page data
                  {| currentPage := 1; totalPages := 2; totalOrders := 3;
                     hasNextPage := true; hasPrevPage := false |} |}
    /\ m = "Found 2 orders"
    /\ List.map fo_createdAt data = [1700000900000%N; 1700000600000%N]
    /\ List.map fo_orderNumber data
       = ["ORD-1700000900000-0004"; "ORD-1700000600000-0003"].
Proof. do 2 eexists. split; [vm_compute; reflexivity|]. by repeat split. Qed.

(** * Further properties *)

(** ** Cart view *)

Section CartViewFacts.
Variable cast : string -> option string.

Lemma view_items_spec (s : Store) (l : list (string * JsValue)) :
  forall acc amount count,
    view_items cast s l acc amount count
    = let lines :=
        viewed cast s
          (flat_map
             (fun e =>
                match gt_zero (snd e) with
                | Some q => [(fst e, q)]
                | None => []
                end) l) in
      ((acc ++ lines)%list, sum_totals lines amount,
       sum_quantities lines count).
Proof.
  induction l as [|[k v] l IH]; intros acc amount count; simpl.
  - by rewrite app_nil_r.
  - destruct (gt_zero v) as [q|]; simpl; [|apply IH].
    unfold Food_findById, resolve. simpl.
    destruct (cast k) as [oid|]; simpl; [|apply IH].
    destruct (foods s !! oid) as [f|]; simpl; [|apply IH].
    rewrite IH. cbv zeta. by rewrite <- app_assoc.
Qed.

Lemma cart_get_found (s : Store) uid u :
  users s !! uid = Some u ->
  cart_get cast uid s
  = let lines := viewed cast s (positive_entries (cartData u)) in
    let amount := sum_totals lines 0%float in
    {| cg_code := 200; cg_success := true; cg_message := None;
       cg_data :=
         Some (lines,
               {| itemCount := List.length lines;
                  totalItems := sum_quantities lines 0;
                  cart_totalAmount := amount;
                  cart_deliveryFee :=
                    if PrimFloat.ltb 0 amount then 2%float else 0%float;
                  finalAmount :=
                    if PrimFloat.ltb 0 amount then (amount + 2)%float
                    else 0%float |}) |}.
Proof.
  intros Hu. unfold cart_get, User_findById. rewrite Hu.
  rewrite view_items_spec. reflexivity.
Qed.

Lemma In_viewed (s : Store) (l : list (string * float)) line :
  In line (viewed cast s l)
  <-> exists k q oid f,
        In (k, q) l /\ cast k = Some oid /\ foods s !! oid = Some f
        /\ line = cart_line oid q f.
Proof.
  unfold viewed. rewrite in_flat_map. split.
  - intros ([k q] & Hin & Hline). unfold resolve in Hline. simpl in Hline.
    destruct (cast k) as [oid|] eqn:Hc; [|done].
    destruct (foods s !! oid) as [f|] eqn:Hf; [|done].
    destruct Hline as [<-|[]]. by exists k, q, oid, f.
  - intros (k & q & oid & f & Hin & Hc & Hf & ->). exists (k, q).
    split; [done|]. unfold resolve. simpl. rewrite Hc, Hf. by left.
Qed.

(** When every entry is one the order builder accepts, the cart view
    and the order builder go over the same items. *)
Lemma viewed_snapshots (s : Store) (l : list (string * float)) :
  forallb (entry_ok cast s) l = true ->
  List.map (fun c => (cl_price c, cl_quantity c)) (viewed cast s l)
  = List.map (fun i => (item_price i, item_quantity i)) (snapshots cast s l).
Proof.
  induction l as [|[k q] l IH]; simpl; [done|].
  intros H. apply andb_prop in H as [Hk Hl].
  apply entry_ok_resolve in Hk as (oid & f & _ & _ & _ & Hr).
  simpl in Hr. rewrite Hr. simpl. by rewrite IH.
Qed.

Lemma sum_totals_lines (lines : list CartLine) (its : list OrderItem) :
  Forall (fun c => cl_total c = line_total (cl_price c) (cl_quantity c))
    lines ->
  List.map (fun c => (cl_price c, cl_quantity c)) lines
  = List.map (fun i => (item_price i, item_quantity i)) its ->
  forall from,
    sum_totals lines from
    = fold_left
        (fun a i => (a + line_total (item_price i) (item_quantity i))%float)
        its from.
Proof.
  intros Hall. revert its.
  induction Hall as [|c lines Hc Hall IH]; intros [|i its] Hmap from;
    try discriminate; simpl; [done|].
  injection Hmap as Hp Hq Hrest. rewrite Hc, Hp, Hq. by apply IH.
Qed.

Lemma viewed_totals (s : Store) (l : list (string * float)) :
  Forall (fun c => cl_total c = line_total (cl_price c) (cl_quantity c))
    (viewed cast s l).
Proof.
  rewrite List.Forall_forall. intros c Hc.
  apply In_viewed in Hc as (k & q & oid & f & _ & _ & _ & ->). reflexivity.
Qed.

End CartViewFacts.

(** X1. For a user the store knows, the cart view always answers with a
    success, whatever the cart holds: it lists a line exactly for the
    entries of the cart whose value is a number above zero and whose
    key the mapper casts to the id of a catalog document, available or
    not, and the line carries the id of that document; the other
    entries are passed over; and the summary counts the listed lines,
    adds up their quantities and adds up their totals. *)
Theorem cart_view_lists_resolved (cast : string -> option string)
    (uid : string) (s : Store) (u : User) :
  users s !! uid = Some u ->
  exists lines summary,
    cart_get cast uid s
    = {| cg_code := 200; cg_success := true; cg_message := None;
         cg_data := Some (lines, summary) |}
    /\ (forall line,
          In line lines
          <-> exists k q oid f,
                In (k, Num q) (cartData u) /\ above_zero q
                /\ cast k = Some oid /\ foods s !! oid = Some f
                /\ line
                   = {| cl_id := oid; cl_name := food_name f;
                        cl_description := food_description f;
                        cl_price := food_price f;
                        cl_image := food_image f;
                        cl_category := food_category f;
                        cl_quantity := q;
                        cl_total := (food_price f * q)%float;
                        cl_isAvailable := isAvailable f |})
    /\ itemCount summary = List.length lines
    /\ totalItems summary = sum_quantities lines 0
    /\ cart_totalAmount summary = sum_totals lines 0%float.
Proof.
  intros Hu. rewrite (cart_get_found cast s uid u Hu). cbv zeta.
  do 2 eexists. split; [reflexivity|]. split; [|by repeat split].
  intros line. rewrite In_viewed. split.
  - intros (k & q & oid & f & Hin & Hc & Hf & ->).
    apply In_positive_entries in Hin as [Hin Hq]. by exists k, q, oid, f.
  - intros (k & q & oid & f & Hin & Hq & Hc & Hf & ->). exists k, q, oid, f.
    split; [|done]. by apply In_positive_entries.
Qed.

(** A cart with an entry that is gone from the catalog and one that is
    no longer available: the view lists the second and answers. *)
Lemma cart_view_lists_resolved_witness :
  exists summary,
    cg_data (cart_get Example.cast Example.alice Example.stale)
    = Some ([cart_line Example.itemA 2
               (Example.dish "Greek salad" 10.99%float false)], summary)
    /\ itemCount summary = 1%nat
    /\ totalItems summary = 2%float.
Proof.
  destruct (cart_view_lists_resolved Example.cast Example.alice
              Example.stale
              (Example.customer
                 [(Example.itemA, Num 2); (Example.itemB, Num 1)])
              eq_refl) as (lines & summary & Hget & _ & Hcount & Hitems & _).
  exists summary.
  assert (lines = [cart_line Example.itemA 2
                     (Example.dish "Greek salad" 10.99%float false)])
    as Hlines.
  { apply (f_equal cg_data) in Hget. vm_compute in Hget.
    by injection Hget as <- _. }
  rewrite Hget, Hcount, Hitems, Hlines. by repeat split.
Defined.

(** X2. What the cart shows is what the order charges, but for the fee
    of a cart worth nothing. When a placement succeeds, the cart view
    taken just before it has one line per line of the new order, with
    the same prices and quantities; its total amount is the subtotal of
    the order, and the order's total is that amount plus 2. The final
    amount of the view is the order's total when the amount is above
    zero; when it is not, the view shows a final amount of 0 and the
    order still charges the fee. *)
Theorem cart_view_matches_order (cast : string -> option string) (env : Env)
    (uid : string) (b : PlaceBody) (s : Store) :
  code (fst (order_place cast env uid b s)) = 201 ->
  exists lines summary o,
    cg_data (cart_get cast uid s) = Some (lines, summary)
    /\ orders (snd (order_place cast env uid b s))
       = (orders s ++ [o])%list
    /\ List.map (fun c => (cl_price c, cl_quantity c)) lines
       = List.map (fun i => (item_price i, item_quantity i)) (items o)
    /\ itemCount summary = List.length (items o)
    /\ amount o = cart_totalAmount summary
    /\ totalAmount o = (cart_totalAmount summary + 2)%float
    /\ finalAmount summary
       = if PrimFloat.ltb 0 (cart_totalAmount summary)
         then totalAmount o else 0%float.
Proof.
  intros Hcode.
  destruct (order_place_cases cast env uid b s)
    as [(_ & H & _)|(a & u & _ & _ & Hu & _ & Hok & _ & _ & Hend)];
    [done|].
  rewrite (cart_get_found cast s uid u Hu). cbv zeta.
  do 2 eexists. exists (built_order cast env uid b a s u).
  split; [reflexivity|].
  split.
  { destruct Hend as [(_ & _ & ->)|(_ & H & _)];
      [by rewrite update_orders | rewrite Hcode in H; done]. }
  pose proof (viewed_snapshots cast s _ Hok) as Hmap.
  assert (sum_totals (viewed cast s (positive_entries (cartData u)))
            0%float
          = sum_lines (snapshots cast s (positive_entries (cartData u))))
    as Hsum.
  { apply sum_totals_lines; [apply viewed_totals | done]. }
  split; [done|]. simpl.
  split.
  { apply (f_equal (@List.length _)) in Hmap.
    by rewrite !length_map in Hmap. }
  rewrite Hsum. by repeat split.
Qed.

(** The example cart: the view shows 30.48 and a final amount of
    32.480000000000004, the total of the order. *)
Lemma cart_view_matches_order_witness :
  exists lines summary o,
    cg_data (cart_get Example.cast Example.alice Example.store)
    = Some (lines, summary)
    /\ orders (snd (order_place Example.cast Example.env Example.alice
                      Example.body Example.store)) = [o]
    /\ amount o = cart_totalAmount summary
    /\ finalAmount summary = totalAmount o.
Proof.
  destruct (cart_view_matches_order Example.cast Example.env Example.alice
              Example.body Example.store eq_refl)
    as (lines & summary & o & Hget & Ho & _ & _ & Ha & _ & Hf).
  exists lines, summary, o. repeat (split; [assumption|]).
  rewrite Hf. vm_compute in Hget. injection Hget as _ <-. reflexivity.
Defined.

(** ** Cart calls that cancel out *)

Section CartRoundTrip.
Import JsObject JsObjectFacts.

Lemma put_present (o : t) k v : own o k = Some v -> put o k v = o.
Proof.
  induction o as [|[k' v'] o IH]; simpl; [done|].
  destruct (String.eqb_spec k' k) as [->|Hne].
  - by intros [= ->].
  - intros H. by rewrite IH.
Qed.

Lemma put_put (o : t) k v w : put (put o k v) k w = put o k w.
Proof.
  induction o as [|[k' v'] o IH]; simpl.
  - by rewrite String.eqb_refl.
  - destruct (String.eqb k' k) eqn:E; simpl.
    + by rewrite String.eqb_refl.
    + by rewrite E, IH.
Qed.

Lemma delete_absent (o : t) k : own o k = None -> delete o k = o.
Proof.
  induction o as [|[k' v'] o IH]; simpl; [done|].
  destruct (String.eqb k' k); [done|]. intros H. by rewrite IH.
Qed.

Lemma remove_add_update (c : t) k q :
  all_positive c -> plain k -> above_zero q -> finite q ->
  (forall q0, own c k = Some (Num q0) -> (q0 + q - q)%float = q0) ->
  remove_update (add_update c k q) k q = c.
Proof.
  intros Hc Hk Hq Hf Hexact. unfold add_update, remove_update.
  rewrite !(get_plain _ _ Hk).
  destruct (stored_cases c k Hc) as [[E _]|(q0 & E & _ & Hq0)]; rewrite E.
  - rewrite !(set_plain _ _ _ Hk), own_put_eq.
    rewrite (above_zero_truthy q Hq). cbv zeta.
    rewrite (set_plain _ _ _ Hk), (get_plain _ _ Hk), own_put_eq. simpl.
    rewrite (sub_diag_le q Hq Hf).
    rewrite !delete_put_eq. by apply delete_absent.
  - rewrite (above_zero_truthy q0 Hq0).
    rewrite !(set_plain _ _ _ Hk), own_put_eq. simpl js_add.
    rewrite (above_zero_truthy _ (add_above_zero q0 q Hq0 Hq)). cbv zeta.
    rewrite (set_plain _ _ _ Hk), (get_plain _ _ Hk), own_put_eq.
    unfold js_sub. cbn [ToNumber le_zero].
    rewrite (Hexact q0 E), (above_zero_not_le q0 Hq0).
    rewrite put_put. by apply put_present.
Qed.

Lemma remove_update_absent (c : t) k q :
  get c k = None -> remove_update c k q = c.
Proof. intros H. unfold remove_update. by rewrite H. Qed.

Lemma with_cart_same (u : User) : with_cart u (cartData u) = u.
Proof. by destruct u. Qed.

Lemma update_same (s : Store) uid u :
  users s !! uid = Some u -> User_findByIdAndUpdate s uid (cartData u) = s.
Proof.
  intros Hu. unfold User_findByIdAndUpdate, with_users. rewrite Hu.
  rewrite with_cart_same, insert_id by done. by destruct s.
Qed.

Lemma update_update (s : Store) uid c1 c2 :
  User_findByIdAndUpdate (User_findByIdAndUpdate s uid c1) uid c2
  = User_findByIdAndUpdate s uid c2.
Proof.
  unfold User_findByIdAndUpdate at 2 3.
  destruct (users s !! uid) as [u|] eqn:Hu.
  - unfold User_findByIdAndUpdate. simpl. rewrite lookup_insert_eq.
    unfold with_users. simpl. by rewrite insert_insert_eq.
  - unfold User_findByIdAndUpdate. by rewrite Hu.
Qed.

End CartRoundTrip.

(** X3. AddItem followed by RemoveItem of the same item and the same
    quantity, both writes accepted, puts the store back exactly as it
    was, in a cart of numbers above zero, for an item id that is a
    plain property name and a finite quantity above zero, provided the
    sum is exact: taking the quantity away from the sum the addition
    stores gives the old quantity. The entry then comes back to its old
    quantity in its old place, or is gone again if the cart had none;
    and the removal replies with the quantity the cart held before the
    two calls. *)
Theorem add_then_remove_restores (uid : string) (b : CartBody) (s : Store)
    (u : User) :
  users s !! uid = Some u ->
  all_positive (cartData u) ->
  plain (body_itemId b) ->
  above_zero (quantity_of b) ->
  finite (quantity_of b) ->
  (forall q0,
     JsObject.own (cartData u) (body_itemId b) = Some (Num q0) ->
     (q0 + quantity_of b - quantity_of b)%float = q0) ->
  let p := cart_remove true uid b (snd (cart_add true uid b s)) in
  snd p = s
  /\ fst p = reply 200 true "Item removed from cart"
               (CartQuantity (body_itemId b)
                  (Some (Num (stored (cartData u) (body_itemId b))))).
Proof.
  intros Hu Hpos Hk Hq Hf Hexact. cbv zeta.
  assert (snd (cart_add true uid b s)
          = User_findByIdAndUpdate s uid
              (add_update (cartData u) (body_itemId b) (quantity_of b)))
    as -> by (unfold cart_add, User_findById; by rewrite Hu).
  unfold cart_remove, User_findById.
  rewrite (update_lookup_eq s uid u _ Hu). simpl.
  rewrite remove_add_update by done. split.
  - rewrite update_update. by apply update_same.
  - do 3 f_equal. rewrite (JsObjectFacts.get_plain _ _ Hk).
    destruct (stored_cases (cartData u) (body_itemId b) Hpos)
      as [[E ->]|(q0 & E & -> & Hq0)]; rewrite E; [done|].
    cbn [JsObject.or_zero]. by rewrite (above_zero_truthy q0 Hq0).
Qed.

(** One more of the first item of the example cart, and back. *)
Lemma add_then_remove_restores_witness :
  let b := {| body_itemId := Example.itemA; body_quantity := None |} in
  snd (cart_remove true Example.alice b
         (snd (cart_add true Example.alice b Example.store)))
  = Example.store.
Proof.
  cbv zeta.
  refine (proj1 (add_then_remove_restores Example.alice
                   {| body_itemId := Example.itemA; body_quantity := None |}
                   Example.store
                   (Example.customer
                      [(Example.itemA, Num 2); (Example.itemB, Num 1)])
                   eq_refl _ eq_refl eq_refl eq_refl _)).
  - repeat (constructor; [by eexists|]). constructor.
  - intros q0 [= <-]. reflexivity.
Defined.

(** X4. RemoveItem for an item id under which the cart gives nothing,
    neither a property of its own nor one it inherits, is not an error:
    with the write accepted it replies with a success and the quantity
    0, and the store is exactly as before, whatever quantity was asked
    for. *)
Theorem remove_absent_item (uid : string) (b : CartBody) (s : Store)
    (u : User) :
  users s !! uid = Some u ->
  JsObject.get (cartData u) (body_itemId b) = None ->
  cart_remove true uid b s
  = (reply 200 true "Item removed from cart"
       (CartQuantity (body_itemId b) (Some (Num 0))), s).
Proof.
  intros Hu Hnone. unfold cart_remove, User_findById. rewrite Hu.
  rewrite remove_update_absent by done. rewrite Hnone. simpl.
  by rewrite update_same.
Qed.

(** The first user of the worked store takes out an item the cart
    does not hold. *)
Lemma remove_absent_item_witness :
  cart_remove true Example.alice
    {| body_itemId := "665f1c2ab7e4d90a1c3e5fff";
       body_quantity := Some 4%float |}
    Example.store
  = (reply 200 true "Item removed from cart"
       (CartQuantity "665f1c2ab7e4d90a1c3e5fff" (Some (Num 0))),
     Example.store).
Proof.
  exact (remove_absent_item Example.alice
           {| body_itemId := "665f1c2ab7e4d90a1c3e5fff";
              body_quantity := Some 4%float |}
           Example.store
           (Example.customer
              [(Example.itemA, Num 2); (Example.itemB, Num 1)])
           eq_refl eq_refl).
Defined.

(** ** Clearing the cart *)

(** X5. ClearCart, the write accepted, leaves the user with an empty
    cart and everything else as it was; clearing again changes nothing;
    the cart view that follows is empty, with no delivery fee and a
    final amount of 0; and an order placement that follows, the address
    complete, is refused because the cart is empty. The handler does not
    look the user up: for a user the store does not know it still
    reports a success, and changes nothing. *)
Theorem clear_cart_empties (cast : string -> option string) (uid : string)
    (s : Store) :
  let p := cart_clear true uid s in
  fst p = reply 200 true "Cart cleared successfully" NoData
  /\ orders (snd p) = orders s
  /\ foods (snd p) = foods s
  /\ cart_clear true uid (snd p) = p
  /\ (users s !! uid = None -> snd p = s)
  /\ (forall u,
        users s !! uid = Some u ->
        users (snd p) !! uid = Some (with_cart u [])
        /\ (forall uid', uid' <> uid ->
              users (snd p) !! uid' = users s !! uid')
        /\ cg_data (cart_get cast uid (snd p))
           = Some ([], empty_summary)
        /\ forall env b,
             address_complete (body_address b) = true ->
             order_place cast env uid b (snd p)
             = (reply 400 false "Cart is empty" NoData, snd p)).
Proof.
  cbv zeta. unfold cart_clear. simpl.
  split; [done|]. split; [apply update_orders|].
  split; [apply update_foods|].
  split; [by rewrite update_update|].
  split.
  { intros Hu. unfold User_findByIdAndUpdate. by rewrite Hu. }
  intros u Hu.
  pose proof (update_lookup_eq s uid u [] Hu) as Hu1.
  split; [done|]. split; [intros uid' Hne; by apply update_lookup_ne|].
  split.
  - by rewrite (cart_get_found cast _ uid _ Hu1).
  - intros env b Hc. unfold order_place, User_findById.
    destruct (body_address b) as [a|]; [|done]. by rewrite Hc, Hu1.
Qed.

(** The example cart cleared. *)
Lemma clear_cart_empties_witness :
  let s1 := snd (cart_clear true Example.alice Example.store) in
  users s1 !! Example.alice = Some (Example.customer [])
  /\ order_place Example.cast Example.env Example.alice Example.body s1
     = (reply 400 false "Cart is empty" NoData, s1).
Proof.
  cbv zeta.
  destruct (clear_cart_empties Example.cast Example.alice Example.store)
    as (_ & _ & _ & _ & _ & Hknown).
  destruct (Hknown
              (Example.customer
                 [(Example.itemA, Num 2); (Example.itemB, Num 1)])
              eq_refl) as (Hu & _ & _ & Hplace).
  split; [exact Hu|]. exact (Hplace Example.env Example.body eq_refl).
Defined.

(** ** What a placed order holds *)

Section Snapshots.
Variable cast : string -> option string.

Lemma snapshots_Forall2 (s : Store) (l : list (string * float)) :
  forallb (entry_ok cast s) l = true ->
  Forall2 (snapshot_of cast s) l (snapshots cast s l).
Proof.
  induction l as [|[k q] l IH]; simpl; [constructor|].
  intros H. apply andb_prop in H as [Hk Hl].
  apply entry_ok_resolve in Hk as (oid & f & Hc & Hf & Hav & Hr).
  simpl in Hc, Hr. rewrite Hr. simpl.
  constructor; [|by apply IH].
  split; [done|]. split; [done|]. exists f. by repeat split.
Qed.

End Snapshots.

(** X6. The order a successful placement persists has one line for each
    entry of the cart with a quantity above zero, in the order in which
    the cart is enumerated: the line carries the document id the
    entry's key casts to, the entry's quantity, and the name, price and
    image the catalog has under that id at that moment, the item being
    available. The order is the user's, with the address of the
    request, and the reply reports the id, number, total, status and
    lines of that very order. *)
Theorem placed_order_snapshots (cast : string -> option string) (env : Env)
    (uid : string) (b : PlaceBody) (s : Store) (u : User) :
  users s !! uid = Some u ->
  code (fst (order_place cast env uid b s)) = 201 ->
  exists o a,
    body_address b = Some a
    /\ orders (snd (order_place cast env uid b s))
       = (orders s ++ [o])%list
    /\ Forall2 (snapshot_of cast s) (positive_entries (cartData u)) (items o)
    /\ userId o = uid
    /\ address o = a
    /\ order_id o = ObjectId env
    /\ createdAt o = timestamp env
    /\ fst (order_place cast env uid b s) = placed_reply a o.
Proof.
  intros Hu Hcode.
  destruct (order_place_cases cast env uid b s)
    as [(_ & H & _)|(a & u' & Ha & _ & Hu' & _ & Hok & _ & _ & Hend)];
    [done|].
  rewrite Hu in Hu'. injection Hu' as <-.
  exists (built_order cast env uid b a s u), a.
  destruct Hend as [(_ & Hr & Hs)|(_ & H & _)]; [|rewrite Hcode in H; done].
  split; [done|]. split; [by rewrite Hs, update_orders|].
  split; [by apply (snapshots_Forall2 cast)|].
  by repeat split.
Qed.

(** The example cart: two lines, at the prices of the catalog. *)
Lemma placed_order_snapshots_witness :
  exists o,
    orders (snd (order_place Example.cast Example.env Example.alice
                   Example.body Example.store)) = [o]
    /\ Forall2 (snapshot_of Example.cast Example.store)
         [(Example.itemA, 2%float); (Example.itemB, 1%float)] (items o).
Proof.
  destruct (placed_order_snapshots Example.cast Example.env Example.alice
              Example.body Example.store
              (Example.customer
                 [(Example.itemA, Num 2); (Example.itemB, Num 1)])
              eq_refl eq_refl) as (o & a & _ & Ho & Hlines & _).
  exists o. split; [exact Ho | exact Hlines].
Defined.

(** A cart that names the first item of the catalog in upper case:
    the mapper casts the key to the id of the item, the view lists the
    item and the placement goes through, both under the id of the
    document. *)
Example other_spelling_is_placed :
  let s := Example.shop [("665F1C2AB7E4D90A1C3E5F01", Num 2)] in
  let p := order_place Example.cast Example.env Example.alice Example.body
             s in
  foods s !! "665F1C2AB7E4D90A1C3E5F01" = None
  /\ code (fst p) = 201
  /\ (exists o,
        orders (snd p) = [o]
        /\ List.map (fun i => (foodId i, item_quantity i)) (items o)
           = [(Example.itemA, 2%float)])
  /\ exists lines summary,
       cg_data (cart_get Example.cast Example.alice s)
       = Some (lines, summary)
       /\ List.map cl_id lines = [Example.itemA].
Proof.
  cbv zeta. split; [reflexivity|]. split; [reflexivity|]. split.
  - eexists. split; reflexivity.
  - do 2 eexists. split; reflexivity.
Qed.

(** ** Listings and the catalog *)

Lemma Order_find_with_foods (s : Store) fs uid :
  Order_find (with_foods s fs) uid = Order_find s uid.
Proof. reflexivity. Qed.

Lemma stored_order_format (s : Store) fs (o : Order) :
  stored_order (format_order (with_foods s fs) o)
  = stored_order (format_order s o).
Proof.
  unfold stored_order, format_order. simpl. by rewrite !map_map.
Qed.

(** X7. Prices are snapshots. Whatever the catalog is replaced by, a
    listing returns the same orders on the same page with the same
    pagination, and for each of them the same number, lines with the
    same names, prices, quantities and line totals, the same subtotal,
    fee, total, address and statuses. Only the availability flag of a
    line, and its populated id, follow the current catalog: the flag is
    set exactly when the item is still in the catalog and available. *)
Theorem listing_ignores_catalog_prices (uid : string) (b : PageBody)
    (s : Store) (fs : gmap string Food) :
  List.map stored_order (listed (order_userorders uid b (with_foods s fs)))
  = List.map stored_order (listed (order_userorders uid b s))
  /\ pagination_of (order_userorders uid b (with_foods s fs))
     = pagination_of (order_userorders uid b s)
  /\ forall o i,
       In o (listed (order_userorders uid b (with_foods s fs))) ->
       In i (fo_items o) ->
       (fi_isAvailable i = true
        <-> exists k f, fi_id i = Some k /\ fs !! k = Some f
                        /\ isAvailable f = true).
Proof.
  unfold order_userorders.
  destruct (Z.leb 1 (page_of b) && Z.leb 1 (limit_of b)); [|by repeat split].
  simpl. split; [|split; [done|]].
  - unfold orders_page. rewrite Order_find_with_foods, !map_map.
    apply map_ext. intros o. apply stored_order_format.
  - intros o i Ho Hi. apply in_map_iff in Ho as (o0 & <- & _).
    simpl in Hi. apply in_map_iff in Hi as (i0 & <- & _).
    unfold format_item. simpl.
    destruct (fs !! foodId i0) as [f|] eqn:Ef.
    + split.
      * intros Hav. by exists (foodId i0), f.
      * intros (k & f' & [= <-] & Hf & Hav). rewrite Ef in Hf.
        by injection Hf as ->.
    + split; [done|]. by intros (k & f' & H & _).
Qed.

(** The worked history listed against an emptied catalog: the same
    orders, none of their items available any more. *)
Lemma listing_ignores_catalog_prices_witness :
  List.map stored_order
    (listed (order_userorders Example.alice Example.first_page
               (with_foods Example.history ∅)))
  = List.map stored_order
      (listed (order_userorders Example.alice Example.first_page
                 Example.history))
  /\ forall o i,
       In o (listed (order_userorders Example.alice Example.first_page
                       (with_foods Example.history ∅))) ->
       In i (fo_items o) -> fi_isAvailable i <> true.
Proof.
  destruct (listing_ignores_catalog_prices Example.alice Example.first_page
              Example.history ∅) as (Hsame & _ & Hflag).
  split; [exact Hsame|].
  intros o i Ho Hi Hav. apply (Hflag o i Ho Hi) in Hav.
  clear Ho Hi Hsame Hflag.
  destruct Hav as (k & f & _ & Hf & _). rewrite lookup_empty in Hf.
  discriminate Hf.
Defined.

(** ** Pages *)











(** ** Accounts *)

Lemma User_findOne_Some (s : Store) e id u :
  User_findOne s e = Some (id, u) ->
  users s !! id = Some u /\ user_email u = e.
Proof.
  intros H. apply find_some in H as [Hin He]. simpl in He.
  apply String.eqb_eq in He. split; [|done].
  apply elem_of_map_to_list. by apply list_elem_of_In.
Qed.

Lemma User_findOne_None (s : Store) e :
  User_findOne s e = None <->
  forall id u, users s !! id = Some u -> user_email u <> e.
Proof.
  split.
  - intros H id u Hu He.
    assert (In (id, u) (map_to_list (users s))) as Hin
      by (apply list_elem_of_In; by apply elem_of_map_to_list).
    apply (find_none _ _ H) in Hin. simpl in Hin.
    by apply String.eqb_neq in Hin.
  - intros H. destruct (User_findOne s e) as [[id u]|] eqn:E; [|done].
    apply User_findOne_Some in E as [Hu He]. by destruct (H id u Hu).
Qed.

(** ** What one call can do to the store *)

Section RunFacts.
Variable cast : string -> option string.
Variable jwt_sign : N -> string -> string.
Variable bcrypt_hash : string -> string -> string.

Local Abbreviation step1 := (step cast jwt_sign bcrypt_hash).
Local Abbreviation runs := (run cast jwt_sign bcrypt_hash).

(** The users after a call: as before, or the caller's cart replaced,
    or one user added, with an empty cart and an email nobody has. *)
Lemma step_users (s : Store) uid (c : Call) :
  users (step1 s (uid, c)) = users s
  \/ (exists u cart,
        users s !! uid = Some u
        /\ users (step1 s (uid, c)) = <[uid := with_cart u cart]> (users s)
        /\ (all_positive (cartData u) -> cart_in_range c ->
            all_positive cart))
  \/ (exists id u,
        users s !! id = None
        /\ users (step1 s (uid, c)) = <[id := u]> (users s)
        /\ cartData u = []
        /\ forall j v, users s !! j = Some v ->
                       user_email v <> user_email u).
Proof.
  destruct c as [up b|up b|up|env b|env b|up ids]; unfold step;
    cbn [fst snd].
  - unfold cart_add, User_findById.
    destruct (users s !! uid) as [u|] eqn:Hu; [|by left].
    destruct up; [|by left]. right. left. exists u. eexists.
    split; [done|]. simpl. unfold User_findByIdAndUpdate. rewrite Hu.
    split; [done|]. intros Hpos (Hk & Hq & _). by apply add_update_positive.
  - unfold cart_remove, User_findById.
    destruct (users s !! uid) as [u|] eqn:Hu; [|by left].
    destruct up; [|by left]. right. left. exists u. eexists.
    split; [done|]. simpl. unfold User_findByIdAndUpdate. rewrite Hu.
    split; [done|]. intros Hpos (Hk & Hq & Hf).
    by apply remove_update_positive.
  - unfold cart_clear. destruct up; [|by left]. simpl.
    unfold User_findByIdAndUpdate.
    destruct (users s !! uid) as [u|] eqn:Hu; [|by left].
    right. left. exists u, []. split; [done|]. split; [done|].
    intros _ _. constructor.
  - destruct (order_place_cases cast env uid b s)
      as [(-> & _)|(a & u & _ & _ & Hu & _ & _ & _ & _ & Hend)];
      [by left|].
    destruct Hend as [(_ & _ & ->)|(_ & _ & ->)]; [|by left].
    right. left. exists u, []. split; [done|].
    unfold User_findByIdAndUpdate. simpl. rewrite Hu.
    split; [done|]. intros _ _. constructor.
  - unfold user_register.
    destruct (present (acc_name b) && present (acc_email b)
              && present (acc_password b)); [|by left].
    destruct (User_findOne s (string_of (acc_email b))) as [d|] eqn:E;
      [by left|].
    destruct (users s !! signup_id env) eqn:Hid; [by left|].
    destruct (signup_ok env); [|by left].
    right. right. eexists. eexists. split; [exact Hid|].
    split; [reflexivity|]. split; [reflexivity|]. simpl.
    by apply User_findOne_None.
  - left. unfold food_list. destruct up; [|done].
    destruct (Nat.eqb _ 0); [|done].
    unfold Food_insertMany.
    by destruct (true && _ && _ && _).
Qed.

(** The orders after a call: as before, or one more, the caller's,
    numbered from its position and with consistent totals. *)
Lemma step_orders (s : Store) uid (c : Call) :
  orders (step1 s (uid, c)) = orders s
  \/ exists o,
       orders (step1 s (uid, c)) = (orders s ++ [o])%list
       /\ userId o = uid
       /\ is_Some (users s !! uid)
       /\ totals_consistent o
       /\ (exists env b, c = OrderPlace env b)
       /\ exists now,
            orderNumber o = order_number now (List.length (orders s)).
Proof.
  destruct c as [up b|up b|up|env b|env b|up ids]; unfold step;
    cbn [fst snd].
  - left. unfold cart_add. destruct (User_findById s uid); [|done].
    destruct up; [apply update_orders | done].
  - left. unfold cart_remove. destruct (User_findById s uid); [|done].
    destruct up; [apply update_orders | done].
  - left. unfold cart_clear. destruct up; [apply update_orders | done].
  - destruct (order_place_cases cast env uid b s)
      as [(-> & _)|(a & u & _ & _ & Hu & _ & _ & _ & _ & Hend)];
      [by left|].
    right. exists (built_order cast env uid b a s u).
    split.
    { destruct Hend as [(_ & _ & ->)|(_ & _ & ->)];
        [apply update_orders | done]. }
    split; [done|]. split; [by rewrite Hu|].
    split; [apply built_order_consistent|].
    split; [by exists env, b|]. by exists (Date_now env).
  - left. unfold user_register.
    destruct (_ && _ && _); [|done].
    destruct (User_findOne s _); [done|].
    destruct (users s !! signup_id env); [done|].
    by destruct (signup_ok env).
  - left. unfold food_list. destruct up; [|done].
    destruct (Nat.eqb _ 0); [|done].
    unfold Food_insertMany.
    by destruct (true && _ && _ && _).
Qed.

(** The catalog after a call: as before, unless it was empty. *)
Lemma step_foods (s : Store) uid (c : Call) :
  foods (step1 s (uid, c)) = foods s \/ foods s = ∅.
Proof.
  destruct c as [up b|up b|up|env b|env b|up ids]; unfold step;
    cbn [fst snd].
  - left. unfold cart_add. destruct (User_findById s uid); [|done].
    destruct up; [apply update_foods | done].
  - left. unfold cart_remove. destruct (User_findById s uid); [|done].
    destruct up; [apply update_foods | done].
  - left. unfold cart_clear. destruct up; [apply update_foods | done].
  - left.
    destruct (order_place_cases cast env uid b s)
      as [(-> & _)|(a & u & _ & _ & Hu & _ & _ & _ & _ & Hend)]; [done|].
    destruct Hend as [(_ & _ & ->)|(_ & _ & ->)];
      [by rewrite update_foods | done].
  - left. unfold user_register.
    destruct (_ && _ && _); [|done].
    destruct (User_findOne s _); [done|].
    destruct (users s !! signup_id env); [done|].
    by destruct (signup_ok env).
  - unfold food_list. destruct up; [|by left].
    destruct (Nat.eqb_spec (List.length (Food_find s)) 0) as [Hz|];
      [|by left].
    right. apply length_zero_iff_nil in Hz.
    by apply map_to_list_empty_iff.
Qed.

End RunFacts.

(** ** What every run keeps *)

Lemma numbered_NoDup (os : list Order) :
  numbered os -> List.NoDup (List.map orderNumber os).
Proof.
  intros Hn. apply NoDup_nth_error. intros i j Hi Heq.
  rewrite length_map in Hi. rewrite !nth_error_map in Heq.
  destruct (nth_error os i) as [o|] eqn:Ei.
  2:{ apply nth_error_None in Ei. lia. }
  destruct (nth_error os j) as [o'|] eqn:Ej; [|done].
  simpl in Heq. injection Heq as Heq.
  destruct (Hn i o Ei) as [now Ho]. destruct (Hn j o' Ej) as [now' Ho'].
  rewrite Ho, Ho' in Heq. by apply order_number_inj in Heq as [_ ?].
Qed.

Section RunInvariants.
Variable cast : string -> option string.
Variable jwt_sign : N -> string -> string.
Variable bcrypt_hash : string -> string -> string.

Local Abbreviation step1 := (step cast jwt_sign bcrypt_hash).
Local Abbreviation runs := (run cast jwt_sign bcrypt_hash).

Lemma step_user_kept (s : Store) uid (c : Call) id u :
  users s !! id = Some u ->
  exists u',
    users (step1 s (uid, c)) !! id = Some u'
    /\ user_name u' = user_name u
    /\ user_email u' = user_email u
    /\ user_password u' = user_password u.
Proof.
  intros Hu.
  destruct (step_users cast jwt_sign bcrypt_hash s uid c)
    as [->|[(v & cart & Hv & -> & _)|(j & v & Hj & -> & _)]].
  - by exists u.
  - destruct (decide (uid = id)) as [->|Hne].
    + rewrite Hu in Hv. injection Hv as <-.
      rewrite lookup_insert_eq. by eexists.
    + rewrite lookup_insert_ne by done. by exists u.
  - destruct (decide (j = id)) as [->|Hne]; [congruence|].
    rewrite lookup_insert_ne by done. by exists u.
Qed.

Lemma step_emails_unique (s : Store) uid (c : Call) :
  emails_unique s -> emails_unique (step1 s (uid, c)).
Proof.
  intros Huniq.
  destruct (step_users cast jwt_sign bcrypt_hash s uid c)
    as [Hsame|[(v & cart & Hv & Hins & _)|(k & v & Hk & Hins & _ & Hnew)]];
    intros i j u1 u2; rewrite ?Hsame, ?Hins.
  - apply Huniq.
  - assert (forall n w, <[uid := with_cart v cart]> (users s) !! n = Some w ->
              exists w0, users s !! n = Some w0
                         /\ user_email w0 = user_email w) as Hback.
    { intros n w. destruct (decide (uid = n)) as [->|Hne].
      - rewrite lookup_insert_eq. intros [= <-]. by exists v.
      - rewrite lookup_insert_ne by done. intros H. by exists w. }
    intros H1 H2 He.
    destruct (Hback _ _ H1) as (w1 & Hw1 & E1).
    destruct (Hback _ _ H2) as (w2 & Hw2 & E2).
    apply (Huniq i j w1 w2 Hw1 Hw2). congruence.
  - destruct (decide (k = i)) as [<-|Hi]; destruct (decide (k = j)) as [<-|Hj];
      rewrite ?lookup_insert_eq, ?lookup_insert_ne by done; try done.
    + intros [= <-] H2 He. by destruct (Hnew j u2 H2).
    + intros H1 [= <-] He. by destruct (Hnew i u1 H1).
    + apply Huniq.
Qed.

Lemma step_carts_positive (s : Store) uid (c : Call) :
  cart_in_range c -> carts_positive s -> carts_positive (step1 s (uid, c)).
Proof.
  intros Hc Hpos.
  destruct (step_users cast jwt_sign bcrypt_hash s uid c)
    as [Hsame|[(v & cart & Hv & Hins & Hcart)|(k & v & Hk & Hins & Hv & _)]];
    intros i u; rewrite ?Hsame, ?Hins.
  - apply Hpos.
  - destruct (decide (uid = i)) as [->|Hne].
    + rewrite lookup_insert_eq. intros [= <-]. simpl.
      apply Hcart; [by apply (Hpos i) | done].
    + rewrite lookup_insert_ne by done. apply Hpos.
  - destruct (decide (k = i)) as [->|Hne].
    + rewrite lookup_insert_eq. intros [= <-]. rewrite Hv. constructor.
    + rewrite lookup_insert_ne by done. apply Hpos.
Qed.

Lemma step_orders_owned (s : Store) uid (c : Call) :
  orders_owned s -> orders_owned (step1 s (uid, c)).
Proof.
  intros Hown o Hin.
  assert (is_Some (users s !! userId o)) as [u Hu].
  { destruct (step_orders cast jwt_sign bcrypt_hash s uid c)
      as [Hsame|(o' & Ho' & Hid & Hsome & _)].
    - rewrite Hsame in Hin. by apply Hown.
    - rewrite Ho' in Hin. apply in_app_iff in Hin as [Hin|[<-|[]]].
      + by apply Hown.
      + by rewrite Hid. }
  destruct (step_user_kept s uid c _ u Hu) as (u' & Hu' & _).
  by exists u'.
Qed.

Lemma step_numbered (s : Store) uid (c : Call) :
  numbered (orders s) -> numbered (orders (step1 s (uid, c))).
Proof.
  intros Hn.
  destruct (step_orders cast jwt_sign bcrypt_hash s uid c)
    as [->|(o & -> & _ & _ & _ & _ & now & Ho)]; [done|].
  by apply (numbered_snoc _ _ now).
Qed.

Lemma step_consistent (s : Store) uid (c : Call) :
  Forall totals_consistent (orders s) ->
  Forall totals_consistent (orders (step1 s (uid, c))).
Proof.
  intros Hall.
  destruct (step_orders cast jwt_sign bcrypt_hash s uid c)
    as [->|(o & -> & _ & _ & Ho & _)]; [done|].
  apply Forall_app. split; [done|]. by constructor.
Qed.

(** An invariant of every call is an invariant of every run. *)
Lemma run_invariant (P : Store -> Prop) (Q : Call -> Prop) :
  (forall s uid c, Q c -> P s -> P (step1 s (uid, c))) ->
  forall cs s, Forall (fun c => Q (snd c)) cs -> P s -> P (runs cs s).
Proof.
  intros Hstep cs. induction cs as [|[uid c] cs IH]; intros s Hq Hs; [done|].
  apply Forall_cons in Hq as [Hc Hq]. simpl. apply IH; [done|].
  by apply Hstep.
Qed.

Lemma run_invariant_all (P : Store -> Prop) :
  (forall s uid c, P s -> P (step1 s (uid, c))) ->
  forall cs s, P s -> P (runs cs s).
Proof.
  intros Hstep cs s. apply (run_invariant P (fun _ => True)).
  - intros s0 uid c _. apply Hstep.
  - by apply Forall_forall.
Qed.

Lemma run_user_kept (cs : list (string * Call)) (s : Store) id u :
  users s !! id = Some u ->
  exists u',
    users (runs cs s) !! id = Some u'
    /\ user_name u' = user_name u
    /\ user_email u' = user_email u
    /\ user_password u' = user_password u.
Proof.
  intros Hu.
  apply (run_invariant_all
           (fun s' => exists u',
              users s' !! id = Some u'
              /\ user_name u' = user_name u
              /\ user_email u' = user_email u
              /\ user_password u' = user_password u));
    [|by exists u].
  intros s0 uid c (u0 & Hu0 & Hn & He & Hp).
  destruct (step_user_kept s0 uid c id u0 Hu0)
    as (u1 & Hu1 & Hn1 & He1 & Hp1).
  exists u1. split; [done|]. split; [congruence|]. split; congruence.
Qed.

Lemma run_numbered (cs : list (string * Call)) (s : Store) :
  numbered (orders s) -> numbered (orders (runs cs s)).
Proof.
  apply (run_invariant_all (fun s => numbered (orders s))).
  intros s0 uid c. apply step_numbered.
Qed.

End RunInvariants.

(** ** Runs *)

(** X10. No call ever deletes or alters an order. After any run of
    calls, by any users, the order collection is the one before the run
    followed by the orders placed since, at most one for each placement
    call; and if the totals of every order agreed with its lines before
    the run, they do after it. *)
Theorem orders_only_grow (cast : string -> option string)
    (jwt_sign : N -> string -> string)
    (bcrypt_hash : string -> string -> string)
    (cs : list (string * Call)) (s : Store) :
  exists new,
    orders (run cast jwt_sign bcrypt_hash cs s) = (orders s ++ new)%list
    /\ (List.length new <= List.length (List.filter is_place cs))%nat
    /\ (Forall totals_consistent (orders s) ->
        Forall totals_consistent
          (orders (run cast jwt_sign bcrypt_hash cs s))).
Proof.
  revert s. induction cs as [|[uid c] cs IH]; intros s.
  - exists []. simpl. by rewrite app_nil_r.
  - simpl. destruct (IH (step cast jwt_sign bcrypt_hash s (uid, c)))
      as (new & Hnew & Hlen & Hcons).
    destruct (step_orders cast jwt_sign bcrypt_hash s uid c)
      as [Hsame|(o & Ho & _ & _ & Hc & (env & b & ->) & _)].
    + exists new. split; [by rewrite Hnew, Hsame|]. split.
      * destruct (is_place (uid, c)); simpl; lia.
      * intros Hall. apply Hcons. by rewrite Hsame.
    + exists (o :: new). split; [by rewrite Hnew, Ho, <- app_assoc|].
      split; [simpl; lia|].
      intros Hall. apply Hcons. rewrite Ho. apply Forall_app.
      split; [done | by constructor].
Qed.

(** The worked run: three placement calls, two orders. *)
Lemma orders_only_grow_witness :
  exists new,
    orders Tour.after = new
    /\ (List.length new <= 3)%nat
    /\ Forall totals_consistent (orders Tour.after).
Proof.
  destruct (orders_only_grow Example.cast Tour.sign Tour.hash Tour.calls
              Tour.nothing) as (new & Hnew & Hlen & Hcons).
  exists new. split; [exact Hnew|]. split; [exact Hlen|].
  apply Hcons. constructor.
Defined.

(** X11. Order numbers never repeat. If every order of the collection
    carries the number the hook generates for its position, as in an
    empty collection, then after any run of calls every order still
    does, and the numbers of the collection are pairwise distinct. *)
Theorem order_numbers_stay_distinct (cast : string -> option string)
    (jwt_sign : N -> string -> string)
    (bcrypt_hash : string -> string -> string)
    (cs : list (string * Call)) (s : Store) :
  numbered (orders s) ->
  numbered (orders (run cast jwt_sign bcrypt_hash cs s))
  /\ List.NoDup
       (List.map orderNumber
          (orders (run cast jwt_sign bcrypt_hash cs s))).
Proof.
  intros Hn.
  pose proof (run_numbered cast jwt_sign bcrypt_hash cs s Hn) as H.
  split; [done | by apply numbered_NoDup].
Qed.

(** The numbers of the worked run, from an empty collection. *)
Lemma order_numbers_stay_distinct_witness :
  List.NoDup (List.map orderNumber (orders Tour.after)).
Proof.
  refine (proj2 (order_numbers_stay_distinct Example.cast Tour.sign
                   Tour.hash Tour.calls Tour.nothing _)).
  intros [|i] o H; discriminate H.
Defined.

(** X12. Orders keep their owner. If every order belongs to a user of
    the store, it does after any run of calls: a placement files the
    order under the user who placed it, and no call removes a user. *)
Theorem orders_stay_owned (cast : string -> option string)
    (jwt_sign : N -> string -> string)
    (bcrypt_hash : string -> string -> string)
    (cs : list (string * Call)) (s : Store) :
  orders_owned s ->
  orders_owned (run cast jwt_sign bcrypt_hash cs s).
Proof.
  apply (run_invariant_all cast jwt_sign bcrypt_hash orders_owned).
  intros s0 uid c. apply step_orders_owned.
Qed.

(** The orders of the worked run. *)
Lemma orders_stay_owned_witness : orders_owned Tour.after.
Proof.
  apply (orders_stay_owned Example.cast Tour.sign Tour.hash Tour.calls
           Tour.nothing).
  intros o [].
Defined.

(** X13. Accounts are stable. After any run of calls, a user who was in
    the store is still there under the same id, with the same name,
    email and stored password, only the cart may differ; and if no two
    users shared an email before the run, none do after it. *)
Theorem accounts_stay (cast : string -> option string)
    (jwt_sign : N -> string -> string)
    (bcrypt_hash : string -> string -> string)
    (cs : list (string * Call)) (s : Store) :
  (forall id u,
     users s !! id = Some u ->
     exists u',
       users (run cast jwt_sign bcrypt_hash cs s) !! id = Some u'
       /\ user_name u' = user_name u
       /\ user_email u' = user_email u
       /\ user_password u' = user_password u)
  /\ (emails_unique s ->
      emails_unique (run cast jwt_sign bcrypt_hash cs s)).
Proof.
  split.
  - intros id u. apply run_user_kept.
  - apply (run_invariant_all cast jwt_sign bcrypt_hash emails_unique).
    intros s0 uid c. apply step_emails_unique.
Qed.

(** The example store through a run of two calls of its two users. *)
Lemma accounts_stay_witness :
  exists u',
    users (run Example.cast Tour.sign Tour.hash
             [(Example.alice, CartClear true);
              (Example.bob, OrderPlace Example.env Example.body)]
             Example.store) !! Example.alice = Some u'
    /\ user_email u' = "alice@example.com".
Proof.
  destruct (accounts_stay Example.cast Tour.sign Tour.hash
              [(Example.alice, CartClear true);
               (Example.bob, OrderPlace Example.env Example.body)]
              Example.store) as [Hkept _].
  destruct (Hkept Example.alice
              (Example.customer
                 [(Example.itemA, Num 2); (Example.itemB, Num 1)])
              eq_refl) as (u' & Hu' & _ & He & _).
  exists u'. split; [exact Hu' | exact He].
Defined.

(** X14. Carts stay positive. If every cart of the store holds numbers
    above zero only, and every AddItem and RemoveItem of a run names
    its item by a plain property name and asks for a quantity above
    zero, finite for a removal, then after the run every cart still
    holds numbers above zero only, whatever else is called in
    between. *)
Theorem carts_stay_positive (cast : string -> option string)
    (jwt_sign : N -> string -> string)
    (bcrypt_hash : string -> string -> string)
    (cs : list (string * Call)) (s : Store) :
  carts_positive s ->
  Forall (fun c => cart_in_range (snd c)) cs ->
  carts_positive (run cast jwt_sign bcrypt_hash cs s).
Proof.
  intros Hpos Hadds.
  apply (run_invariant cast jwt_sign bcrypt_hash carts_positive
           cart_in_range); [|done..].
  intros s0 uid c. apply step_carts_positive.
Qed.

(** The carts of the worked run. *)
Lemma carts_stay_positive_witness : carts_positive Tour.after.
Proof.
  apply (carts_stay_positive Example.cast Tour.sign Tour.hash Tour.calls
           Tour.nothing).
  - intros uid u H. unfold Tour.nothing in H. simpl in H.
    rewrite lookup_empty in H. discriminate H.
  - repeat constructor.
Defined.

(** X15. The catalog is only ever seeded. Once the catalog holds an
    item, no run of calls changes it: no item is added, removed or
    repriced. *)
Theorem catalog_never_changes (cast : string -> option string)
    (jwt_sign : N -> string -> string)
    (bcrypt_hash : string -> string -> string)
    (cs : list (string * Call)) (s : Store) :
  foods s <> ∅ ->
  foods (run cast jwt_sign bcrypt_hash cs s) = foods s.
Proof.
  revert s. induction cs as [|[uid c] cs IH]; intros s Hne; [done|].
  simpl. destruct (step_foods cast jwt_sign bcrypt_hash s uid c)
    as [Hsame|Hempty]; [|done].
  rewrite IH; [done|]. by rewrite Hsame.
Qed.

(** The worked run on a store whose catalog holds two items. *)
Lemma catalog_never_changes_witness :
  foods (run Example.cast Tour.sign Tour.hash Tour.calls Example.store)
  = Example.catalog.
Proof.
  apply (catalog_never_changes Example.cast Tour.sign Tour.hash Tour.calls
           Example.store).
  intros H. apply (f_equal (fun m => m !! Example.itemA)) in H.
  vm_compute in H. discriminate H.
Defined.

(** X16. The unique index never turns a good order away. In a store
    reached by any run of calls from one whose orders carry the numbers
    of the hook, an empty collection for one, a placement with a
    complete address, a cart whose positive entries all resolve to
    available items, and both writes accepted always succeeds; the new
    order takes the number of the next position. *)
Theorem placement_never_conflicts (cast : string -> option string)
    (jwt_sign : N -> string -> string)
    (bcrypt_hash : string -> string -> string)
    (cs : list (string * Call)) (s0 : Store) (env : Env) (uid : string)
    (b : PlaceBody) (a : Address) (u : User) :
  let s := run cast jwt_sign bcrypt_hash cs s0 in
  numbered (orders s0) ->
  body_address b = Some a ->
  address_complete (Some a) = true ->
  users s !! uid = Some u ->
  positive_entries (cartData u) <> [] ->
  forallb (entry_ok cast s) (positive_entries (cartData u)) = true ->
  insert_ok env = true ->
  update_ok env = true ->
  code (fst (order_place cast env uid b s)) = 201
  /\ exists o,
       orders (snd (order_place cast env uid b s))
       = (orders s ++ [o])%list
       /\ orderNumber o
          = order_number (Date_now env) (List.length (orders s)).
Proof.
  intros s Hn Ha Hc Hu Hne Hok Hins Hup.
  pose proof (run_numbered cast jwt_sign bcrypt_hash cs s0 Hn) as Hn'.
  fold s in Hn'.
  rewrite (order_place_valid cast env uid b s a u Ha Hc Hu Hne Hok).
  cbv zeta. unfold Order_save. rewrite pre_save_new_Order.
  rewrite (numbered_fresh _ (Date_now env) Hn'), Hins, Hup. simpl.
  split; [done|]. eexists. split; [by rewrite update_orders | done].
Qed.

(** The worked run, and then one more order of the same user. *)
Lemma placement_never_conflicts_witness :
  let s :=
    run Example.cast Tour.sign Tour.hash
      (Tour.calls ++ [(Tour.carol, CartAdd true Tour.two_pizzas)])
      Tour.nothing in
  code (fst (order_place Example.cast
               (Tour.at_noon "665f1c2ab7e4d90a1c3e5b14") Tour.carol
               Example.body s)) = 201.
Proof.
  cbv zeta.
  refine (proj1 (placement_never_conflicts Example.cast Tour.sign Tour.hash
                   (Tour.calls ++ [(Tour.carol, CartAdd true Tour.two_pizzas)])
                   Tour.nothing (Tour.at_noon "665f1c2ab7e4d90a1c3e5b14")
                   Tour.carol Example.body Example.home
                   {| user_name := "Carol";
                      user_email := "carol@example.com";
                      user_password := "s4ltcorrect horse";
                      cartData := [(Tour.pizza, Num 2)] |}
                   _ eq_refl eq_refl _ _ _ eq_refl eq_refl)).
  - intros [|i] o H; discriminate H.
  - vm_compute. reflexivity.
  - vm_compute. discriminate.
  - vm_compute. reflexivity.
Defined.

(** ** The auth gate *)

Section GateFacts.
Variable jwt_verify : N -> string -> option string.

Lemma gate_next (now : N) (h : Headers) (s : Store) uid :
  authMiddleware jwt_verify now h s = Next uid ->
  is_Some (users s !! uid)
  /\ present (or_else (header_token h) (header_authorization h)) = true
  /\ jwt_verify now
       (string_of (or_else (header_token h) (header_authorization h)))
     = Some uid.
Proof.
  unfold authMiddleware, User_findById.
  destruct (present (or_else _ _)); [|done].
  destruct (jwt_verify now _) as [id|]; [|done].
  destruct (users s !! id) as [u|] eqn:Hu; [|done].
  intros [= <-]. rewrite Hu. by repeat split.
Qed.

End GateFacts.

(** X17. Behind the gate the user is always found. A request that the
    gate lets through reaches its handler with the id of a user of the
    store, the one the token decodes to, so that AddItem, RemoveItem
    and order placement behind the gate never answer with the 404 of an
    unknown user. A request with no token, or an empty one, in both
    headers is turned away with a 401 before the token library is
    asked, the store untouched; and when the [token] header carries a
    token the [authorization] header is not looked at. *)
Theorem gate_resolves_the_user (cast : string -> option string)
    (jwt_verify : N -> string -> option string) (now : N) (h : Headers)
    (s : Store) :
  (forall up b,
     code (fst (guarded jwt_verify now h
                  (fun uid => cart_add up uid b) s)) <> 404
     /\ code (fst (guarded jwt_verify now h
                     (fun uid => cart_remove up uid b) s)) <> 404)
  /\ (forall env b,
        code (fst (guarded jwt_verify now h
                     (fun uid => order_place cast env uid b) s)) <> 404)
  /\ (forall uid,
        authMiddleware jwt_verify now h s = Next uid ->
        is_Some (users s !! uid)
        /\ forall handler,
             guarded jwt_verify now h handler s = handler uid s)
  /\ (present (header_token h) = false ->
      present (header_authorization h) = false ->
      forall handler,
        guarded jwt_verify now h handler s
        = (reply 401 false "Access token is required" NoData, s))
  /\ (present (header_token h) = true ->
      forall other,
        authMiddleware jwt_verify now h s
        = authMiddleware jwt_verify now
            {| header_token := header_token h;
               header_authorization := other |} s).
Proof.
  assert (forall handler : string -> Store -> Reply * Store,
            (forall uid u, users s !! uid = Some u ->
                           code (fst (handler uid s)) <> 404) ->
            code (fst (guarded jwt_verify now h handler s)) <> 404) as Hgate.
  { intros handler Hh. unfold guarded.
    destruct (authMiddleware jwt_verify now h s) as [uid|r] eqn:E.
    - apply gate_next in E as ([u Hu] & _). by apply (Hh uid u).
    - unfold authMiddleware in E.
      destruct (present _); [|by injection E as <-].
      destruct (jwt_verify now _); [|by injection E as <-].
      destruct (User_findById s _); [done | by injection E as <-]. }
  split; [|split; [|split; [|split]]].
  - intros up b. split; apply Hgate; intros uid u Hu;
      unfold cart_add, cart_remove, User_findById; rewrite Hu;
      by destruct up.
  - intros env b. apply Hgate. intros uid u Hu.
    unfold order_place, User_findById.
    destruct (body_address b) as [a|]; [|done].
    destruct (address_complete (Some a)); [|done]. rewrite Hu.
    destruct (Nat.eqb _ 0); [done|].
    destruct (build_items cast s _ [] 0%float) as [r|e|[lines sub]] eqn:E.
    + destruct (build_items_bad cast s
                  (positive_entries (cartData u)) [] 0%float)
        as [(r' & Hr' & Hcode & _)|(e & He)].
      * destruct (forallb (entry_ok cast s)
                    (positive_entries (cartData u))) eqn:Hok; [|done].
        rewrite (build_items_ok cast s _ [] 0%float Hok) in E.
        discriminate E.
      * rewrite E in Hr'. injection Hr' as <-. simpl. by rewrite Hcode.
      * rewrite E in He. discriminate He.
    + done.
    + destruct (Order_save env _ s) as [e|[o s1]]; [done|].
      by destruct (update_ok env).
  - intros uid E. split; [by apply gate_next in E as (? & _)|].
    intros handler. unfold guarded. by rewrite E.
  - intros Ht Ha handler. unfold guarded, authMiddleware, or_else.
    by rewrite Ht, Ha.
  - intros Ht other. unfold authMiddleware, or_else. simpl. by rewrite Ht.
Qed.

(** The user of the worked run adds to her cart with her token. *)
Lemma gate_resolves_the_user_witness :
  guarded Tour.verify 1700000200000
    (Tour.headers "jwt.665f1c2ab7e4d90a1c3e5a03")
    (fun uid => cart_add true uid Tour.one_salad) Tour.after
  = cart_add true Tour.carol Tour.one_salad Tour.after.
Proof.
  destruct (gate_resolves_the_user Example.cast Tour.verify 1700000200000
              (Tour.headers "jwt.665f1c2ab7e4d90a1c3e5a03") Tour.after)
    as (_ & _ & Hnext & _).
  refine (proj2 (Hnext Tour.carol _)
            (fun uid => cart_add true uid Tour.one_salad)).
  vm_compute. reflexivity.
Defined.

(** ** Registration and login *)

Section AccountFacts.
Variable jwt_sign : N -> string -> string.
Variable bcrypt_hash : string -> string -> string.
Variable bcrypt_compare : string -> string -> bool.

(** What a registration that succeeds has found and done. *)
Lemma user_register_201 (env : SignupEnv) (b : AccountBody) (s : Store) :
  ur_code (fst (user_register jwt_sign bcrypt_hash env b s)) = 201 ->
  let user :=
    {| user_name := string_of (acc_name b);
       user_email := string_of (acc_email b);
       user_password :=
         bcrypt_hash (signup_salt env) (string_of (acc_password b));
       cartData := [] |} in
  present (acc_name b) = true
  /\ present (acc_email b) = true
  /\ present (acc_password b) = true
  /\ User_findOne s (string_of (acc_email b)) = None
  /\ users s !! signup_id env = None
  /\ user_register jwt_sign bcrypt_hash env b s
     = ({| ur_code := 201; ur_success := true;
           ur_message := Text "User registered successfully";
           ur_token := Some (jwt_sign (signup_now env) (signup_id env));
           ur_user :=
             Some {| account_id := signup_id env;
                     account_name := string_of (acc_name b);
                     account_email := string_of (acc_email b) |} |},
        with_users s (<[signup_id env := user]> (users s))).
Proof.
  unfold user_register.
  destruct (present (acc_name b)); [|done].
  destruct (present (acc_email b)); [|done].
  destruct (present (acc_password b)); [|done]. simpl.
  destruct (User_findOne s _); [done|].
  destruct (users s !! signup_id env); [done|].
  by destruct (signup_ok env).
Qed.

(** After a registration the email finds the new user, and only it. *)
Lemma User_findOne_registered (s : Store) id (u : User) :
  User_findOne s (user_email u) = None ->
  User_findOne (with_users s (<[id := u]> (users s))) (user_email u)
  = Some (id, u).
Proof.
  intros Hnone.
  destruct (User_findOne (with_users s (<[id := u]> (users s)))
              (user_email u)) as [[j v]|] eqn:E.
  - apply User_findOne_Some in E as [Hv He]. simpl in Hv.
    destruct (decide (id = j)) as [<-|Hne].
    + rewrite lookup_insert_eq in Hv. by injection Hv as <-.
    + rewrite lookup_insert_ne in Hv by done.
      by destruct (proj1 (User_findOne_None s _) Hnone j v Hv).
  - exfalso. apply (proj1 (User_findOne_None _ _) E id u); [|done].
    simpl. apply lookup_insert_eq.
Qed.

End AccountFacts.

(** X18. Register, then log in. After a registration that succeeds,
    the store holds the new user under the new id with the name and
    email of the request, the hash of the password and an empty cart;
    and a login with the same email and password, the hash library
    accepting the password against the hash it made, succeeds as that
    user: same id, same name, same email, and a token for that id. *)
Theorem register_then_login (jwt_sign : N -> string -> string)
    (bcrypt_hash : string -> string -> string)
    (bcrypt_compare : string -> string -> bool) (env : SignupEnv)
    (b : AccountBody) (s : Store) (now : N) :
  ur_code (fst (user_register jwt_sign bcrypt_hash env b s)) = 201 ->
  bcrypt_compare (string_of (acc_password b))
    (bcrypt_hash (signup_salt env) (string_of (acc_password b))) = true ->
  let s' := snd (user_register jwt_sign bcrypt_hash env b s) in
  users s' !! signup_id env
  = Some {| user_name := string_of (acc_name b);
            user_email := string_of (acc_email b);
            user_password :=
              bcrypt_hash (signup_salt env) (string_of (acc_password b));
            cartData := [] |}
  /\ user_login jwt_sign bcrypt_compare now b s'
     = {| ur_code := 200; ur_success := true;
          ur_message := Text "Login successful";
          ur_token := Some (jwt_sign now (signup_id env));
          ur_user :=
            Some {| account_id := signup_id env;
                    account_name := string_of (acc_name b);
                    account_email := string_of (acc_email b) |} |}.
Proof.
  intros Hcode Hcmp.
  destruct (user_register_201 jwt_sign bcrypt_hash env b s Hcode)
    as (_ & He & Hp & Hnone & _ & ->).
  cbv zeta. simpl snd. split; [apply lookup_insert_eq|].
  unfold user_login. rewrite He, Hp. simpl.
  pose proof (User_findOne_registered s (signup_id env)
                {| user_name := string_of (acc_name b);
                   user_email := string_of (acc_email b);
                   user_password :=
                     bcrypt_hash (signup_salt env)
                       (string_of (acc_password b));
                   cartData := [] |} Hnone) as Hfound.
  cbn [user_email] in Hfound. rewrite Hfound.
  simpl. by rewrite Hcmp.
Qed.

(** The registration of the worked run, and the login after it. *)
Lemma register_then_login_witness :
  ur_code (user_login Tour.sign Tour.compare 1700000200000 Tour.credentials
             (snd (user_register Tour.sign Tour.hash Tour.signup
                     Tour.credentials Tour.nothing))) = 200.
Proof.
  rewrite (proj2 (register_then_login Tour.sign Tour.hash Tour.compare
                    Tour.signup Tour.credentials Tour.nothing 1700000200000
                    eq_refl eq_refl)).
  reflexivity.
Defined.

(** X19. One email, one account. After a registration that succeeds,
    every further registration under the same email, whatever the name,
    the password and the id it would get, is refused as an existing
    user, and leaves the store as it is. *)
Theorem register_twice_refused (jwt_sign : N -> string -> string)
    (bcrypt_hash : string -> string -> string) (env env' : SignupEnv)
    (b b' : AccountBody) (s : Store) :
  ur_code (fst (user_register jwt_sign bcrypt_hash env b s)) = 201 ->
  acc_email b' = acc_email b ->
  present (acc_name b') = true ->
  present (acc_password b') = true ->
  let s' := snd (user_register jwt_sign bcrypt_hash env b s) in
  user_register jwt_sign bcrypt_hash env' b' s'
  = (user_failure 400 "User already exists", s').
Proof.
  intros Hcode Hsame Hn Hp.
  destruct (user_register_201 jwt_sign bcrypt_hash env b s Hcode)
    as (_ & He & _ & Hnone & _ & ->).
  cbv zeta. simpl snd. unfold user_register at 1.
  rewrite Hsame, Hn, He, Hp. simpl.
  pose proof (User_findOne_registered s (signup_id env)
                {| user_name := string_of (acc_name b);
                   user_email := string_of (acc_email b);
                   user_password :=
                     bcrypt_hash (signup_salt env)
                       (string_of (acc_password b));
                   cartData := [] |} Hnone) as Hfound.
  cbn [user_email] in Hfound. by rewrite Hfound.
Qed.

(** A second registration under the email of the worked run. *)
Lemma register_twice_refused_witness :
  ur_code (fst (user_register Tour.sign Tour.hash
                  {| signup_id := "665f1c2ab7e4d90a1c3e5a04";
                     signup_salt := "pepr"; signup_now := 1700000300000;
                     signup_ok := true |}
                  {| acc_name := Some "Caroline";
                     acc_email := Some "carol@example.com";
                     acc_password := Some "another" |}
                  (snd (user_register Tour.sign Tour.hash Tour.signup
                          Tour.credentials Tour.nothing)))) = 400.
Proof.
  rewrite (register_twice_refused Tour.sign Tour.hash Tour.signup
             {| signup_id := "665f1c2ab7e4d90a1c3e5a04";
                signup_salt := "pepr"; signup_now := 1700000300000;
                signup_ok := true |}
             Tour.credentials
             {| acc_name := Some "Caroline";
                acc_email := Some "carol@example.com";
                acc_password := Some "another" |}
             Tour.nothing eq_refl eq_refl eq_refl eq_refl).
  reflexivity.
Defined.

(** X20. The token of a registration opens the gate, and keeps opening
    it. After a registration that succeeds, and then any run of calls,
    a request carrying the token of the registration in the [token]
    header, or in the [authorization] header when there is no [token]
    header, passes the gate as the new user, provided the token is not
    the empty string and the token library still verifies it to the id
    it was signed for. *)
Theorem registered_token_opens_gate (cast : string -> option string)
    (jwt_sign : N -> string -> string)
    (jwt_verify : N -> string -> option string)
    (bcrypt_hash : string -> string -> string) (env : SignupEnv)
    (b : AccountBody) (s : Store) (cs : list (string * Call)) (now : N) :
  let token := jwt_sign (signup_now env) (signup_id env) in
  let later :=
    run cast jwt_sign bcrypt_hash cs
      (snd (user_register jwt_sign bcrypt_hash env b s)) in
  ur_code (fst (user_register jwt_sign bcrypt_hash env b s)) = 201 ->
  token <> EmptyString ->
  jwt_verify now token = Some (signup_id env) ->
  ur_token (fst (user_register jwt_sign bcrypt_hash env b s)) = Some token
  /\ authMiddleware jwt_verify now
       {| header_token := Some token; header_authorization := None |} later
     = Next (signup_id env)
  /\ authMiddleware jwt_verify now
       {| header_token := None; header_authorization := Some token |} later
     = Next (signup_id env).
Proof.
  intros token later Hcode Hne Hver. subst later.
  destruct (user_register_201 jwt_sign bcrypt_hash env b s Hcode)
    as (_ & _ & _ & _ & _ & ->).
  cbv zeta. simpl fst. simpl snd. split; [done|].
  set (user := {| user_name := string_of (acc_name b);
                  user_email := string_of (acc_email b);
                  user_password :=
                    bcrypt_hash (signup_salt env)
                      (string_of (acc_password b));
                  cartData := [] |}).
  destruct (run_user_kept cast jwt_sign bcrypt_hash cs
              (with_users s (<[signup_id env := user]> (users s)))
              (signup_id env) user (lookup_insert_eq _ _ _))
    as (u' & Hu' & _).
  assert (present (Some token) = true) as Hpres.
  { simpl. by apply negb_true_iff, String.eqb_neq. }
  assert (or_else (Some token) None = Some token) as Hfirst
    by (unfold or_else; by rewrite Hpres).
  split; unfold authMiddleware, User_findById;
    cbn [header_token header_authorization];
    [rewrite Hfirst|change (or_else None (Some token)) with (Some token)];
    rewrite Hpres; cbn [string_of]; rewrite Hver; by rewrite Hu'.
Qed.

(** The token of the worked run's registration, after the run. *)
Lemma registered_token_opens_gate_witness :
  authMiddleware Tour.verify 1700000200000
    (Tour.headers "jwt.665f1c2ab7e4d90a1c3e5a03")
    (run Example.cast Tour.sign Tour.hash
       [(Tour.carol, CartAdd true Tour.two_pizzas)]
       (snd (user_register Tour.sign Tour.hash Tour.signup Tour.credentials
               Tour.nothing)))
  = Next Tour.carol.
Proof.
  refine (proj1 (proj2 (registered_token_opens_gate Example.cast Tour.sign
                          Tour.verify Tour.hash Tour.signup Tour.credentials
                          Tour.nothing
                          [(Tour.carol, CartAdd true Tour.two_pizzas)]
                          1700000200000 eq_refl _ eq_refl))).
  discriminate.
Defined.

(** X21. What a login answers. With an email and a password in the
    request, and no two users sharing an email, the login succeeds
    exactly when the store has a user with that email whose stored hash
    the hash library accepts for the password, and then it answers as
    that user; in every other case the reply is one and the same 401,
    whether the email is unknown or the password is wrong. *)
Theorem login_outcomes (jwt_sign : N -> string -> string)
    (bcrypt_compare : string -> string -> bool) (now : N)
    (b : AccountBody) (s : Store) :
  present (acc_email b) = true ->
  present (acc_password b) = true ->
  emails_unique s ->
  let r := user_login jwt_sign bcrypt_compare now b s in
  (forall id u,
     users s !! id = Some u ->
     user_email u = string_of (acc_email b) ->
     bcrypt_compare (string_of (acc_password b)) (user_password u) = true ->
     r = {| ur_code := 200; ur_success := true;
            ur_message := Text "Login successful";
            ur_token := Some (jwt_sign now id);
            ur_user :=
              Some {| account_id := id; account_name := user_name u;
                      account_email := user_email u |} |})
  /\ (ur_code r = 200 ->
      exists id u,
        users s !! id = Some u
        /\ user_email u = string_of (acc_email b)
        /\ bcrypt_compare (string_of (acc_password b)) (user_password u)
           = true)
  /\ (ur_code r <> 200 -> r = user_failure 401 "Invalid credentials").
Proof.
  intros He Hp Huniq. cbv zeta. unfold user_login. rewrite He, Hp. simpl.
  destruct (User_findOne s (string_of (acc_email b))) as [[j v]|] eqn:E.
  - apply User_findOne_Some in E as [Hv Hev].
    split; [|split].
    + intros id u Hu Heu Hcmp.
      assert (j = id) as -> by (apply (Huniq _ _ v u); congruence).
      rewrite Hu in Hv. injection Hv as <-. by rewrite Hcmp.
    + destruct (bcrypt_compare _ (user_password v)) eqn:Hcmp; [|done].
      intros _. by exists j, v.
    + by destruct (bcrypt_compare _ (user_password v)).
  - split; [|split]; [|done..].
    intros id u Hu Heu _.
    by destruct (proj1 (User_findOne_None s _) E id u Hu).
Qed.

(** The wrong password for the user of the worked run. *)
Lemma login_outcomes_witness :
  user_login Tour.sign Tour.compare 1700000200000
    {| acc_name := None; acc_email := Some "carol@example.com";
       acc_password := Some "guess" |} Tour.after
  = user_failure 401 "Invalid credentials".
Proof.
  refine (proj2 (proj2 (login_outcomes Tour.sign Tour.compare 1700000200000
                          {| acc_name := None;
                             acc_email := Some "carol@example.com";
                             acc_password := Some "guess" |}
                          Tour.after eq_refl eq_refl _)) _).
  - intros i j u v Hu Hv _.
    assert (forall k w, users Tour.after !! k = Some w -> k = Tour.carol)
      as Honly.
    { intros k w Hk. apply elem_of_map_to_list in Hk.
      vm_compute in Hk. by apply list_elem_of_singleton in Hk as [= -> _]. }
    by rewrite (Honly i u Hu), (Honly j v Hv).
  - vm_compute. discriminate.
Defined.

(** ** Catalog listing *)

(** The documents of a catalog after inserting a list of documents with
    distinct ids. *)
Lemma lookup_inserted (l : list FoodDoc) (m : gmap string Food) id f :
  NoDup (List.map fst l) ->
  fold_left (fun m d => <[fst d := snd d]> m) l m !! id = Some f
  <-> In (id, f) l \/ (~ In id (List.map fst l) /\ m !! id = Some f).
Proof.
  revert m. induction l as [|[k v] l IH]; intros m Hnd; simpl.
  - intuition.
  - apply NoDup_cons in Hnd as [Hk Hnd]. rewrite (IH _ Hnd). simpl.
    rewrite list_elem_of_In in Hk.
    destruct (decide (k = id)) as [<-|Hne].
    + rewrite lookup_insert_eq. split.
      * intros [Hin|[Hnin [= <-]]]; [|by left; left].
        destruct Hk. apply in_map_iff. by exists (k, f).
      * intros [[[= <-]|Hin]|[Hnin _]].
        -- by right.
        -- destruct Hk. apply in_map_iff. by exists (k, f).
        -- destruct Hnin. by left.
    + rewrite lookup_insert_ne by done. split.
      * intros [Hin|[Hnin Hm]]; [by left; right|].
        right. split; [|done]. by intros [?|?].
      * intros [[[= ? _]|Hin]|[Hnin Hm]]; [done|by left|].
        right. split; [|done]. intros ?. apply Hnin. by right.
Qed.

(** X22. A listing seeds an empty catalog, once. With the storage layer
    up, an empty catalog and three distinct fresh ids from the driver,
    the listing answers with the three sample items under those ids and
    the catalog then holds exactly them; users and orders are as before.
    Every later listing leaves the store alone, whatever ids the driver
    would hand out, and with the storage layer up it lists exactly the
    three seeded documents. *)
Theorem listing_seeds_once (ids : list string) (s : Store) :
  foods s = ∅ ->
  List.length ids = 3%nat ->
  NoDup ids ->
  let r := food_list true ids s in
  fr_data (fst r) = combine ids sampleFoods
  /\ (forall id f,
        foods (snd r) !! id = Some f <-> In (id, f) (combine ids sampleFoods))
  /\ users (snd r) = users s
  /\ orders (snd r) = orders s
  /\ forall up ids',
       snd (food_list up ids' (snd r)) = snd r
       /\ (up = true ->
           forall d,
             In d (fr_data (fst (food_list up ids' (snd r))))
             <-> In d (combine ids sampleFoods)).
Proof.
  intros Hempty Hlen Hnd. cbv zeta.
  assert (food_list true ids s
          = (food_found (combine ids sampleFoods),
             with_foods s
               (fold_left (fun m d => <[fst d := snd d]> m)
                  (combine ids sampleFoods) ∅))) as ->.
  { unfold food_list, Food_find, Food_insertMany.
    rewrite Hempty, map_to_list_empty, Hlen.
    rewrite (bool_decide_eq_true_2 _ Hnd).
    replace (forallb _ ids) with true; [done|].
    symmetry. apply forallb_forall. intros i _.
    apply bool_decide_eq_true_2, lookup_empty. }
  cbn [fst snd fr_data food_found].
  assert (List.map fst (combine ids sampleFoods) = ids) as Hfst.
  { destruct ids as [|a [|b [|c [|]]]]; done. }
  assert (forall id f,
            fold_left (fun m d => <[fst d := snd d]> m)
              (combine ids sampleFoods) (∅ : gmap string Food) !! id
            = Some f
            <-> In (id, f) (combine ids sampleFoods)) as Hdocs.
  { intros id f. rewrite lookup_inserted by by rewrite Hfst.
    rewrite lookup_empty. intuition discriminate. }
  split; [done|]. split; [exact Hdocs|]. split; [done|]. split; [done|].
  intros up ids'. unfold food_list. destruct up; [|done].
  unfold Food_find. cbn [foods with_foods].
  destruct (map_to_list _) as [|d0 l] eqn:El.
  { apply map_to_list_empty_iff in El.
    destruct ids as [|a ids]; [done|].
    apply (f_equal (fun m => m !! a)) in El. rewrite lookup_empty in El.
    destruct (combine (a :: ids) sampleFoods) as [|[k f] l] eqn:Ec;
      [done|].
    injection Ec as <- _ _.
    assert (In (a, f) ((a, f) :: l)) as Hin by by left.
    apply Hdocs in Hin. by rewrite El in Hin. }
  cbn [List.length Nat.eqb fst snd fr_data food_found].
  split; [done|]. intros _ [id f]. rewrite <- El, <- Hdocs.
  rewrite <- list_elem_of_In. apply elem_of_map_to_list.
Qed.

(** An empty store seeded with the three ids of the worked catalog. *)
Lemma listing_seeds_once_witness :
  fr_data (fst (food_list true [Tour.pizza; Tour.salad; Tour.sandwich]
                  Tour.nothing))
  = combine [Tour.pizza; Tour.salad; Tour.sandwich] sampleFoods.
Proof.
  refine (proj1 (listing_seeds_once [Tour.pizza; Tour.salad; Tour.sandwich]
                   Tour.nothing eq_refl eq_refl _)).
  apply (bool_decide_unpack _). vm_compute. reflexivity.
Defined.

(** ** One user's view and the calls of the others *)

Lemma view_items_same (cast : string -> option string) (s s' : Store)
    (entries : list (string * JsValue)) (acc : list CartLine) (t : float)
    (n : float) :
  foods s' = foods s ->
  view_items cast s' entries acc t n
  = view_items cast s entries acc t n.
Proof.
  intros Hf. revert acc t n.
  induction entries as [|[k v] rest IH]; intros acc t n; [done|].
  simpl. unfold Food_findById. rewrite Hf.
  destruct (gt_zero v); [|done].
  destruct (cast k) as [oid|]; [|done].
  by destruct (foods s !! oid).
Qed.

Lemma cart_get_same (cast : string -> option string) (uid : string)
    (s s' : Store) :
  users s' !! uid = users s !! uid ->
  foods s' = foods s ->
  cart_get cast uid s' = cart_get cast uid s.
Proof.
  intros Hu Hf. unfold cart_get, User_findById. rewrite Hu.
  destruct (users s !! uid) as [u|]; [|done].
  by rewrite (view_items_same cast s s' _ _ _ _ Hf).
Qed.

Lemma order_userorders_same (uid : string) (b : PageBody) (s s' : Store) :
  Order_find s' uid = Order_find s uid ->
  foods s' = foods s ->
  order_userorders uid b s' = order_userorders uid b s.
Proof.
  intros Ho Hf.
  assert (format_order s' = format_order s) as Hfmt.
  { unfold format_order, format_item. by rewrite Hf. }
  unfold order_userorders, orders_page, Order_countDocuments.
  by rewrite Ho, Hfmt.
Qed.

(** A call of one user leaves the document and the orders of another
    as they are. *)
Lemma step_other_user (cast : string -> option string)
    (jwt_sign : N -> string -> string)
    (bcrypt_hash : string -> string -> string) (s : Store)
    (caller : string) (c : Call) (uid : string) (u : User) :
  caller <> uid ->
  users s !! uid = Some u ->
  users (step cast jwt_sign bcrypt_hash s (caller, c)) !! uid = Some u
  /\ Order_find (step cast jwt_sign bcrypt_hash s (caller, c)) uid
     = Order_find s uid.
Proof.
  intros Hne Hu. split.
  - destruct (step_users cast jwt_sign bcrypt_hash s caller c)
      as [->|[(v & cart & _ & -> & _)|(id & v & Hid & -> & _)]];
      [done|by rewrite lookup_insert_ne|].
    rewrite lookup_insert_ne; [done|]. intros ->. congruence.
  - unfold Order_find.
    destruct (step_orders cast jwt_sign bcrypt_hash s caller c)
      as [->|(o & -> & Ho & _)]; [done|].
    rewrite List.filter_app. simpl. rewrite Ho.
    apply String.eqb_neq in Hne as ->. by rewrite app_nil_r.
Qed.

Lemma run_other_users (cast : string -> option string)
    (jwt_sign : N -> string -> string)
    (bcrypt_hash : string -> string -> string)
    (cs : list (string * Call)) (s : Store) (uid : string) (u : User) :
  users s !! uid = Some u ->
  Forall (fun c => fst c <> uid) cs ->
  users (run cast jwt_sign bcrypt_hash cs s) !! uid = Some u
  /\ Order_find (run cast jwt_sign bcrypt_hash cs s) uid
     = Order_find s uid
  /\ (foods s <> ∅ ->
      foods (run cast jwt_sign bcrypt_hash cs s) = foods s).
Proof.
  revert s. induction cs as [|[caller c] cs IH]; intros s Hu Hcs; [done|].
  apply Forall_cons in Hcs as [Hne Hcs]. simpl in Hne.
  destruct (step_other_user cast jwt_sign bcrypt_hash s caller c uid u
              Hne Hu) as [Hu1 Ho1].
  destruct (IH _ Hu1 Hcs) as (Hu2 & Ho2 & Hf2).
  simpl. split; [done|]. split; [congruence|].
  intros Hfs.
  destruct (step_foods cast jwt_sign bcrypt_hash s caller c)
    as [Hsame|Hempty]; [|done].
  rewrite Hf2; [done|]. by rewrite Hsame.
Qed.

(** X23. What others do does not show in a user's own view. Through any
    run of calls made by other callers, a user of the store keeps the
    same document, cart included; with a catalog that holds an item,
    the cart view of the user and every page of the user's order
    listing are the same after the run as before it. *)
Theorem others_do_not_interfere (cast : string -> option string)
    (jwt_sign : N -> string -> string)
    (bcrypt_hash : string -> string -> string)
    (cs : list (string * Call)) (s : Store) (uid : string) (u : User) :
  users s !! uid = Some u ->
  Forall (fun c => fst c <> uid) cs ->
  foods s <> ∅ ->
  let s' := run cast jwt_sign bcrypt_hash cs s in
  users s' !! uid = Some u
  /\ cart_get cast uid s' = cart_get cast uid s
  /\ forall b, order_userorders uid b s' = order_userorders uid b s.
Proof.
  intros Hu Hcs Hfs. cbv zeta.
  destruct (run_other_users cast jwt_sign bcrypt_hash cs s uid u Hu Hcs)
    as (Hu' & Ho' & Hf'). specialize (Hf' Hfs).
  split; [done|]. split.
  - apply cart_get_same; [by rewrite Hu', Hu | done].
  - intros b. by apply order_userorders_same.
Qed.

(** The second user's first page while the first user fills a cart,
    orders and clears. *)
Lemma others_do_not_interfere_witness :
  order_userorders Example.bob Example.first_page
    (run Example.cast Tour.sign Tour.hash
       [ (Example.alice,
          CartAdd true {| body_itemId := Example.itemA;
                          body_quantity := Some 1%float |});
         (Example.alice,
          OrderPlace (Example.at_time 1700001200000
                        "665f1c2ab7e4d90a1c3e5b05") Example.body);
         (Example.alice, CartClear true) ]
       Example.history)
  = order_userorders Example.bob Example.first_page Example.history.
Proof.
  refine (proj2 (proj2 (others_do_not_interfere Example.cast Tour.sign
                          Tour.hash _ Example.history Example.bob
                          (with_cart Example.guest []) _ _ _)) _).
  - vm_compute. reflexivity.
  - repeat constructor; discriminate.
  - intros H. apply (f_equal (fun m => m !! Example.itemA)) in H.
    vm_compute in H. discriminate H.
Defined.
